(** * libica: the ECC dispatch engine of [src/s390_ecc.c]

    A shallow embedding of the elliptic-curve entry points of libica
    (ECDH, ECDSA sign and verify, key generation, X25519/X448 ladder) and
    of the request builders that talk to the CCA coprocessor.

    Conventions of the embedding:
    - a byte is a [Z] in [0, 256); a C buffer is a [list Z];
    - an address inside a buffer is a [nat] offset, a C length a [nat];
    - C [int] and [unsigned int] values are [Z]; where the source
      computes in [unsigned int] the wrap-around is written with [u32];
    - the CPU instructions, the coprocessor, [malloc] and the OpenSSL
      primitives are oracles collected in the record [environ]; each
      takes the history of calls made so far, so two calls need not agree;
    - every call that leaves the function is logged in a [trace], in the
      order in which the source makes it. *)

From Stdlib Require Import String Ascii.
From Stdlib Require Import ZArith List Bool Lia Arith.
Import ListNotations.
Open Scope Z_scope.

(** ** Constants of the C library and of OpenSSL *)

Module Errno.
Definition EIO : Z := 5.
Definition ENOMEM : Z := 12.
Definition EACCES : Z := 13.
Definition EFAULT : Z := 14.
Definition ENODEV : Z := 19.
Definition EINVAL : Z := 22.
End Errno.
Import Errno.

(** Curve identifiers of OpenSSL's [obj_mac.h]. *)
Definition NID_X9_62_prime256v1 : Z := 415.
Definition NID_secp384r1 : Z := 715.
Definition NID_secp521r1 : Z := 716.
Definition NID_X25519 : Z := 1034.
Definition NID_X448 : Z := 1035.
Definition NID_ED25519 : Z := 1087.
Definition NID_ED448 : Z := 1088.

(** ** Buffers *)

(** The bytes of a C string literal, without its terminator. *)
Definition ascii_codes (s : string) : list Z :=
  map (fun c => Z.of_N (N_of_ascii c)) (list_ascii_of_string s).

Definition u32 (x : Z) : Z := x mod 2 ^ 32.

Definition zeros (n : nat) : list Z := repeat 0 n.

(** [load buf off n]: the [n] bytes of [buf] that start at [off]. *)
Definition load (buf : list Z) (off n : nat) : list Z :=
  firstn n (skipn off buf).

(** [memcpy dst off src n] is C's [memcpy(dst + off, src, n)].  The C
    call is defined only when [src] holds [n] bytes and [dst] holds
    [off + n]; there the length of [dst] is kept. *)
Definition memcpy (dst : list Z) (off : nat) (src : list Z) (n : nat)
  : list Z :=
  firstn off dst ++ firstn n src ++ skipn (off + n) dst.

(** [dst[i] = f(dst[i])], the compound assignments [&=] and [|=]. *)
Definition update_byte (buf : list Z) (i : nat) (f : Z -> Z) : list Z :=
  memcpy buf i [f (nth i buf 0)] 1.

(** [OPENSSL_cleanse(buf + off, n)]. *)
Definition OPENSSL_cleanse (buf : list Z) (off n : nat) : list Z :=
  memcpy buf off (zeros n) n.

(** Modelled from the spec: [s390_flip_endian_32] and
    [s390_flip_endian_64] are declared in [s390_crypto.h], which is not
    part of the sources; the specification describes them as the
    byte-order reversal of a 32-byte, respectively 64-byte, field.  Both
    are called in place on a field of the parameter block. *)
Definition s390_flip_endian (width : nat) (buf : list Z) (off : nat)
  : list Z :=
  memcpy buf off (rev (load buf off width)) width.

Definition s390_flip_endian_32 := s390_flip_endian 32.
Definition s390_flip_endian_64 := s390_flip_endian 64.

(** The 4k parameter block [union { long long buff[512]; ... } param]. *)
Definition PARAM_BYTES : nat := 4096.

(** ** What the header files supply *)

(** Indices into [s390_pcc_functions] and [s390_kdsa_functions]. *)
Inductive pcc_function :=
| SCALAR_MULTIPLY_P256 | SCALAR_MULTIPLY_P384 | SCALAR_MULTIPLY_P521
| SCALAR_MULTIPLY_ED25519 | SCALAR_MULTIPLY_ED448
| SCALAR_MULTIPLY_X25519 | SCALAR_MULTIPLY_X448.

Inductive kdsa_function :=
| ECDSA_VERIFY_P256 | ECDSA_VERIFY_P384 | ECDSA_VERIFY_P521
| ECDSA_SIGN_P256 | ECDSA_SIGN_P384 | ECDSA_SIGN_P521.

(** [s390_ecc.h], [s390_crypto.h] and the zcrypt headers are not part of
    the sources.  What the code takes from them is kept as a parameter:
    the two curve tables, the function-code tables, the sentinel and the
    reason code, and the sizes of the wire structures. *)
Record header := {
  privlen_from_nid : Z -> Z;
  curve_type_from_nid : Z -> Z;
  s390_pcc_functions : pcc_function -> Z;
  s390_kdsa_functions : kdsa_function -> Z;
  DRIVER_NOT_LOADED : Z;
  RS_SIGNATURE_INVALID : Z;
  AUTOSELECT : Z;
  ZSECSENDCPRB : Z;
  CPRBXSIZE : Z;
  sizeof_ECC_KEYBLOCK_LENGTH : Z;
  sizeof_ECDH_NULLKEY : Z;
  sizeof_ECC_NULL_TOKEN : Z;
  sizeof_CCA_TOKEN_HDR : Z;
  sizeof_ECC_PRIVATE_KEY_SECTION : Z;
  sizeof_ECC_ASSOCIATED_DATA : Z;
  sizeof_ECC_PUBLIC_KEY_SECTION : Z;
  sizeof_ECC_PRIVATE_KEY_TOKEN : Z;
  sizeof_ECC_PUBLIC_KEY_TOKEN : Z;
  sizeof_ECDSA_PUBLIC_KEY_BLOCK : Z;
  sizeof_ECKEYGEN_KEY_TOKEN : Z;
  sizeof_ECDH_PARMBLOCK : Z;
  sizeof_ECDSA_PARMBLOCK_PART1 : Z;
  sizeof_ECDSA_PARMBLOCK_PART2 : Z;
  sizeof_ECKEYGEN_PARMBLOCK : Z;
  MAX_ECC_PRIV_SIZE : Z
}.

Definition PARMBSIZE : Z := 2048.

(** ** Keys *)

(** [ICA_EC_KEY]: a curve identifier and three pointers, each of which
    may be [NULL] ([None]).  [ica_ec_key_new] lays [X], [Y] and [D] out
    one after the other, each [privlen] bytes. *)
Record ICA_EC_KEY := {
  nid : Z;
  X : option (list Z);
  Y : option (list Z);
  D : option (list Z)
}.

(** Reading through a pointer.  Reading through [NULL] is undefined in
    C; the embedding reads no bytes there, and every statement below
    that depends on such a read assumes the pointer set. *)
Definition deref (p : option (list Z)) : list Z :=
  match p with Some l => l | None => [] end.

(** ** Wire structures of the coprocessor request

    Only the members that the source assigns are kept; every other
    member keeps the zero of the initial [memset]. *)

Record CPRBX := {
  cprb_len : Z;
  cprb_ver_id : Z;
  func_id : list Z;
  req_parml : Z;
  domain : Z;
  rpl_msgbl : Z;
  req_parmb : Z;     (* address, as an offset into the allocation *)
  rpl_parmb : Z
}.

Record ECDH_PARMBLOCK := {
  dh_subfunc_code : Z;
  dh_rule_array_len : Z;
  dh_rule_array_cmd : list Z;
  dh_vud_data : list Z
}.

Record ECDSA_PARMBLOCK_PART1 := {
  sg_subfunc_code : Z;
  sg_rule_array_len : Z;
  sg_rule_array_cmd : list Z;
  sg_vud_len : Z;
  sg_vud1_len : Z;
  sg_vud1 : list Z
}.

Record ECDSA_PARMBLOCK_PART2 := {
  sv_vud2_len : Z;
  sv_vud2_data : list Z
}.

Record ECKEYGEN_PARMBLOCK := {
  pg_subfunc_code : Z;
  pg_rule_array_len : Z;
  pg_rule_array_cmd : list Z;
  pg_vud_len : Z
}.

Record ECC_KEYBLOCK_LENGTH := { keyblock_len : Z }.

Record ECDH_NULLKEY := { nullkey_len : list Z }.

Record ECC_NULL_TOKEN := {
  nt_len : Z;
  nt_flags : Z;
  nt_nulltoken : Z
}.

Record CCA_TOKEN_HDR := {
  tkn_hdr_id : Z;
  tkn_length : Z
}.

Record ECC_PRIVATE_KEY_SECTION := {
  ps_section_id : Z;
  ps_version : Z;
  ps_section_len : Z;
  ps_key_usage : Z;
  ps_curve_type : Z;
  ps_key_format : Z;
  priv_p_bitlen : Z;
  associated_data_len : Z;
  ibm_associated_data_len : Z;
  formatted_data_len : Z
}.

Record ECC_ASSOCIATED_DATA := {
  ibm_data_len : Z;
  ad_curve_type : Z;
  p_bitlen : Z;
  usage_flag : Z;
  format_and_sec_flag : Z
}.

Record ECC_PUBLIC_KEY_SECTION := {
  pb_section_id : Z;
  pb_section_len : Z;
  pb_curve_type : Z;
  pub_p_bitlen : Z;
  pub_q_bytelen : Z
}.

Record ECC_PRIVATE_KEY_TOKEN := {
  key_len : Z;
  reserved : Z;
  tknhdr : CCA_TOKEN_HDR;
  privsec : ECC_PRIVATE_KEY_SECTION;
  adata : ECC_ASSOCIATED_DATA;
  privkey : list Z
}.

Record ECC_PUBLIC_KEY_TOKEN := {
  pubsec : ECC_PUBLIC_KEY_SECTION;
  compress_flag : Z;
  pubkey : list Z
}.

Record ECDSA_PUBLIC_KEY_BLOCK := {
  kb_key_len : Z;
  kb_tknhdr : CCA_TOKEN_HDR;
  kb_pubsec : ECC_PUBLIC_KEY_SECTION;
  kb_compress_flag : Z;
  kb_pubkey : list Z
}.

Record ECKEYGEN_KEY_TOKEN := {
  kg_key_len : Z;
  kg_reserved1 : Z;
  kg_tknhdr : CCA_TOKEN_HDR;
  kg_privsec : ECC_PRIVATE_KEY_SECTION;
  kg_adata : ECC_ASSOCIATED_DATA;
  kg_pubsec : ECC_PUBLIC_KEY_SECTION
}.

(** One structure written into the request buffer. *)
Inductive item :=
| ItCPRBX (c : CPRBX)
| ItEcdhParmblock (p : ECDH_PARMBLOCK)
| ItEcdsaPart1 (p : ECDSA_PARMBLOCK_PART1)
| ItEcdsaPart2 (p : ECDSA_PARMBLOCK_PART2)
| ItEckeygenParmblock (p : ECKEYGEN_PARMBLOCK)
| ItKeyblockLength (k : ECC_KEYBLOCK_LENGTH)
| ItNullkey (k : ECDH_NULLKEY)
| ItNullToken (k : ECC_NULL_TOKEN)
| ItPrivateKeyToken (k : ECC_PRIVATE_KEY_TOKEN)
| ItPublicKeyToken (k : ECC_PUBLIC_KEY_TOKEN)
| ItPublicKeyBlock (k : ECDSA_PUBLIC_KEY_BLOCK)
| ItEckeygenKeyToken (k : ECKEYGEN_KEY_TOKEN).

(** The request half of the allocation [*cbrbmem]: the structures the
    builder has overlaid on it, each with the offset it was written at,
    in the order of the writes. *)
Definition wire := list (Z * item).

Record ica_xcRB := {
  agent_ID : Z;
  user_defined : Z;
  request_control_blk_length : Z;
  request_control_blk_addr : Z;
  reply_control_blk_length : Z;
  reply_control_blk_addr : Z
}.

(** The reply half of the allocation after the [ioctl], as the source
    reads it through its four overlays: [struct CPRBX], [ECDH_REPLY],
    [ECDSA_SIGN_REPLY] and [ECKEYGEN_REPLY].  [rp_pub_at d] is the
    [ECC_PUBLIC_KEY_TOKEN] overlaid [d] bytes after
    [&reply_p->eckey.privsec]. *)
Record card_reply := {
  ccp_rtcode : Z;
  ccp_rscode : Z;
  rp_key_len : Z;
  raw_z_value : list Z;
  rp_vud_len : Z;
  rp_signature : list Z;
  rp_formatted_data_len : Z;
  rp_section_len : Z;
  rp_privkey : list Z;
  rp_pub_at : Z -> ECC_PUBLIC_KEY_TOKEN
}.

(** ** The world outside the functions *)

(** OpenSSL's [EC_KEY], as far as the source fills it: the curve and the
    affine public point, if one was set. *)
Record EC_KEY := {
  ek_nid : Z;
  ek_pub : option (Z * Z)
}.

(** OpenSSL calls whose only modelled outcome is success or failure. *)
Inductive openssl_call :=
| call_BN_CTX_new | call_BN_new | call_BN_bin2bn | call_BN_bn2bin
| call_EC_KEY_new_by_curve_name (curve : Z) | call_EC_POINT_new
| call_EC_KEY_set_public_key | call_EC_GROUP_new_by_curve_name (curve : Z)
| call_ECDSA_SIG_new | call_FIPS_mode.

Inductive event :=
| EvPcc (fc : Z) (param : list Z)
| EvKdsa (fc : Z) (param : list Z)
| EvRng (n : nat)
| EvOpenSSL (c : openssl_call)
| EvBN_rand_range (range : Z)
| EvEC_POINT_mul (curve : Z) (scalar : Z)
| EvEC_POINT_get_affine (curve : Z)
| EvECDSA_do_verify (curve : Z)
| EvDomain
| EvMalloc (len : Z) (ok : bool)
| EvCleanse (len : Z)
| EvFree
| EvIoctl (handle : Z) (xcrb : ica_xcRB) (request : wire).

Definition trace := list event.

(** The process-wide switches. [ICA_FIPS] is the compile-time macro. *)
Record config := {
  msa9_switch : bool;
  ica_offload_enabled : bool;
  ecc_via_online_card : bool;
  ICA_FIPS : bool;
  fips_ICA_FIPS_MODE : bool
}.

(** The oracles.  [s390_pcc] and [s390_kdsa] return the condition code
    and the parameter block as the instruction leaves it. *)
Record environ := {
  s390_pcc : trace -> Z -> list Z -> Z * list Z;
  s390_kdsa : trace -> Z -> list Z -> Z * list Z;
  malloc : trace -> Z -> bool;
  ioctl : trace -> Z -> Z -> ica_xcRB -> wire -> Z * card_reply;
  sys_bus_ap_domain : trace -> Z;
  openssl_ok : trace -> openssl_call -> bool;
  BN_rand_range : trace -> Z -> option Z;
  EC_POINT_mul : trace -> Z -> Z -> option (Z * Z);
  EC_POINT_get_affine_coordinates_GFp : trace -> Z -> Z * Z -> option (Z * Z);
  ECDSA_do_verify :
    trace -> list Z -> Z -> option Z * option Z -> EC_KEY -> Z
}.

(** ** The CPU instruction adapter *)

Section Cpacf.

Variable H : header.
Variable E : environ.

(** The length [privlen_from_nid] returns, converted to [size_t]. *)
Definition privlen_size (curve_nid : Z) : nat :=
  Z.to_nat (privlen_from_nid H curve_nid).

(** One [case] of [scalar_mul_cpacf]: the five fields [res_x], [res_y],
    [x], [y], [scalar] of [DEF_PARAM(curve, size)] lie at the multiples
    of [size].  The fourth component of the result is the parameter
    block as the function leaves it on its stack, after the final
    [OPENSSL_cleanse(param.buff, sizeof(param.buff))]. *)
Definition scalar_mul_case (size : nat) (f : pcc_function) (len : nat)
    (res_x res_y : option (list Z)) (scalar x y : list Z) (t : trace)
  : Z * option (list Z) * option (list Z) * list Z * trace :=
  let param := zeros PARAM_BYTES in
  let off := (size - len)%nat in
  let param := memcpy param (2 * size + off) x (size - off) in
  let param := memcpy param (3 * size + off) y (size - off) in
  let param := memcpy param (4 * size + off) scalar (size - off) in
  let fc := s390_pcc_functions H f in
  let '(cc, out) := s390_pcc E t fc param in
  let rc := if cc =? 0 then 0 else EIO in
  let res_x :=
    option_map (fun r => memcpy r 0 (load out off len) len) res_x in
  let res_y :=
    option_map (fun r => memcpy r 0 (load out (size + off) len) len) res_y in
  (rc, res_x, res_y, OPENSSL_cleanse out 0 PARAM_BYTES,
   t ++ [EvPcc fc param]).

Definition scalar_mul_cpacf (res_x res_y : option (list Z))
    (scalar x y : list Z) (curve_nid : Z) (t : trace)
  : Z * option (list Z) * option (list Z) * list Z * trace :=
  let len := privlen_size curve_nid in
  if curve_nid =? NID_X9_62_prime256v1 then
    scalar_mul_case 32 SCALAR_MULTIPLY_P256 len res_x res_y scalar x y t
  else if curve_nid =? NID_secp384r1 then
    scalar_mul_case 48 SCALAR_MULTIPLY_P384 len res_x res_y scalar x y t
  else if curve_nid =? NID_secp521r1 then
    scalar_mul_case 80 SCALAR_MULTIPLY_P521 len res_x res_y scalar x y t
  else if curve_nid =? NID_ED25519 then
    scalar_mul_case 32 SCALAR_MULTIPLY_ED25519 len res_x res_y scalar x y t
  else if curve_nid =? NID_ED448 then
    scalar_mul_case 64 SCALAR_MULTIPLY_ED448 len res_x res_y scalar x y t
  else
    (EINVAL, res_x, res_y,
     OPENSSL_cleanse (zeros PARAM_BYTES) 0 PARAM_BYTES, t).

(** [scalar_mulx_cpacf]: the fields [res_u], [u], [scalar] of
    [DEF_PARAM(X25519, 32)] and [DEF_PARAM(X448, 64)].  The third
    component of the result is the block left behind by the final
    [OPENSSL_cleanse]. *)
Definition scalar_mulx_cpacf (res_u : option (list Z))
    (scalar u : list Z) (curve_nid : Z) (t : trace)
  : Z * option (list Z) * list Z * trace :=
  let len := privlen_size curve_nid in
  let param := zeros PARAM_BYTES in
  if curve_nid =? NID_X25519 then
    let param := memcpy param 32 u len in
    let param := memcpy param 64 scalar len in
    let param := update_byte param (32 + 31) (fun b => Z.land b 0x7f) in
    let param := update_byte param (64 + 0) (fun b => Z.land b 248) in
    let param := update_byte param (64 + 31) (fun b => Z.land b 127) in
    let param := update_byte param (64 + 31) (fun b => Z.lor b 64) in
    (* to big-endian *)
    let param := s390_flip_endian_32 param 32 in
    let param := s390_flip_endian_32 param 64 in
    let fc := s390_pcc_functions H SCALAR_MULTIPLY_X25519 in
    let '(cc, out) := s390_pcc E t fc param in
    let rc := if cc =? 0 then 0 else EIO in
    (* to little-endian *)
    let out := s390_flip_endian_32 out 0 in
    let res_u :=
      option_map (fun r => memcpy r 0 (load out 0 len) len) res_u in
    (rc, res_u, OPENSSL_cleanse out 0 PARAM_BYTES, t ++ [EvPcc fc param])
  else if curve_nid =? NID_X448 then
    let param := memcpy param 64 u len in
    let param := memcpy param 128 scalar len in
    let param := update_byte param (128 + 0) (fun b => Z.land b 252) in
    let param := update_byte param (128 + 55) (fun b => Z.lor b 128) in
    (* to big-endian *)
    let param := s390_flip_endian_64 param 64 in
    let param := s390_flip_endian_64 param 128 in
    let fc := s390_pcc_functions H SCALAR_MULTIPLY_X448 in
    let '(cc, out) := s390_pcc E t fc param in
    let rc := if cc =? 0 then 0 else EIO in
    (* to little-endian *)
    let out := s390_flip_endian_64 out 0 in
    let res_u :=
      option_map (fun r => memcpy r 0 (load out 0 len) len) res_u in
    (rc, res_u, OPENSSL_cleanse out 0 PARAM_BYTES, t ++ [EvPcc fc param])
  else
    (EINVAL, res_u, OPENSSL_cleanse param 0 PARAM_BYTES, t).

(** The random-number callback [rng_cb(buf, n)]: the [n] bytes it
    writes, given the history. *)
Definition rng_callback := trace -> nat -> list Z.

(** The body of [do { rng_cb(rand + off, size - off);
    rc = s390_kdsa(fc, param.buff, NULL, 0); } while (rc);] on the
    parameter block and the history. *)
Definition kdsa_attempt (rng_cb : rng_callback) (fc : Z)
    (rand_at n : nat) (st : list Z * trace) : Z * (list Z * trace) :=
  let '(param, t) := st in
  let param := memcpy param rand_at (rng_cb t n) n in
  let t := t ++ [EvRng n] in
  let '(rc, out) := s390_kdsa E t fc param in
  (rc, (out, t ++ [EvKdsa fc param])).

(** The loop itself; [None] when [fuel] attempts were all rejected. *)
Fixpoint sign_retry (fuel : nat) (rng_cb : rng_callback) (fc : Z)
    (rand_at n : nat) (st : list Z * trace)
  : option (Z * (list Z * trace)) :=
  match fuel with
  | O => None
  | S fuel' =>
      let '(rc, st') := kdsa_attempt rng_cb fc rand_at n st in
      if rc =? 0 then Some (rc, st')
      else sign_retry fuel' rng_cb fc rand_at n st'
  end.

(** One [case] of [ecdsa_sign_cpacf]: the fields [sig_r], [sig_s],
    [hash], [priv], [rand] lie at the multiples of [size].  First the
    block as it is before the instruction is reached. *)
Definition ecdsa_sign_param (size : nat) (priv : ICA_EC_KEY)
    (hash : list Z) (hashlen : nat) : list Z :=
  let param := zeros PARAM_BYTES in
  let off := (size - (if (size <? hashlen)%nat then size else hashlen))%nat in
  let param := memcpy param (2 * size + off) hash (size - off) in
  let off := (size - privlen_size (nid priv))%nat in
  memcpy param (3 * size + off) (deref (D priv)) (size - off).

(** [memcpy(sig, sig_r + off, size - off);
     memcpy(sig + size - off, sig_s + off, size - off);] *)
Definition read_signature (size off : nat) (out sig : list Z) : list Z :=
  let sig := memcpy sig 0 (load out off (size - off)) (size - off) in
  memcpy sig (size - off) (load out (size + off) (size - off)) (size - off).

(** The result carries the parameter block as the function leaves it on
    its stack. *)
Definition ecdsa_sign_case (fuel : nat) (size : nat) (f : kdsa_function)
    (priv : ICA_EC_KEY) (hash : list Z) (hashlen : nat) (sig : list Z)
    (rng_cb : option rng_callback) (t : trace)
  : option (Z * list Z * list Z * trace) :=
  let param := ecdsa_sign_param size priv hash hashlen in
  let off := (size - privlen_size (nid priv))%nat in
  let fc := s390_kdsa_functions H f in
  let invoked :=
    match rng_cb with
    | None =>
        let '(rc, out) := s390_kdsa E t fc param in
        Some (rc, (out, t ++ [EvKdsa fc param]))
    | Some cb =>
        let fc := Z.lor fc 0x80 in (* deterministic signature *)
        sign_retry fuel cb fc (4 * size + off) (size - off) (param, t)
    end in
  match invoked with
  | None => None
  | Some (rc, (out, t)) =>
      let sig := read_signature size off out sig in
      let out := OPENSSL_cleanse out (3 * size) size in
      let out := OPENSSL_cleanse out (4 * size) size in
      Some (rc, sig, out, t)
  end.

Definition ecdsa_sign_cpacf (fuel : nat) (priv : ICA_EC_KEY)
    (hash : list Z) (hashlen : nat) (sig : list Z)
    (rng_cb : option rng_callback) (t : trace)
  : option (Z * list Z * list Z * trace) :=
  if nid priv =? NID_X9_62_prime256v1 then
    ecdsa_sign_case fuel 32 ECDSA_SIGN_P256 priv hash hashlen sig rng_cb t
  else if nid priv =? NID_secp384r1 then
    ecdsa_sign_case fuel 48 ECDSA_SIGN_P384 priv hash hashlen sig rng_cb t
  else if nid priv =? NID_secp521r1 then
    ecdsa_sign_case fuel 80 ECDSA_SIGN_P521 priv hash hashlen sig rng_cb t
  else
    Some (EINVAL, sig, zeros PARAM_BYTES, t).

(** One [case] of [ecdsa_verify_cpacf]: the fields [sig_r], [sig_s],
    [hash], [pub_x], [pub_y]. *)
Definition ecdsa_verify_param (size : nat) (pub : ICA_EC_KEY)
    (hash : list Z) (hashlen : nat) (sig : list Z) : list Z :=
  let param := zeros PARAM_BYTES in
  let off := (size - (if (size <? hashlen)%nat then size else hashlen))%nat in
  let param := memcpy param (2 * size + off) hash (size - off) in
  let off := (size - privlen_size (nid pub))%nat in
  let param := memcpy param off sig (size - off) in
  let param :=
    memcpy param (size + off) (skipn (size - off) sig) (size - off) in
  let param := memcpy param (3 * size + off) (deref (X pub)) (size - off) in
  let param := memcpy param (4 * size + off) (deref (Y pub)) (size - off) in
  param.

Definition ecdsa_verify_cpacf (pub : ICA_EC_KEY) (hash : list Z)
    (hashlen : nat) (sig : list Z) (t : trace) : Z * trace :=
  let selected :=
    if nid pub =? NID_X9_62_prime256v1 then
      Some (ecdsa_verify_param 32 pub hash hashlen sig,
            s390_kdsa_functions H ECDSA_VERIFY_P256)
    else if nid pub =? NID_secp384r1 then
      Some (ecdsa_verify_param 48 pub hash hashlen sig,
            s390_kdsa_functions H ECDSA_VERIFY_P384)
    else if nid pub =? NID_secp521r1 then
      Some (ecdsa_verify_param 80 pub hash hashlen sig,
            s390_kdsa_functions H ECDSA_VERIFY_P521)
    else None in
  match selected with
  | None => (EINVAL, t)
  | Some (param, fc) =>
      let '(cc, _) := s390_kdsa E t fc param in
      ((if cc =? 0 then 0 else EFAULT), t ++ [EvKdsa fc param])
  end.

End Cpacf.

(** ** The coprocessor protocol codec: building requests *)

Section Codec.

Variable H : header.
Variable E : environ.

Definition make_keyblock_length (len : Z) : ECC_KEYBLOCK_LENGTH * Z :=
  ({| keyblock_len := len |}, sizeof_ECC_KEYBLOCK_LENGTH H).

Definition make_nullkey : ECDH_NULLKEY * Z :=
  ({| nullkey_len := [0x00; 0x44] |}, sizeof_ECDH_NULLKEY H).

Definition make_ecc_null_token : ECC_NULL_TOKEN * Z :=
  ({| nt_len := 0x0005; nt_flags := 0x0010; nt_nulltoken := 0x00 |},
   sizeof_ECC_NULL_TOKEN H).

(** [get_default_domain]: the cached value of [/sys/bus/ap/ap_domain]. *)
Definition get_default_domain (t : trace) : Z * trace :=
  (sys_bus_ap_domain E t, t ++ [EvDomain]).

(** [preqcblk] and [prepcblk] are given as offsets into [*cbrbmem]. *)
Definition make_cprbx (parmlen : Z) (preqcblk prepcblk : Z) (t : trace)
  : CPRBX * Z * trace :=
  let '(dom, t) := get_default_domain t in
  ({| cprb_len := CPRBXSIZE H;
      cprb_ver_id := 0x02;
      func_id := ascii_codes "T2";
      req_parml := parmlen;
      domain := dom;
      rpl_msgbl := CPRBXSIZE H + PARMBSIZE;
      req_parmb := preqcblk + CPRBXSIZE H;
      rpl_parmb := prepcblk + CPRBXSIZE H |},
   CPRBXSIZE H, t).

Definition make_ecdh_parmblock : ECDH_PARMBLOCK * Z :=
  let static_vud :=
    [0x00; 0x14] ++
    [0x00; 0x04; 0x00; 0x91] ++
    [0x00; 0x06; 0x00; 0x93; 0x00; 0x00] ++
    [0x00; 0x04; 0x00; 0x90] ++
    [0x00; 0x04; 0x00; 0x92] in
  ({| dh_subfunc_code := 0x4448; (* 'DH' in ASCII *)
      dh_rule_array_len := 0x000A;
      dh_rule_array_cmd := ascii_codes "PASSTHRU";
      dh_vud_data := static_vud |},
   sizeof_ECDH_PARMBLOCK H).

(** The bit length the builders put into a token: [privlen*8], and 521
    for [NID_secp521r1]. *)
Definition token_bitlen (curve_nid privlen : Z) : Z :=
  let priv_bitlen := u32 (privlen * 8) in
  if curve_nid =? NID_secp521r1 then 521 else priv_bitlen.

(** [make_ecdh_key_token]: [kp1] is written at [kb], [kp2] at
    [kb + sizeof(ECC_PRIVATE_KEY_TOKEN) + privlen]. *)
Definition make_ecdh_key_token (keyblock_length : Z)
    (privkey_A pubkey_B : ICA_EC_KEY) (curve_type : Z)
  : ECC_PRIVATE_KEY_TOKEN * ECC_PUBLIC_KEY_TOKEN * Z :=
  let privlen := u32 (privlen_from_nid H (nid privkey_A)) in
  let this_length :=
    u32 (sizeof_ECC_PRIVATE_KEY_TOKEN H + privlen
         + sizeof_ECC_PUBLIC_KEY_TOKEN H + 2 * privlen) in
  let ecdhkey_length :=
    u32 (2 + 2 + sizeof_CCA_TOKEN_HDR H
         + sizeof_ECC_PRIVATE_KEY_SECTION H
         + sizeof_ECC_ASSOCIATED_DATA H + privlen
         + sizeof_ECC_PUBLIC_KEY_TOKEN H + 2 * privlen) in
  let priv_bitlen := token_bitlen (nid privkey_A) privlen in
  let kp1 :=
    {| key_len := ecdhkey_length;
       reserved := 0;
       tknhdr := {| tkn_hdr_id := 0x1E;
                    tkn_length := u32 (ecdhkey_length - 2 - 2) |};
       privsec :=
         {| ps_section_id := 0x20;
            ps_version := 0x00;
            ps_section_len :=
              sizeof_ECC_PRIVATE_KEY_SECTION H
              + sizeof_ECC_ASSOCIATED_DATA H + privlen;
            ps_key_usage := 0xC0;
            ps_curve_type := curve_type;
            ps_key_format := 0x40; (* unencrypted key *)
            priv_p_bitlen := priv_bitlen;
            associated_data_len := sizeof_ECC_ASSOCIATED_DATA H;
            ibm_associated_data_len := sizeof_ECC_ASSOCIATED_DATA H;
            formatted_data_len := privlen |};
       adata :=
         {| ibm_data_len := sizeof_ECC_ASSOCIATED_DATA H;
            ad_curve_type := curve_type;
            p_bitlen := priv_bitlen;
            usage_flag := 0xC0;
            format_and_sec_flag := 0x40 |};
       privkey := firstn (Z.to_nat privlen) (deref (D privkey_A)) |} in
  let kp2 :=
    {| pubsec :=
         {| pb_section_id := 0x21;
            pb_section_len :=
              sizeof_ECC_PUBLIC_KEY_TOKEN H + u32 (2 * privlen);
            pb_curve_type := curve_type;
            pub_p_bitlen := priv_bitlen;
            pub_q_bytelen := u32 (2 * privlen + 1) |};
       compress_flag := 0x04; (* uncompressed key *)
       pubkey := firstn (Z.to_nat privlen) (deref (X pubkey_B))
                 ++ firstn (Z.to_nat privlen) (deref (Y pubkey_B)) |} in
  (kp1, kp2, this_length).

Definition finalize_xcrb (preqcblk : CPRBX) (preq_addr prep_addr : Z)
  : ica_xcRB :=
  {| agent_ID := 0x4341;
     user_defined := AUTOSELECT H; (* use any card number *)
     request_control_blk_length := cprb_len preqcblk + req_parml preqcblk;
     request_control_blk_addr := preq_addr;
     reply_control_blk_length := rpl_msgbl preqcblk;
     reply_control_blk_addr := prep_addr |}.

(** What a request builder hands back when it does not return [NULL]:
    the populated request, the [xcrb] and [*len]. *)
Definition request := (wire * ica_xcRB * Z)%type.

(** The allocation of [2 * (CPRBXSIZE + PARMBSIZE)] bytes, the length
    of which the builder stores through its [len] argument. *)
Definition alloc_cbrbmem (t : trace) : bool * Z * trace :=
  let len := 2 * (CPRBXSIZE H + PARMBSIZE) in
  let ok := malloc E t len in
  (ok, len, t ++ [EvMalloc len ok]).

(** The two key-token writes of one [make_ecdh_key_token] call. *)
Definition key_token_items (offset : Z)
    (k : ECC_PRIVATE_KEY_TOKEN * ECC_PUBLIC_KEY_TOKEN) (privlen : Z)
  : wire :=
  [(offset, ItPrivateKeyToken (fst k));
   (offset + sizeof_ECC_PRIVATE_KEY_TOKEN H + privlen,
    ItPublicKeyToken (snd k))].

Definition make_ecdh_request (privkey_A pubkey_B : ICA_EC_KEY) (t : trace)
  : option request * trace :=
  let privlen := u32 (privlen_from_nid H (nid privkey_A)) in
  let ecdh_key_token_len :=
    u32 (2 + 2 + sizeof_CCA_TOKEN_HDR H
         + sizeof_ECC_PRIVATE_KEY_SECTION H
         + sizeof_ECC_ASSOCIATED_DATA H + privlen
         + sizeof_ECC_PUBLIC_KEY_TOKEN H + 2 * privlen) in
  let keyblock_len :=
    u32 (2 + 2 * ecdh_key_token_len + 4 * sizeof_ECDH_NULLKEY H) in
  let parmblock_len := u32 (sizeof_ECDH_PARMBLOCK H + keyblock_len) in
  let curve_type := curve_type_from_nid H (nid privkey_A) in
  if curve_type <? 0 then (None, t)
  else
    (* allocate buffer space for req cprb, req parm, rep cprb, rep parm *)
    let '(ok, len, t) := alloc_cbrbmem t in
    if negb ok then (None, t)
    else
      let preqcblk := 0 in
      let prepcblk := CPRBXSIZE H + PARMBSIZE in
      (* make ECDH request *)
      let '(cprbx, n, t) := make_cprbx parmblock_len preqcblk prepcblk t in
      let w := [(0, ItCPRBX cprbx)] in
      let offset := n in
      let '(pb, n) := make_ecdh_parmblock in
      let w := w ++ [(offset, ItEcdhParmblock pb)] in
      let offset := u32 (offset + n) in
      let '(kbl, n) := make_keyblock_length keyblock_len in
      let w := w ++ [(offset, ItKeyblockLength kbl)] in
      let offset := u32 (offset + n) in
      let '(k, n) :=
        make_ecdh_key_token ecdh_key_token_len privkey_A pubkey_B
                            curve_type in
      let w := w ++ key_token_items offset k privlen in
      let offset := u32 (offset + n) in
      let '(nk, n) := make_nullkey in
      let w := w ++ [(offset, ItNullkey nk)] in
      let offset := u32 (offset + n) in
      let '(k, n) :=
        make_ecdh_key_token ecdh_key_token_len privkey_A pubkey_B
                            curve_type in
      let w := w ++ key_token_items offset k privlen in
      let offset := u32 (offset + n) in
      let '(nk, n) := make_nullkey in
      let w := w ++ [(offset, ItNullkey nk)] in
      let offset := u32 (offset + n) in
      let '(nk, n) := make_nullkey in
      let w := w ++ [(offset, ItNullkey nk)] in
      let offset := u32 (offset + n) in
      let '(nk, n) := make_nullkey in
      let w := w ++ [(offset, ItNullkey nk)] in
      let xcrb := finalize_xcrb cprbx preqcblk prepcblk in
      (Some (w, xcrb, len), t).

Definition make_ecdsa_sign_parmblock (hash : list Z) (hash_length : Z)
  : ECDSA_PARMBLOCK_PART1 * Z :=
  ({| sg_subfunc_code := 0x5347; (* 'SG' *)
      sg_rule_array_len := 0x000A;
      sg_rule_array_cmd := ascii_codes "ECDSA   ";
      sg_vud_len := u32 (hash_length + 4);
      sg_vud1_len := u32 (hash_length + 2);
      sg_vud1 := firstn (Z.to_nat hash_length) hash |},
   u32 (sizeof_ECDSA_PARMBLOCK_PART1 H + hash_length)).

(** [pb1] is written at [pb], [pb2] at
    [pb + sizeof(ECDSA_PARMBLOCK_PART1) + hash_length]. *)
Definition make_ecdsa_verify_parmblock (hash : list Z) (hash_length : Z)
    (signature : list Z) (signature_len : Z)
  : ECDSA_PARMBLOCK_PART1 * ECDSA_PARMBLOCK_PART2 * Z :=
  ({| sg_subfunc_code := 0x5356; (* 'SV' *)
      sg_rule_array_len := 0x000A;
      sg_rule_array_cmd := ascii_codes "ECDSA   ";
      sg_vud_len := u32 (2 + (2 + hash_length) + (2 + signature_len));
      sg_vud1_len := u32 (2 + hash_length);
      sg_vud1 := firstn (Z.to_nat hash_length) hash |},
   {| sv_vud2_len := u32 (2 + signature_len);
      sv_vud2_data := firstn (Z.to_nat signature_len) signature |},
   u32 (sizeof_ECDSA_PARMBLOCK_PART1 H + hash_length
        + sizeof_ECDSA_PARMBLOCK_PART2 H + signature_len)).

(** [make_ecdsa_private_key_token]; here [privlen] is a C [int]. *)
Definition make_ecdsa_private_key_token (privkey : ICA_EC_KEY)
    (X_ Y_ : list Z) (curve_type : Z)
  : ECC_PRIVATE_KEY_TOKEN * ECC_PUBLIC_KEY_TOKEN * Z :=
  let privlen := privlen_from_nid H (nid privkey) in
  let ecdsakey_length :=
    u32 (2 + 2 + sizeof_CCA_TOKEN_HDR H
         + sizeof_ECC_PRIVATE_KEY_SECTION H
         + sizeof_ECC_ASSOCIATED_DATA H + privlen
         + sizeof_ECC_PUBLIC_KEY_TOKEN H + 2 * privlen) in
  let priv_bitlen := token_bitlen (nid privkey) privlen in
  let kp1 :=
    {| key_len := ecdsakey_length;
       reserved := 0x0020;
       tknhdr := {| tkn_hdr_id := 0x1E;
                    tkn_length := u32 (ecdsakey_length - 2 - 2) |};
       privsec :=
         {| ps_section_id := 0x20;
            ps_version := 0x00;
            ps_section_len :=
              sizeof_ECC_PRIVATE_KEY_SECTION H
              + sizeof_ECC_ASSOCIATED_DATA H + privlen;
            ps_key_usage := 0x80;
            ps_curve_type := curve_type;
            ps_key_format := 0x40; (* unencrypted key *)
            priv_p_bitlen := priv_bitlen;
            associated_data_len := sizeof_ECC_ASSOCIATED_DATA H;
            ibm_associated_data_len := sizeof_ECC_ASSOCIATED_DATA H;
            formatted_data_len := privlen |};
       adata :=
         {| ibm_data_len := sizeof_ECC_ASSOCIATED_DATA H;
            ad_curve_type := curve_type;
            p_bitlen := priv_bitlen;
            usage_flag := 0x80;
            format_and_sec_flag := 0x40 |};
       privkey := firstn (Z.to_nat privlen) (deref (D privkey)) |} in
  let kp2 :=
    {| pubsec :=
         {| pb_section_id := 0x21;
            pb_section_len := sizeof_ECC_PUBLIC_KEY_TOKEN H + 2 * privlen;
            pb_curve_type := curve_type;
            pub_p_bitlen := priv_bitlen;
            pub_q_bytelen := 2 * privlen + 1 |};
       compress_flag := 0x04; (* uncompressed key *)
       pubkey := firstn (Z.to_nat privlen) X_
                 ++ firstn (Z.to_nat privlen) Y_ |} in
  (kp1, kp2,
   u32 (sizeof_ECC_PRIVATE_KEY_TOKEN H + privlen
        + sizeof_ECC_PUBLIC_KEY_TOKEN H + 2 * privlen)).

Definition make_ecdsa_public_key_token (pubkey_ : ICA_EC_KEY)
    (curve_type : Z) : ECDSA_PUBLIC_KEY_BLOCK * Z :=
  let privlen := privlen_from_nid H (nid pubkey_) in
  let this_length := u32 (sizeof_ECDSA_PUBLIC_KEY_BLOCK H + 2 * privlen) in
  let priv_bitlen := token_bitlen (nid pubkey_) privlen in
  ({| kb_key_len := this_length;
      kb_tknhdr := {| tkn_hdr_id := 0x1E;
                      tkn_length := u32 (this_length - 2 - 2) |};
      kb_pubsec :=
        {| pb_section_id := 0x21;
           pb_section_len := sizeof_ECC_PUBLIC_KEY_TOKEN H + 2 * privlen;
           pb_curve_type := curve_type;
           pub_p_bitlen := priv_bitlen;
           pub_q_bytelen := 2 * privlen + 1 |};
      kb_compress_flag := 0x04; (* uncompressed key *)
      kb_pubkey := firstn (Z.to_nat privlen) (deref (X pubkey_))
                   ++ firstn (Z.to_nat privlen) (deref (Y pubkey_)) |},
   this_length).

Definition make_ecdsa_sign_request (privkey : ICA_EC_KEY)
    (X_ Y_ : list Z) (hash : list Z) (hash_length : Z) (t : trace)
  : option request * trace :=
  let privlen := privlen_from_nid H (nid privkey) in
  let ecdsa_key_token_len :=
    u32 (2 + 2 + sizeof_CCA_TOKEN_HDR H
         + sizeof_ECC_PRIVATE_KEY_SECTION H
         + sizeof_ECC_ASSOCIATED_DATA H + privlen
         + sizeof_ECC_PUBLIC_KEY_TOKEN H + 2 * privlen) in
  let keyblock_len := u32 (2 + ecdsa_key_token_len) in
  let parmblock_len :=
    u32 (sizeof_ECDSA_PARMBLOCK_PART1 H + hash_length + keyblock_len) in
  let curve_type := curve_type_from_nid H (nid privkey) in
  if curve_type <? 0 then (None, t)
  else
    (* allocate buffer space for req cprb, req parm, rep cprb, rep parm *)
    let '(ok, len, t) := alloc_cbrbmem t in
    if negb ok then (None, t)
    else
      let preqcblk := 0 in
      let prepcblk := CPRBXSIZE H + PARMBSIZE in
      (* make ECDSA sign request *)
      let '(cprbx, n, t) := make_cprbx parmblock_len preqcblk prepcblk t in
      let w := [(0, ItCPRBX cprbx)] in
      let offset := n in
      let '(pb, n) := make_ecdsa_sign_parmblock hash hash_length in
      let w := w ++ [(offset, ItEcdsaPart1 pb)] in
      let offset := u32 (offset + n) in
      let '(kbl, n) := make_keyblock_length keyblock_len in
      let w := w ++ [(offset, ItKeyblockLength kbl)] in
      let offset := u32 (offset + n) in
      let '(k, n) :=
        make_ecdsa_private_key_token privkey X_ Y_ curve_type in
      let w := w ++ key_token_items offset k privlen in
      let xcrb := finalize_xcrb cprbx preqcblk prepcblk in
      (Some (w, xcrb, len), t).

(** [make_ecdsa_verify_request] allocates first and looks the curve type
    up afterwards, as the source does. *)
Definition make_ecdsa_verify_request (pubkey_ : ICA_EC_KEY)
    (hash : list Z) (hash_length : Z) (signature : list Z) (t : trace)
  : option request * trace :=
  let privlen := u32 (privlen_from_nid H (nid pubkey_)) in
  let ecdsa_key_token_len :=
    u32 (2 + 2 + sizeof_CCA_TOKEN_HDR H
         + sizeof_ECC_PUBLIC_KEY_TOKEN H + 2 * privlen) in
  let keyblock_len := u32 (2 + ecdsa_key_token_len) in
  let parmblock_len :=
    u32 (sizeof_ECDSA_PARMBLOCK_PART1 H + hash_length
         + sizeof_ECDSA_PARMBLOCK_PART2 H + 2 * privlen + keyblock_len) in
  (* allocate buffer space for req cprb, req parm, rep cprb, rep parm *)
  let '(ok, len, t) := alloc_cbrbmem t in
  if negb ok then (None, t)
  else
    let curve_type := curve_type_from_nid H (nid pubkey_) in
    if curve_type <? 0 then (None, t)
    else
      let preqcblk := 0 in
      let prepcblk := CPRBXSIZE H + PARMBSIZE in
      (* make ECDSA verify request *)
      let '(cprbx, n, t) := make_cprbx parmblock_len preqcblk prepcblk t in
      let w := [(0, ItCPRBX cprbx)] in
      let offset := n in
      let '(pb1, pb2, n) :=
        make_ecdsa_verify_parmblock hash hash_length signature
                                    (u32 (2 * privlen)) in
      let w :=
        w ++ [(offset, ItEcdsaPart1 pb1);
              (offset + sizeof_ECDSA_PARMBLOCK_PART1 H + hash_length,
               ItEcdsaPart2 pb2)] in
      let offset := u32 (offset + n) in
      let '(kbl, n) := make_keyblock_length keyblock_len in
      let w := w ++ [(offset, ItKeyblockLength kbl)] in
      let offset := u32 (offset + n) in
      let '(kb, n) := make_ecdsa_public_key_token pubkey_ curve_type in
      let w := w ++ [(offset, ItPublicKeyBlock kb)] in
      let xcrb := finalize_xcrb cprbx preqcblk prepcblk in
      (Some (w, xcrb, len), t).

Definition make_eckeygen_parmblock : ECKEYGEN_PARMBLOCK * Z :=
  ({| pg_subfunc_code := 0x5047; (* 'PG' *)
      pg_rule_array_len := 0x000A;
      pg_rule_array_cmd := ascii_codes "CLEAR   ";
      pg_vud_len := 0x0002 |},
   sizeof_ECKEYGEN_PARMBLOCK H).

Definition make_eckeygen_private_key_token (nid_ : Z) (curve_type : Z)
  : ECKEYGEN_KEY_TOKEN * Z :=
  let privlen := u32 (privlen_from_nid H nid_) in
  let priv_bitlen := token_bitlen nid_ privlen in
  ({| kg_key_len := sizeof_ECKEYGEN_KEY_TOKEN H;
      kg_reserved1 := 0x0020;
      kg_tknhdr := {| tkn_hdr_id := 0x1E;
                      tkn_length := sizeof_ECKEYGEN_KEY_TOKEN H - 2 - 2 |};
      kg_privsec :=
        {| ps_section_id := 0x20;
           ps_version := 0x00;
           ps_section_len :=
             sizeof_ECC_PRIVATE_KEY_SECTION H
             + sizeof_ECC_ASSOCIATED_DATA H;
           ps_key_usage := 0x80;
           ps_curve_type := curve_type;
           ps_key_format := 0x40; (* unencrypted key *)
           priv_p_bitlen := priv_bitlen;
           associated_data_len := sizeof_ECC_ASSOCIATED_DATA H;
           ibm_associated_data_len := sizeof_ECC_ASSOCIATED_DATA H;
           formatted_data_len := 0 (* no key *) |};
      kg_adata :=
        {| ibm_data_len := sizeof_ECC_ASSOCIATED_DATA H;
           ad_curve_type := curve_type;
           p_bitlen := priv_bitlen;
           usage_flag := 0x80;
           format_and_sec_flag := 0x40 |};
      kg_pubsec :=
        {| pb_section_id := 0x21;
           pb_section_len := sizeof_ECC_PUBLIC_KEY_SECTION H;
           pb_curve_type := curve_type;
           pub_p_bitlen := priv_bitlen;
           pub_q_bytelen := 0 (* no keys *) |} |},
   sizeof_ECKEYGEN_KEY_TOKEN H).

Definition make_eckeygen_request (key : ICA_EC_KEY) (t : trace)
  : option request * trace :=
  let keyblock_len :=
    u32 (2 + sizeof_ECKEYGEN_KEY_TOKEN H + sizeof_ECC_NULL_TOKEN H) in
  let parmblock_len := u32 (sizeof_ECKEYGEN_PARMBLOCK H + keyblock_len) in
  let curve_type := curve_type_from_nid H (nid key) in
  if curve_type <? 0 then (None, t)
  else
    (* allocate buffer space for req cprb, req parm, rep cprb, rep parm *)
    let '(ok, len, t) := alloc_cbrbmem t in
    if negb ok then (None, t)
    else
      let preqcblk := 0 in
      let prepcblk := CPRBXSIZE H + PARMBSIZE in
      (* make ECKeyGen request *)
      let '(cprbx, n, t) := make_cprbx parmblock_len preqcblk prepcblk t in
      let w := [(0, ItCPRBX cprbx)] in
      let offset := n in
      let '(pb, n) := make_eckeygen_parmblock in
      let w := w ++ [(offset, ItEckeygenParmblock pb)] in
      let offset := u32 (offset + n) in
      let '(kbl, n) := make_keyblock_length keyblock_len in
      let w := w ++ [(offset, ItKeyblockLength kbl)] in
      let offset := u32 (offset + n) in
      let '(k, n) :=
        make_eckeygen_private_key_token (nid key) curve_type in
      let w := w ++ [(offset, ItEckeygenKeyToken k)] in
      let offset := u32 (offset + n) in
      let '(nt, n) := make_ecc_null_token in
      let w := w ++ [(offset, ItNullToken nt)] in
      let xcrb := finalize_xcrb cprbx preqcblk prepcblk in
      (Some (w, xcrb, len), t).

End Codec.

(** ** The software fallback adapter (OpenSSL) *)

(** The value of a big-endian byte string, [BN_bin2bn]'s result. *)
Definition be_value (bytes : list Z) : Z :=
  fold_left (fun acc b => acc * 256 + b) bytes 0.

Definition BN_num_bytes (a : Z) : Z :=
  if a <=? 0 then 0 else Z.log2 a / 8 + 1.

(** [BN_bn2bin]: the [BN_num_bytes a] big-endian bytes of [a]. *)
Definition BN_bn2bin (a : Z) : list Z :=
  map (fun i => Z.shiftr a (8 * Z.of_nat i) mod 256)
      (rev (seq 0 (Z.to_nat (BN_num_bytes a)))).

(** [X[i] = 0x00] for [i < n], then [BN_bn2bin(bn, &(X[n]))], with
    [n = privlen - BN_num_bytes(bn)] an [unsigned int]. *)
Definition bn_to_fixed (buf : list Z) (privlen : Z) (bn : Z) : list Z :=
  let n := Z.to_nat (u32 (privlen - BN_num_bytes bn)) in
  let buf := memcpy buf 0 (zeros n) n in
  memcpy buf n (BN_bn2bin bn) (Z.to_nat (BN_num_bytes bn)).

Section Software.

Variable H : header.
Variable E : environ.
Variable C : config.

(** A call into OpenSSL that can only succeed or fail. *)
Definition openssl (c : openssl_call) (t : trace) : bool * trace :=
  (openssl_ok E t c, t ++ [EvOpenSSL c]).

Definition BN_bin2bn (bytes : list Z) (len : Z) (t : trace)
  : option Z * trace :=
  let '(ok, t) := openssl call_BN_bin2bn t in
  ((if ok then Some (be_value (firstn (Z.to_nat len) bytes)) else None), t).

Definition is_supported_openssl_curve (nid_ : Z) (t : trace)
  : bool * trace :=
  openssl (call_EC_GROUP_new_by_curve_name nid_) t.

(** [make_public_eckey]: [NULL] when any of its OpenSSL calls fails. *)
Definition make_public_eckey (nid_ : Z) (x y : option Z) (t : trace)
  : option EC_KEY * trace :=
  let '(k, t) := openssl (call_EC_KEY_new_by_curve_name nid_) t in
  if negb k then (None, t)
  else
    let '(pub, t) := openssl call_EC_POINT_new t in
    if negb pub then (None, t)
    else
      match x, y with
      | Some xv, Some yv =>
          let '(ctx, t) := openssl call_BN_CTX_new t in
          if negb ctx then (None, t)
          else
            let '(ok, t) := openssl call_EC_KEY_set_public_key t in
            if negb ok then (None, t)
            else (Some {| ek_nid := nid_; ek_pub := Some (xv, yv) |}, t)
      | _, _ =>
          let '(ok, t) := openssl call_EC_KEY_set_public_key t in
          if negb ok then (None, t)
          else (Some {| ek_nid := nid_; ek_pub := None |}, t)
      end.

(** [provide_pubkey], called with non-[NULL] [privkey], [X] and [Y].

    The source does not test what [EC_KEY_new_by_curve_name],
    [EC_POINT_new] and the two [BN_new] return.  A [NULL] key is handed
    on to [EC_KEY_set_private_key] and [EC_KEY_get0_group], a [NULL]
    point to [EC_POINT_mul], and a [NULL] number, once the coordinates
    have been fetched, to [BN_num_bytes].  Each of these reads through
    the pointer it is given, so the program faults there.  The result
    [None] is that fault: the call does not return. *)
Definition provide_pubkey (privkey : ICA_EC_KEY) (X_ Y_ : list Z)
    (t : trace) : option (Z * list Z * list Z * trace) :=
  let privlen := privlen_from_nid H (nid privkey) in
  if privlen <? 0 then Some (EFAULT, X_, Y_, t)
  else
    (* Check if (X,Y) already available *)
    match X privkey, Y privkey with
    | Some kx, Some ky =>
        Some (0, memcpy X_ 0 kx (Z.to_nat privlen),
                 memcpy Y_ 0 ky (Z.to_nat privlen), t)
    | _, _ =>
        (* Get (D) as BIGNUM *)
        let '(bn_d, t) := BN_bin2bn (deref (D privkey)) privlen t in
        match bn_d with
        | None => Some (EFAULT, X_, Y_, t)
        | Some d =>
            (* Calculate public (X,Y) values *)
            let '(eckey, t) :=
              openssl (call_EC_KEY_new_by_curve_name (nid privkey)) t in
            if negb eckey then None (* EC_KEY_set_private_key(NULL, bn_d) *)
            else
              let '(pub_key, t) := openssl call_EC_POINT_new t in
              if negb pub_key then None (* EC_POINT_mul(group, NULL, ..) *)
              else
                let mul := EC_POINT_mul E t (nid privkey) d in
                let t := t ++ [EvEC_POINT_mul (nid privkey) d] in
                match mul with
                | None => Some (EFAULT, X_, Y_, t)
                | Some pt =>
                    (* Get (X,Y) as BIGNUMs *)
                    let '(bx, t) := openssl call_BN_new t in
                    let '(by_, t) := openssl call_BN_new t in
                    let xy :=
                      EC_POINT_get_affine_coordinates_GFp E t
                        (nid privkey) pt in
                    let t := t ++ [EvEC_POINT_get_affine (nid privkey)] in
                    match xy with
                    | None => Some (EFAULT, X_, Y_, t)
                    | Some (bn_x, bn_y) =>
                        if negb bx || negb by_
                        then None (* BN_num_bytes(NULL) *)
                        else
                          Some (0, bn_to_fixed X_ privlen bn_x,
                                   bn_to_fixed Y_ privlen bn_y, t)
                    end
                end
        end
    end.

(** [ecdsa_verify_sw]. *)
Definition ecdsa_verify_sw (pubkey_ : ICA_EC_KEY) (hash : list Z)
    (hash_length : Z) (signature : list Z) (t : trace) : Z * trace :=
  let privlen := u32 (privlen_from_nid H (nid pubkey_)) in
  let '(blocked, t) :=
    if ICA_FIPS C && fips_ICA_FIPS_MODE C then
      let '(m, t) := openssl call_FIPS_mode t in (negb m, t)
    else (false, t) in
  if blocked then (EACCES, t)
  else
    let '(ok, t) := is_supported_openssl_curve (nid pubkey_) t in
    if negb ok then (EINVAL, t)
    else
      (* create public key with given (x,y) *)
      let '(xa, t) := BN_bin2bn (deref (X pubkey_)) privlen t in
      let '(ya, t) := BN_bin2bn (deref (Y pubkey_)) privlen t in
      let '(a, t) := make_public_eckey (nid pubkey_) xa ya t in
      match a with
      | None => (EIO, t)
      | Some a =>
          (* create ECDSA_SIG instance *)
          let '(_, t) := openssl call_ECDSA_SIG_new t in
          let '(r, t) := BN_bin2bn signature privlen t in
          let '(s, t) :=
            BN_bin2bn (skipn (Z.to_nat privlen) signature) privlen t in
          let rc := ECDSA_do_verify E t hash hash_length (r, s) a in
          let t := t ++ [EvECDSA_do_verify (nid pubkey_)] in
          if rc =? 0 then (EFAULT, t)       (* signature invalid *)
          else if rc =? 1 then (0, t)       (* signature valid *)
          else (EIO, t)                     (* internal error *)
      end.

End Software.

(** ** Key generation by the CPU instruction *)

Definition p256_base_x : list Z :=
  [0x6B; 0x17; 0xD1; 0xF2; 0xE1; 0x2C; 0x42; 0x47; 0xF8; 0xBC; 0xE6; 0xE5;
   0x63; 0xA4; 0x40; 0xF2; 0x77; 0x03; 0x7D; 0x81; 0x2D; 0xEB; 0x33; 0xA0;
   0xF4; 0xA1; 0x39; 0x45; 0xD8; 0x98; 0xC2; 0x96].
Definition p256_base_y : list Z :=
  [0x4F; 0xE3; 0x42; 0xE2; 0xFE; 0x1A; 0x7F; 0x9B; 0x8E; 0xE7; 0xEB; 0x4A;
   0x7C; 0x0F; 0x9E; 0x16; 0x2B; 0xCE; 0x33; 0x57; 0x6B; 0x31; 0x5E; 0xCE;
   0xCB; 0xB6; 0x40; 0x68; 0x37; 0xBF; 0x51; 0xF5].
Definition p256_ord : list Z :=
  [0xFF; 0xFF; 0xFF; 0xFF; 0x00; 0x00; 0x00; 0x00; 0xFF; 0xFF; 0xFF; 0xFF;
   0xFF; 0xFF; 0xFF; 0xFF; 0xBC; 0xE6; 0xFA; 0xAD; 0xA7; 0x17; 0x9E; 0x84;
   0xF3; 0xB9; 0xCA; 0xC2; 0xFC; 0x63; 0x25; 0x51].
Definition p384_base_x : list Z :=
  [0xAA; 0x87; 0xCA; 0x22; 0xBE; 0x8B; 0x05; 0x37; 0x8E; 0xB1; 0xC7; 0x1E;
   0xF3; 0x20; 0xAD; 0x74; 0x6E; 0x1D; 0x3B; 0x62; 0x8B; 0xA7; 0x9B; 0x98;
   0x59; 0xF7; 0x41; 0xE0; 0x82; 0x54; 0x2A; 0x38; 0x55; 0x02; 0xF2; 0x5D;
   0xBF; 0x55; 0x29; 0x6C; 0x3A; 0x54; 0x5E; 0x38; 0x72; 0x76; 0x0A; 0xB7].
Definition p384_base_y : list Z :=
  [0x36; 0x17; 0xDE; 0x4A; 0x96; 0x26; 0x2C; 0x6F; 0x5D; 0x9E; 0x98; 0xBF;
   0x92; 0x92; 0xDC; 0x29; 0xF8; 0xF4; 0x1D; 0xBD; 0x28; 0x9A; 0x14; 0x7C;
   0xE9; 0xDA; 0x31; 0x13; 0xB5; 0xF0; 0xB8; 0xC0; 0x0A; 0x60; 0xB1; 0xCE;
   0x1D; 0x7E; 0x81; 0x9D; 0x7A; 0x43; 0x1D; 0x7C; 0x90; 0xEA; 0x0E; 0x5F].
Definition p384_ord : list Z :=
  [0xFF; 0xFF; 0xFF; 0xFF; 0xFF; 0xFF; 0xFF; 0xFF; 0xFF; 0xFF; 0xFF; 0xFF;
   0xFF; 0xFF; 0xFF; 0xFF; 0xFF; 0xFF; 0xFF; 0xFF; 0xFF; 0xFF; 0xFF; 0xFF;
   0xC7; 0x63; 0x4D; 0x81; 0xF4; 0x37; 0x2D; 0xDF; 0x58; 0x1A; 0x0D; 0xB2;
   0x48; 0xB0; 0xA7; 0x7A; 0xEC; 0xEC; 0x19; 0x6A; 0xCC; 0xC5; 0x29; 0x73].
Definition p521_base_x : list Z :=
  [0x00; 0xC6; 0x85; 0x8E; 0x06; 0xB7; 0x04; 0x04; 0xE9; 0xCD; 0x9E; 0x3E;
   0xCB; 0x66; 0x23; 0x95; 0xB4; 0x42; 0x9C; 0x64; 0x81; 0x39; 0x05; 0x3F;
   0xB5; 0x21; 0xF8; 0x28; 0xAF; 0x60; 0x6B; 0x4D; 0x3D; 0xBA; 0xA1; 0x4B;
   0x5E; 0x77; 0xEF; 0xE7; 0x59; 0x28; 0xFE; 0x1D; 0xC1; 0x27; 0xA2; 0xFF;
   0xA8; 0xDE; 0x33; 0x48; 0xB3; 0xC1; 0x85; 0x6A; 0x42; 0x9B; 0xF9; 0x7E;
   0x7E; 0x31; 0xC2; 0xE5; 0xBD; 0x66].
Definition p521_base_y : list Z :=
  [0x01; 0x18; 0x39; 0x29; 0x6A; 0x78; 0x9A; 0x3B; 0xC0; 0x04; 0x5C; 0x8A;
   0x5F; 0xB4; 0x2C; 0x7D; 0x1B; 0xD9; 0x98; 0xF5; 0x44; 0x49; 0x57; 0x9B;
   0x44; 0x68; 0x17; 0xAF; 0xBD; 0x17; 0x27; 0x3E; 0x66; 0x2C; 0x97; 0xEE;
   0x72; 0x99; 0x5E; 0xF4; 0x26; 0x40; 0xC5; 0x50; 0xB9; 0x01; 0x3F; 0xAD;
   0x07; 0x61; 0x35; 0x3C; 0x70; 0x86; 0xA2; 0x72; 0xC2; 0x40; 0x88; 0xBE;
   0x94; 0x76; 0x9F; 0xD1; 0x66; 0x50].
Definition p521_ord : list Z :=
  [0x01; 0xFF; 0xFF; 0xFF; 0xFF; 0xFF; 0xFF; 0xFF; 0xFF; 0xFF; 0xFF; 0xFF;
   0xFF; 0xFF; 0xFF; 0xFF; 0xFF; 0xFF; 0xFF; 0xFF; 0xFF; 0xFF; 0xFF; 0xFF;
   0xFF; 0xFF; 0xFF; 0xFF; 0xFF; 0xFF; 0xFF; 0xFF; 0xFF; 0xFA; 0x51; 0x86;
   0x87; 0x83; 0xBF; 0x2F; 0x96; 0x6B; 0x7F; 0xCC; 0x01; 0x48; 0xF7; 0x09;
   0xA5; 0xD0; 0x3B; 0xB5; 0xC9; 0xB8; 0x89; 0x9C; 0x47; 0xAE; 0xBB; 0x6F;
   0xB7; 0x1E; 0x91; 0x38; 0x64; 0x09].

Section Dispatcher.

Variable H : header.
Variable E : environ.
Variable C : config.

(** [do { if (!BN_rand_range(priv, ord)) goto out; }
    while (BN_is_zero(priv));] -- [Some (None, _)] is the [goto out]. *)
Fixpoint rand_nonzero (fuel : nat) (ord : Z) (t : trace)
  : option (option Z * trace) :=
  match fuel with
  | O => None
  | S fuel' =>
      let r := BN_rand_range E t ord in
      let t := t ++ [EvBN_rand_range ord] in
      match r with
      | None => Some (None, t)
      | Some priv =>
          if priv =? 0 then rand_nonzero fuel' ord t else Some (Some priv, t)
      end
  end.

Definition eckeygen_cpacf (fuel : nat) (key : ICA_EC_KEY) (t : trace)
  : option (Z * ICA_EC_KEY * trace) :=
  let privlen := u32 (privlen_from_nid H (nid key)) in
  let '(ctx, t) := openssl E call_BN_CTX_new t in
  let '(priv, t) := openssl E call_BN_new t in
  let '(ord, t) := openssl E call_BN_new t in
  if negb (ctx && priv && ord) then Some (ENOMEM, key, t)
  else
    let curve :=
      if nid key =? NID_X9_62_prime256v1 then
        Some (p256_base_x, p256_base_y, p256_ord)
      else if nid key =? NID_secp384r1 then
        Some (p384_base_x, p384_base_y, p384_ord)
      else if nid key =? NID_secp521r1 then
        Some (p521_base_x, p521_base_y, p521_ord)
      else None in
    match curve with
    | None => Some (EINVAL, key, t)
    | Some (base_x, base_y, ord_bytes) =>
        let '(ord, t) :=
          BN_bin2bn E ord_bytes (Z.of_nat (length ord_bytes)) t in
        let ord := match ord with Some v => v | None => 0 end in
        match rand_nonzero fuel ord t with
        | None => None
        | Some (None, t) => Some (EIO, key, t)
        | Some (Some priv, t) =>
            let n := Z.to_nat privlen in
            let d := option_map (fun d => memcpy d 0 (zeros n) n) (D key) in
            let numbytes := BN_num_bytes priv in
            let d :=
              option_map
                (fun d => memcpy d (Z.to_nat (u32 (privlen - numbytes)))
                                 (BN_bn2bin priv) (Z.to_nat numbytes)) d in
            let rv := Z.of_nat (length (BN_bn2bin priv)) in
            let key := {| nid := nid key; X := X key; Y := Y key; D := d |} in
            if negb (rv =? numbytes) then Some (EIO, key, t)
            else
              let '(rv, x, y, _, t) :=
                scalar_mul_cpacf H E (X key) (Y key) (deref (D key))
                                 base_x base_y (nid key) t in
              Some (rv, {| nid := nid key; X := x; Y := y; D := D key |}, t)
        end
    end.

(** *** [ecdh_hw] *)

(** What [ecdh_hw] does once the instruction tier is behind it. *)
Definition ecdh_hw_coprocessor (adapter_handle : Z)
    (privkey_A pubkey_B : ICA_EC_KEY) (z : list Z) (t : trace)
  : Z * list Z * trace :=
  let privlen := privlen_from_nid H (nid privkey_A) in
  if negb (ecc_via_online_card C) then (ENODEV, z, t)
  else if adapter_handle =? DRIVER_NOT_LOADED H then (EIO, z, t)
  else
    let '(reply_p, t) := make_ecdh_request H E privkey_A pubkey_B t in
    match reply_p with
    | None => (EIO, z, t)
    | Some (buf, xcrb, len) =>
        let '(rc, reply) :=
          ioctl E t adapter_handle (ZSECSENDCPRB H) xcrb buf in
        let t := t ++ [EvIoctl adapter_handle xcrb buf] in
        let '(rc, z) :=
          if negb (rc =? 0) then (EIO, z)
          else if negb (rp_key_len reply - 4 =? privlen) then (EIO, z)
          else (0, memcpy z 0 (raw_z_value reply) (Z.to_nat privlen)) in
        (* ret: *)
        (rc, z, t ++ [EvCleanse len; EvFree])
    end.

Definition ecdh_hw (adapter_handle : Z)
    (privkey_A pubkey_B : ICA_EC_KEY) (z : list Z) (t : trace)
  : Z * list Z * trace :=
  if msa9_switch C && negb (ica_offload_enabled C) then
    let '(rc, res_x, _, _, t') :=
      scalar_mul_cpacf H E (Some z) None (deref (D privkey_A))
                       (deref (X pubkey_B)) (deref (Y pubkey_B))
                       (nid privkey_A) t in
    let z' := match res_x with Some r => r | None => z end in
    if negb (rc =? EINVAL) (* EINVAL: curve not supported by cpacf *)
    then (u32 rc, z', t')
    else ecdh_hw_coprocessor adapter_handle privkey_A pubkey_B z' t'
  else ecdh_hw_coprocessor adapter_handle privkey_A pubkey_B z t.

(** *** [ecdsa_sign_hw] *)

(** [None] where [provide_pubkey] faults. *)
Definition ecdsa_sign_hw_coprocessor (adapter_handle : Z)
    (privkey : ICA_EC_KEY) (hash : list Z) (hash_length : Z)
    (signature : list Z) (t : trace) : option (Z * list Z * trace) :=
  let privlen := privlen_from_nid H (nid privkey) in
  let X_ := zeros (Z.to_nat (MAX_ECC_PRIV_SIZE H)) in
  let Y_ := zeros (Z.to_nat (MAX_ECC_PRIV_SIZE H)) in
  if negb (ecc_via_online_card C) then Some (ENODEV, signature, t)
  else if adapter_handle =? DRIVER_NOT_LOADED H
  then Some (EIO, signature, t)
  else
    match provide_pubkey H E privkey X_ Y_ t with
    | None => None
    | Some (rc, X_, Y_, t) =>
        if negb (rc =? 0) then Some (EIO, signature, t)
        else
          let '(reply_p, t) :=
            make_ecdsa_sign_request H E privkey X_ Y_ hash hash_length t in
          match reply_p with
          | None => Some (EIO, signature, t)
          | Some (buf, xcrb, len) =>
              let '(rc, reply) :=
                ioctl E t adapter_handle (ZSECSENDCPRB H) xcrb buf in
              let t := t ++ [EvIoctl adapter_handle xcrb buf] in
              let '(rc, signature) :=
                if negb (rc =? 0) then (EIO, signature)
                else if negb (rp_vud_len reply - 8 =? 2 * privlen)
                then (EIO, signature)
                else (0, memcpy signature 0 (rp_signature reply)
                                (Z.to_nat (rp_vud_len reply - 8))) in
              (* ret: *)
              Some (rc, signature, t ++ [EvCleanse len; EvFree])
          end
    end.

(** [ecdsa_sign_hw] passes [NULL] for [rng_cb], so no fuel is used. *)
Definition ecdsa_sign_hw (adapter_handle : Z) (privkey : ICA_EC_KEY)
    (hash : list Z) (hash_length : Z) (signature : list Z) (t : trace)
  : option (Z * list Z * trace) :=
  if msa9_switch C && negb (ica_offload_enabled C) then
    match ecdsa_sign_cpacf H E 0 privkey hash (Z.to_nat hash_length)
                           signature None t with
    | None => None
    | Some (rc, signature', _, t') =>
        if negb (rc =? EINVAL) (* EINVAL: curve not supported by cpacf *)
        then Some (u32 rc, signature', t')
        else ecdsa_sign_hw_coprocessor adapter_handle privkey hash
                                       hash_length signature' t'
    end
  else ecdsa_sign_hw_coprocessor adapter_handle privkey hash
                                 hash_length signature t.

(** *** [ecdsa_verify_hw] *)

Definition ecdsa_verify_hw_coprocessor (adapter_handle : Z)
    (pubkey_ : ICA_EC_KEY) (hash : list Z) (hash_length : Z)
    (signature : list Z) (t : trace) : Z * trace :=
  if negb (ecc_via_online_card C) then (ENODEV, t)
  else if adapter_handle =? DRIVER_NOT_LOADED H then (EIO, t)
  else
    let '(reply_p, t) :=
      make_ecdsa_verify_request H E pubkey_ hash hash_length signature t in
    match reply_p with
    | None => (EIO, t)
    | Some (buf, xcrb, len) =>
        let '(rc, reply) :=
          ioctl E t adapter_handle (ZSECSENDCPRB H) xcrb buf in
        let t := t ++ [EvIoctl adapter_handle xcrb buf] in
        let rc :=
          if negb (rc =? 0) then EIO
          else if (ccp_rtcode reply =? 4)
                  && (ccp_rscode reply =? RS_SIGNATURE_INVALID H)
          then EFAULT
          else if negb (ccp_rtcode reply =? 0)
                  || negb (ccp_rscode reply =? 0)
          then EIO
          else 0 in
        (* ret: *)
        (rc, t ++ [EvCleanse len; EvFree])
    end.

Definition ecdsa_verify_hw (adapter_handle : Z) (pubkey_ : ICA_EC_KEY)
    (hash : list Z) (hash_length : Z) (signature : list Z) (t : trace)
  : Z * trace :=
  if msa9_switch C && negb (ica_offload_enabled C) then
    let '(rc, t') :=
      ecdsa_verify_cpacf H E pubkey_ hash (Z.to_nat hash_length)
                         signature t in
    if negb (rc =? EINVAL) (* EINVAL: curve not supported by cpacf *)
    then (u32 rc, t')
    else ecdsa_verify_hw_coprocessor adapter_handle pubkey_ hash
                                     hash_length signature t'
  else ecdsa_verify_hw_coprocessor adapter_handle pubkey_ hash
                                   hash_length signature t.

(** *** [eckeygen_hw] *)

(** [memcpy(key->X, pub_p->pubkey, 2*privlen)] runs over [X] into [Y],
    which [ica_ec_key_new] places right behind it. *)
Definition eckeygen_hw_coprocessor (adapter_handle : Z) (key : ICA_EC_KEY)
    (t : trace) : Z * ICA_EC_KEY * trace :=
  let privlen := u32 (privlen_from_nid H (nid key)) in
  if negb (ecc_via_online_card C) then (ENODEV, key, t)
  else
    let '(reply_p, t) := make_eckeygen_request H E key t in
    match reply_p with
    | None => (EIO, key, t)
    | Some (buf, xcrb, len) =>
        let '(rc, reply) :=
          ioctl E t adapter_handle (ZSECSENDCPRB H) xcrb buf in
        let t := t ++ [EvIoctl adapter_handle xcrb buf] in
        let n := Z.to_nat privlen in
        let '(rc, key) :=
          if negb (rc =? 0) then (EIO, key)
          else if negb (rp_formatted_data_len reply =? privlen)
          then (EIO, key)
          else
            let d :=
              option_map (fun d => memcpy d 0 (rp_privkey reply) n)
                         (D key) in
            let key := {| nid := nid key; X := X key; Y := Y key; D := d |} in
            let pub_p := rp_pub_at reply (rp_section_len reply) in
            if negb (compress_flag pub_p =? 0x04) then (EIO, key)
            else
              let x :=
                option_map (fun x => memcpy x 0 (pubkey pub_p) n) (X key) in
              let y :=
                option_map
                  (fun y => memcpy y 0 (skipn n (pubkey pub_p)) n) (Y key) in
              (0, {| nid := nid key; X := x; Y := y; D := D key |}) in
        (* ret: *)
        (rc, key, t ++ [EvCleanse len; EvFree])
    end.

Definition eckeygen_hw (fuel : nat) (adapter_handle : Z) (key : ICA_EC_KEY)
    (t : trace) : option (Z * ICA_EC_KEY * trace) :=
  if msa9_switch C then
    match eckeygen_cpacf fuel key t with
    | None => None
    | Some (rc, key', t') =>
        if negb (rc =? EINVAL) (* curve not supported by cpacf *)
        then Some (u32 rc, key', t')
        else Some (eckeygen_hw_coprocessor adapter_handle key' t')
    end
  else Some (eckeygen_hw_coprocessor adapter_handle key t).

End Dispatcher.

(** ** Vocabulary of the statements *)

(** [mapi f l]: [f i b] for the byte [b] at index [i] of [l]. *)
Definition mapi (f : nat -> Z -> Z) (l : list Z) : list Z :=
  map (fun p => f (fst p) (snd p)) (combine (seq 0 (length l)) l).

(** The clamping of RFC 7748, byte by byte of the little-endian input. *)
Definition x25519_scalar_byte (i : nat) (b : Z) : Z :=
  if (i =? 0)%nat then Z.land b 248
  else if (i =? 31)%nat then Z.lor (Z.land b 127) 64
  else b.

Definition x25519_u_byte (i : nat) (b : Z) : Z :=
  if (i =? 31)%nat then Z.land b 0x7f else b.

Definition x448_scalar_byte (i : nat) (b : Z) : Z :=
  if (i =? 0)%nat then Z.land b 252
  else if (i =? 55)%nat then Z.lor b 128
  else b.

(** The block [scalar_mulx_cpacf] hands to the instruction for X25519:
    [res_u] still zero, then [u] and [scalar], clamped and big-endian. *)
Definition x25519_block (scalar u : list Z) : list Z :=
  zeros 32 ++ rev (mapi x25519_u_byte u)
  ++ rev (mapi x25519_scalar_byte scalar) ++ zeros (4096 - 96).

(** The same for X448; the 56 bytes sit right-aligned in 64-byte fields. *)
Definition x448_block (scalar u : list Z) : list Z :=
  zeros 64 ++ (zeros 8 ++ rev u)
  ++ (zeros 8 ++ rev (mapi x448_scalar_byte scalar)) ++ zeros (4096 - 192).

(** What [scalar_mulx_cpacf] returns for one of its two curves: the
    instruction is called once, on [block]; its condition code decides
    between [0] and [EIO]; the caller gets the [len] bytes of the
    result, the big-endian value at the end of the first [width] bytes of
    the block, in little-endian order; the block is left wiped. *)
Definition ladder_result (H : header) (E : environ) (t : trace)
    (f : pcc_function) (block : list Z) (width len : nat)
  : Z * option (list Z) * list Z * trace :=
  let fc := s390_pcc_functions H f in
  let r := s390_pcc E t fc block in
  ((if fst r =? 0 then 0 else EIO),
   Some (rev (load (snd r) (width - len) len)),
   zeros PARAM_BYTES,
   t ++ [EvPcc fc block]).

(** The operand width of the signature instruction: the size of the
    fields of [DEF_PARAM(P256, 32)], [DEF_PARAM(P384, 48)] and
    [DEF_PARAM(P521, 80)]. *)
Definition kdsa_operand_width (curve_nid : Z) : option nat :=
  if curve_nid =? NID_X9_62_prime256v1 then Some 32%nat
  else if curve_nid =? NID_secp384r1 then Some 48%nat
  else if curve_nid =? NID_secp521r1 then Some 80%nat
  else None.

(** The [hash] field of a block with fields of [size] bytes. *)
Definition hash_operand (size : nat) (param : list Z) : list Z :=
  load param (2 * size) size.

(** A hash fitted to [width] bytes: zeros in front of a short one, the
    leftmost [width] bytes of a long one. *)
Definition fit_hash (width : nat) (hash : list Z) : list Z :=
  if (width <? length hash)%nat then firstn width hash
  else zeros (width - length hash) ++ hash.

(** The invocations of the signature instruction in a trace. *)
Definition kdsa_calls (t : trace) : list (Z * list Z) :=
  flat_map (fun e => match e with EvKdsa fc p => [(fc, p)] | _ => [] end) t.

(** The events that [t'] has after its first [length t]. *)
Definition since (t t' : trace) : trace := skipn (length t) t'.

(** The retry loop of externally randomised signing, as the
    specification words it: every attempt draws a fresh random value
    into the random field of the block and invokes the instruction on
    the block; a rejected attempt is followed by the next one, on the
    block the instruction has left.  [attempt_input E cb fc rand_at n k
    block t] is what attempt [k] (counted from 0) hands to the
    instruction, with the history at that invocation, when the loop
    starts on [block] at the history [t] and the instruction has
    rejected the attempts before [k]. *)
Fixpoint attempt_input (E : environ) (cb : rng_callback) (fc : Z)
    (rand_at n : nat) (k : nat) (block : list Z) (t : trace)
  : list Z * trace :=
  let drawn := memcpy block rand_at (cb t n) n in
  let th := t ++ [EvRng n] in
  match k with
  | O => (drawn, th)
  | S k' =>
      attempt_input E cb fc rand_at n k'
                    (snd (s390_kdsa E th fc drawn))
                    (th ++ [EvKdsa fc drawn])
  end.

(** The function code index [ecdsa_sign_cpacf] selects for a curve. *)
Definition kdsa_sign_function (curve_nid : Z) : option kdsa_function :=
  if curve_nid =? NID_X9_62_prime256v1 then Some ECDSA_SIGN_P256
  else if curve_nid =? NID_secp384r1 then Some ECDSA_SIGN_P384
  else if curve_nid =? NID_secp521r1 then Some ECDSA_SIGN_P521
  else None.

(** Attempt [k] of signing with a random-number callback, [key] and
    [hash]: the loop starts on the block [ecdsa_sign_cpacf] has built,
    uses the function code of the curve ORed with [0x80], and draws
    into the last [privlen] bytes of the fifth field of [w] bytes. *)
Definition signing_input (H : header) (E : environ) (cb : rng_callback)
    (w : nat) (f : kdsa_function) (key : ICA_EC_KEY) (hash : list Z)
    (hashlen : nat) (t : trace) (k : nat) : list Z * trace :=
  let len := privlen_size H (nid key) in
  attempt_input E cb (Z.lor (s390_kdsa_functions H f) 0x80)
                (4 * w + (w - len)) len k
                (ecdsa_sign_param H w key hash hashlen) t.

(** What the instruction answers to attempt [k]. *)
Definition signing_answer (H : header) (E : environ) (cb : rng_callback)
    (w : nat) (f : kdsa_function) (key : ICA_EC_KEY) (hash : list Z)
    (hashlen : nat) (t : trace) (k : nat) : Z * list Z :=
  let i := signing_input H E cb w f key hash hashlen t k in
  s390_kdsa E (snd i) (Z.lor (s390_kdsa_functions H f) 0x80) (fst i).

(** The CPU instructions work in place: they leave a block as long as
    the one they were given. *)
Definition in_place (insn : trace -> Z -> list Z -> Z * list Z) : Prop :=
  forall t fc param, length (snd (insn t fc param)) = length param.

(** ** A sample platform

    Values for the parameters of [header], used to run the definitions
    on concrete inputs.  The byte lengths per curve are those of the
    specification (32/48/66/32/56 bytes for P-256/P-384/P-521 and the
    Curve25519 and Curve448 families); the structure sizes are those of
    packed structures with the members the source assigns. *)
Definition sample_privlen (curve_nid : Z) : Z :=
  if curve_nid =? NID_X9_62_prime256v1 then 32
  else if curve_nid =? NID_secp384r1 then 48
  else if curve_nid =? NID_secp521r1 then 66
  else if curve_nid =? NID_X25519 then 32
  else if curve_nid =? NID_ED25519 then 32
  else if curve_nid =? NID_X448 then 56
  else if curve_nid =? NID_ED448 then 57
  else -1.

Definition sample_curve_type (curve_nid : Z) : Z :=
  if curve_nid =? NID_X9_62_prime256v1 then 0
  else if curve_nid =? NID_secp384r1 then 0
  else if curve_nid =? NID_secp521r1 then 0
  else -1.

Definition sample_header : header := {|
  privlen_from_nid := sample_privlen;
  curve_type_from_nid := sample_curve_type;
  s390_pcc_functions := fun f =>
    match f with
    | SCALAR_MULTIPLY_P256 => 64 | SCALAR_MULTIPLY_P384 => 65
    | SCALAR_MULTIPLY_P521 => 66 | SCALAR_MULTIPLY_ED25519 => 72
    | SCALAR_MULTIPLY_ED448 => 73 | SCALAR_MULTIPLY_X25519 => 80
    | SCALAR_MULTIPLY_X448 => 81
    end;
  s390_kdsa_functions := fun f =>
    match f with
    | ECDSA_VERIFY_P256 => 1 | ECDSA_VERIFY_P384 => 2
    | ECDSA_VERIFY_P521 => 3 | ECDSA_SIGN_P256 => 9
    | ECDSA_SIGN_P384 => 10 | ECDSA_SIGN_P521 => 11
    end;
  DRIVER_NOT_LOADED := -1;
  RS_SIGNATURE_INVALID := 429;
  AUTOSELECT := 0xFFFFFFFF;
  ZSECSENDCPRB := 0x81;
  CPRBXSIZE := 220;
  sizeof_ECC_KEYBLOCK_LENGTH := 2;
  sizeof_ECDH_NULLKEY := 68;
  sizeof_ECC_NULL_TOKEN := 5;
  sizeof_CCA_TOKEN_HDR := 8;
  sizeof_ECC_PRIVATE_KEY_SECTION := 76;
  sizeof_ECC_ASSOCIATED_DATA := 16;
  sizeof_ECC_PUBLIC_KEY_SECTION := 14;
  sizeof_ECC_PRIVATE_KEY_TOKEN := 104;
  sizeof_ECC_PUBLIC_KEY_TOKEN := 15;
  sizeof_ECDSA_PUBLIC_KEY_BLOCK := 27;
  sizeof_ECKEYGEN_KEY_TOKEN := 118;
  sizeof_ECDH_PARMBLOCK := 32;
  sizeof_ECDSA_PARMBLOCK_PART1 := 16;
  sizeof_ECDSA_PARMBLOCK_PART2 := 2;
  sizeof_ECKEYGEN_PARMBLOCK := 14;
  MAX_ECC_PRIV_SIZE := 66
|}.

Definition blank_pub_token : ECC_PUBLIC_KEY_TOKEN := {|
  pubsec := {| pb_section_id := 0; pb_section_len := 0; pb_curve_type := 0;
               pub_p_bitlen := 0; pub_q_bytelen := 0 |};
  compress_flag := 0;
  pubkey := []
|}.

Definition blank_reply : card_reply := {|
  ccp_rtcode := 0; ccp_rscode := 0;
  rp_key_len := 0; raw_z_value := [];
  rp_vud_len := 0; rp_signature := [];
  rp_formatted_data_len := 0; rp_section_len := 0; rp_privkey := [];
  rp_pub_at := fun _ => blank_pub_token
|}.

(** An environment in which every instruction succeeds and leaves the
    block as it is, every allocation succeeds, and the card answers
    [reply] with return value [0]. *)
Definition quiet_environ (reply : card_reply) : environ := {|
  s390_pcc := fun _ _ param => (0, param);
  s390_kdsa := fun _ _ param => (0, param);
  malloc := fun _ _ => true;
  ioctl := fun _ _ _ _ _ => (0, reply);
  sys_bus_ap_domain := fun _ => 0;
  openssl_ok := fun _ _ => true;
  BN_rand_range := fun _ _ => Some 1;
  EC_POINT_mul := fun _ _ d => Some (d, d);
  EC_POINT_get_affine_coordinates_GFp := fun _ _ p => Some p;
  ECDSA_do_verify := fun _ _ _ _ _ => 1
|}.

(** A P-256 key with all three members set. *)
Definition sample_p256_key : ICA_EC_KEY := {|
  nid := NID_X9_62_prime256v1;
  X := Some (repeat 2 32);
  Y := Some (repeat 3 32);
  D := Some (repeat 1 32)
|}.


(** An environment like [E] whose signature instruction rejects (return
    code 1) as long as fewer than [n] events have happened. *)
Definition rejecting_until (n : nat) (E : environ) : environ := {|
  s390_pcc := s390_pcc E;
  s390_kdsa := fun t fc param =>
    if (length t <? n)%nat then (1, param) else s390_kdsa E t fc param;
  malloc := malloc E;
  ioctl := ioctl E;
  sys_bus_ap_domain := sys_bus_ap_domain E;
  openssl_ok := openssl_ok E;
  BN_rand_range := BN_rand_range E;
  EC_POINT_mul := EC_POINT_mul E;
  EC_POINT_get_affine_coordinates_GFp :=
    EC_POINT_get_affine_coordinates_GFp E;
  ECDSA_do_verify := ECDSA_do_verify E
|}.

(** An environment like [E] whose signature instruction answers with
    condition code [cc] and writes [r] and [s] at the right end of the two
    signature fields of operand width [w] of its block (a block too short
    for the two fields is left as it is). *)
Definition answering_signature (cc : Z) (w : nat) (r s : list Z)
    (E : environ) : environ := {|
  s390_pcc := s390_pcc E;
  s390_kdsa := fun _ _ param =>
    if (w + w <=? length param)%nat
    then (cc, memcpy (memcpy param (w - length r) r (length r))
                     (w + (w - length s)) s (length s))
    else (cc, param);
  malloc := malloc E;
  ioctl := ioctl E;
  sys_bus_ap_domain := sys_bus_ap_domain E;
  openssl_ok := openssl_ok E;
  BN_rand_range := BN_rand_range E;
  EC_POINT_mul := EC_POINT_mul E;
  EC_POINT_get_affine_coordinates_GFp :=
    EC_POINT_get_affine_coordinates_GFp E;
  ECDSA_do_verify := ECDSA_do_verify E
|}.

(** The bit length a key token has to carry for a curve. *)
Definition expected_bitlen (H : header) (curve_nid : Z) : Z :=
  if curve_nid =? NID_secp521r1 then 521
  else 8 * privlen_from_nid H curve_nid.

(** The three bit-length fields of a private key token with its public
    part, and of the key-generation skeleton token. *)
Definition token_bitlens
    (k : ECC_PRIVATE_KEY_TOKEN * ECC_PUBLIC_KEY_TOKEN) : list Z :=
  [priv_p_bitlen (privsec (fst k)); p_bitlen (adata (fst k));
   pub_p_bitlen (pubsec (snd k))].

Definition eckeygen_token_bitlens (k : ECKEYGEN_KEY_TOKEN) : list Z :=
  [priv_p_bitlen (kg_privsec k); p_bitlen (kg_adata k);
   pub_p_bitlen (kg_pubsec k)].

(** The bytes a structure takes up in the request: its [sizeof] and,
    where it ends in a flexible array, the bytes stored there. *)
Definition item_size (H : header) (i : item) : Z :=
  match i with
  | ItCPRBX _ => CPRBXSIZE H
  | ItEcdhParmblock _ => sizeof_ECDH_PARMBLOCK H
  | ItEcdsaPart1 p =>
      sizeof_ECDSA_PARMBLOCK_PART1 H + Z.of_nat (length (sg_vud1 p))
  | ItEcdsaPart2 p =>
      sizeof_ECDSA_PARMBLOCK_PART2 H + Z.of_nat (length (sv_vud2_data p))
  | ItEckeygenParmblock _ => sizeof_ECKEYGEN_PARMBLOCK H
  | ItKeyblockLength _ => sizeof_ECC_KEYBLOCK_LENGTH H
  | ItNullkey _ => sizeof_ECDH_NULLKEY H
  | ItNullToken _ => sizeof_ECC_NULL_TOKEN H
  | ItPrivateKeyToken k =>
      sizeof_ECC_PRIVATE_KEY_TOKEN H + Z.of_nat (length (privkey k))
  | ItPublicKeyToken k =>
      sizeof_ECC_PUBLIC_KEY_TOKEN H + Z.of_nat (length (pubkey k))
  | ItPublicKeyBlock k =>
      sizeof_ECDSA_PUBLIC_KEY_BLOCK H + Z.of_nat (length (kb_pubkey k))
  | ItEckeygenKeyToken _ => sizeof_ECKEYGEN_KEY_TOKEN H
  end.

(** The structures of [w] follow one another from [start] on, without
    gap or overlap. *)
Fixpoint contiguous (H : header) (start : Z) (w : wire) : Prop :=
  match w with
  | [] => True
  | (o, i) :: rest => o = start /\ contiguous H (start + item_size H i) rest
  end.

(** The bytes the structures of [w] take up together. *)
Definition wire_bytes (H : header) (w : wire) : Z :=
  fold_right (fun p acc => item_size H (snd p) + acc) 0 w.

Definition fits16 (s : Z) : Prop := 0 <= s < 2 ^ 16.

(** What the statements about request layouts assume of the structure
    declarations, which are not part of the sources: the key-block
    length field has 2 bytes, the null key the 0x44 bytes its own length
    bytes announce, the private key token is packed from the two 2-byte
    fields and the three structures the source assigns in it, and every
    structure is smaller than 64k. *)
Definition packed_layout (H : header) : Prop :=
  sizeof_ECC_KEYBLOCK_LENGTH H = 2
  /\ sizeof_ECDH_NULLKEY H = 0x44
  /\ sizeof_ECC_PRIVATE_KEY_TOKEN H
     = 2 + 2 + sizeof_CCA_TOKEN_HDR H + sizeof_ECC_PRIVATE_KEY_SECTION H
       + sizeof_ECC_ASSOCIATED_DATA H
  /\ fits16 (CPRBXSIZE H)
  /\ fits16 (sizeof_ECDH_PARMBLOCK H)
  /\ fits16 (sizeof_CCA_TOKEN_HDR H)
  /\ fits16 (sizeof_ECC_PRIVATE_KEY_SECTION H)
  /\ fits16 (sizeof_ECC_ASSOCIATED_DATA H)
  /\ fits16 (sizeof_ECC_PUBLIC_KEY_TOKEN H).

(** The length fields of an ECDH or ECDSA private key token and of the
    public key token behind it agree with the bytes the two take up. *)
Definition token_lengths_consistent (H : header)
    (kp1 : ECC_PRIVATE_KEY_TOKEN) (kp2 : ECC_PUBLIC_KEY_TOKEN) : Prop :=
  key_len kp1
  = item_size H (ItPrivateKeyToken kp1) + item_size H (ItPublicKeyToken kp2)
  /\ tkn_length (tknhdr kp1) = key_len kp1 - 2 - 2
  /\ ps_section_len (privsec kp1)
     = sizeof_ECC_PRIVATE_KEY_SECTION H + sizeof_ECC_ASSOCIATED_DATA H
       + Z.of_nat (length (privkey kp1))
  /\ formatted_data_len (privsec kp1) = Z.of_nat (length (privkey kp1))
  /\ associated_data_len (privsec kp1) = sizeof_ECC_ASSOCIATED_DATA H
  /\ ibm_associated_data_len (privsec kp1) = sizeof_ECC_ASSOCIATED_DATA H
  /\ ibm_data_len (adata kp1) = sizeof_ECC_ASSOCIATED_DATA H
  /\ pb_section_len (pubsec kp2) = item_size H (ItPublicKeyToken kp2)
  /\ pub_q_bytelen (pubsec kp2) = Z.of_nat (length (pubkey kp2)) + 1.



(** A private-only P-256 key and the public key of a peer. *)
Definition sample_private_key : ICA_EC_KEY := {|
  nid := NID_X9_62_prime256v1;
  X := None;
  Y := None;
  D := Some (repeat 1 32)
|}.

Definition sample_peer_key : ICA_EC_KEY := {|
  nid := NID_X9_62_prime256v1;
  X := Some (repeat 4 32);
  Y := Some (repeat 5 32);
  D := None
|}.

(** How a reply of the card to a verification request is to be read:
    return code 4 with reason code [RS_SIGNATURE_INVALID] means that the
    signature does not verify, every other pair but [(0, 0)] is a
    failure. *)
Definition verify_reply_status (H : header) (rtcode rscode : Z) : Z :=
  if (rtcode =? 4) && (rscode =? RS_SIGNATURE_INVALID H) then EFAULT
  else if (rtcode =? 0) && (rscode =? 0) then 0
  else EIO.

(** How the answer of [ECDSA_do_verify] is to be read: 0 is an invalid
    signature, 1 a valid one, anything else an internal error. *)
Definition library_verdict (v : Z) : Z :=
  if v =? 0 then EFAULT else if v =? 1 then 0 else EIO.

(** An environment like [E] with another card behind [ioctl]. *)
Definition with_ioctl
    (card : trace -> Z -> Z -> ica_xcRB -> wire -> Z * card_reply)
    (E : environ) : environ := {|
  s390_pcc := s390_pcc E;
  s390_kdsa := s390_kdsa E;
  malloc := malloc E;
  ioctl := card;
  sys_bus_ap_domain := sys_bus_ap_domain E;
  openssl_ok := openssl_ok E;
  BN_rand_range := BN_rand_range E;
  EC_POINT_mul := EC_POINT_mul E;
  EC_POINT_get_affine_coordinates_GFp :=
    EC_POINT_get_affine_coordinates_GFp E;
  ECDSA_do_verify := ECDSA_do_verify E
|}.




(** The switches with the instruction tier off and the card permitted,
    and with both tiers on. *)
Definition card_only : config := {|
  msa9_switch := false;
  ica_offload_enabled := false;
  ecc_via_online_card := true;
  ICA_FIPS := false;
  fips_ICA_FIPS_MODE := false
|}.

Definition both_tiers : config := {|
  msa9_switch := true;
  ica_offload_enabled := false;
  ecc_via_online_card := true;
  ICA_FIPS := false;
  fips_ICA_FIPS_MODE := false
|}.


(** Whether a request was handed to the card. *)
Definition submitted (t : trace) : bool :=
  existsb (fun e => match e with EvIoctl _ _ _ => true | _ => false end) t.

(** The invocations of a CPU instruction in a trace. *)
Definition instruction_calls (t : trace) : nat :=
  length (filter (fun e => match e with
                           | EvPcc _ _ | EvKdsa _ _ => true
                           | _ => false
                           end) t).

(** The request buffers obtained from [malloc]. *)
Definition allocations (t : trace) : nat :=
  length (filter (fun e => match e with
                           | EvMalloc _ true => true
                           | _ => false
                           end) t).

(** The request buffers given back the way the source does it at its
    label [ret]: [OPENSSL_cleanse(buf, len); free(buf);]. *)
Fixpoint releases (t : trace) : nat :=
  match t with
  | [] => O
  | e :: rest =>
      match e, rest with
      | EvCleanse _, EvFree :: _ => S (releases rest)
      | _, _ => releases rest
      end
  end.

(** The instruction path is disabled: [msa9_switch] clear, or offload
    forced. *)
Definition instruction_path_disabled (C : config) : bool :=
  negb (msa9_switch C) || ica_offload_enabled C.

(** The switches with both tiers available and offload forced. *)
Definition offload_forced : config := {|
  msa9_switch := true;
  ica_offload_enabled := true;
  ecc_via_online_card := true;
  ICA_FIPS := false;
  fips_ICA_FIPS_MODE := false
|}.

(** A card that cannot be reached through the sentinel handle -1: the
    [ioctl] fails there, and succeeds with [reply] elsewhere. *)
Definition card_behind_driver (reply : card_reply)
  : trace -> Z -> Z -> ica_xcRB -> wire -> Z * card_reply :=
  fun _ handle _ _ _ => if handle =? -1 then (-1, reply) else (0, reply).

(** A key on a curve the coprocessor has no curve type for. *)
Definition sample_x25519_key : ICA_EC_KEY := {|
  nid := NID_X25519;
  X := Some (repeat 2 32);
  Y := Some (repeat 3 32);
  D := Some (repeat 1 32)
|}.

(** A stretch of history without [malloc], [OPENSSL_cleanse] of a
    request buffer, or [free]. *)
Definition heap_silent (l : trace) : bool :=
  forallb (fun e => match e with
                    | EvMalloc _ _ | EvCleanse _ | EvFree => false
                    | _ => true
                    end) l.

(** Every request buffer obtained in [l] was wiped and freed in [l]. *)
Definition all_released (l : trace) : Prop :=
  allocations l = releases l.

(** The curves [scalar_mul_cpacf] has a [case] for. *)
Definition pcc_supported (curve_nid : Z) : bool :=
  (curve_nid =? NID_X9_62_prime256v1) || (curve_nid =? NID_secp384r1)
  || (curve_nid =? NID_secp521r1) || (curve_nid =? NID_ED25519)
  || (curve_nid =? NID_ED448).

(** A key-generation reply for P-256.  The private key section is
    followed by the associated data and the 32 bytes of the private
    key, so the section length is 76 + 16 + 32 = 124, and the public
    key token lies that far behind the start of the section.  Here the
    token is not marked uncompressed. *)
Definition compressed_point_reply : card_reply := {|
  ccp_rtcode := 0; ccp_rscode := 0;
  rp_key_len := 0; raw_z_value := [];
  rp_vud_len := 0; rp_signature := [];
  rp_formatted_data_len := 32; rp_section_len := 124;
  rp_privkey := repeat 9 32;
  rp_pub_at := fun d =>
    if d =? 124 then
      {| pubsec := {| pb_section_id := 0x21; pb_section_len := 48;
                      pb_curve_type := 0; pub_p_bitlen := 256;
                      pub_q_bytelen := 33 |};
         compress_flag := 0x02;
         pubkey := repeat 8 32 |}
    else blank_pub_token
|}.

(** A well-formed key-generation reply: the same layout, with the
    marker 0x04 and both coordinates. *)
Definition generated_key_reply : card_reply := {|
  ccp_rtcode := 0; ccp_rscode := 0;
  rp_key_len := 0; raw_z_value := [];
  rp_vud_len := 0; rp_signature := [];
  rp_formatted_data_len := 32; rp_section_len := 124;
  rp_privkey := repeat 9 32;
  rp_pub_at := fun d =>
    if d =? 124 then
      {| pubsec := {| pb_section_id := 0x21; pb_section_len := 79;
                      pb_curve_type := 0; pub_p_bitlen := 256;
                      pub_q_bytelen := 65 |};
         compress_flag := 0x04;
         pubkey := repeat 7 32 ++ repeat 8 32 |}
    else blank_pub_token
|}.





(** The software point multiplications in a trace. *)
Definition point_muls (t : trace) : nat :=
  length (filter (fun e => match e with
                           | EvEC_POINT_mul _ _ => true
                           | _ => false
                           end) t).


(** The big-endian bytes of [v] behind as many zeros as make [n] bytes. *)
Definition left_padded (n : nat) (v : Z) : list Z :=
  zeros (n - Z.to_nat (BN_num_bytes v)) ++ BN_bn2bin v.

(** ** The remaining entry points

    [ecdh_sw], [ecdsa_sign_sw], [eckeygen_sw] and the four
    [*_derive_pub] functions make calls that the functions above do not
    make: further OpenSSL primitives, the two hash functions of
    [s390_sha.h] and the statistics counter of [icastats.h].  Their
    history is a list of [lib_event]: the events above, wrapped in
    [Core], and the further calls. *)

(** OpenSSL calls of the software entry points whose only modelled
    outcome is success or failure. *)
Inductive libcrypto_call :=
| call_EC_KEY_set_private_key | call_EC_KEY_check_key
| call_EC_KEY_get0_group.

(** The counters of [icastats.h] that the source increments. *)
Inductive stats_counter :=
| ICA_STATS_X25519_KEYGEN | ICA_STATS_X448_KEYGEN
| ICA_STATS_ED25519_KEYGEN | ICA_STATS_ED448_KEYGEN.

Inductive lib_event :=
| Core (e : event)
| EvLibcrypto (c : libcrypto_call)
| EvEC_GROUP_get_degree (curve : Z)
| EvECDH_compute_key (curve : Z) (outlen : Z)
| EvECDSA_do_sign (curve : Z)
| EvEC_KEY_generate_key (curve : Z)
| EvSha512 (msg : list Z)
| EvShake256 (msg : list Z) (outlen : nat)
| EvStats_increment (c : stats_counter).

Definition lib_trace := list lib_event.

(** The part of a history that the oracles of [environ] see. *)
Definition core (s : lib_trace) : trace :=
  flat_map (fun e => match e with Core e => [e] | _ => [] end) s.

(** Running one of the functions above inside a longer history: it is
    given the calls of its own kind, and the calls it makes are
    appended. *)
Definition lift {A : Type} (f : trace -> A * trace) (s : lib_trace)
  : A * lib_trace :=
  let '(a, t') := f (core s) in
  (a, s ++ map Core (since (core s) t')).

(** OpenSSL's [EC_KEY] with a private scalar and the public point
    computed from it, as [make_eckey] and [EC_KEY_generate_key] leave
    it. *)
Record EC_KEY_private := {
  ekp_nid : Z;
  ekp_priv : Z;
  ekp_pub : Z * Z
}.

(** The oracles of the further calls.  [ECDH_compute_key] is given the
    caller's buffer and returns it as it leaves it; [s390_sha512] and
    [s390_shake_256] return the output buffer as they leave it. *)
Record library := {
  libcrypto_ok : lib_trace -> libcrypto_call -> bool;
  EC_GROUP_get_degree : lib_trace -> Z -> Z;
  ECDH_compute_key :
    lib_trace -> list Z -> Z -> option (Z * Z) -> EC_KEY_private
    -> Z * list Z;
  ECDSA_do_sign :
    lib_trace -> list Z -> Z -> EC_KEY_private -> option (Z * Z);
  EC_KEY_generate_key : lib_trace -> Z -> option (Z * (Z * Z));
  s390_sha512 : lib_trace -> list Z -> Z * list Z;
  s390_shake_256 : lib_trace -> list Z -> nat -> Z * list Z
}.

Section Fallback.

Variable H : header.
Variable E : environ.
Variable L : library.
Variable C : config.

(** [make_eckey]: [NULL] when any of its OpenSSL calls fails. *)
Definition make_eckey (nid_ : Z) (p : list Z) (plen : Z) (s : lib_trace)
  : option EC_KEY_private * lib_trace :=
  let '(k, s) := lift (openssl E (call_EC_KEY_new_by_curve_name nid_)) s in
  if negb k then (None, s)
  else
    let '(priv, s) := lift (BN_bin2bn E p plen) s in
    match priv with
    | None => (None, s)
    | Some d =>
        let ok := libcrypto_ok L s call_EC_KEY_set_private_key in
        let s := s ++ [EvLibcrypto call_EC_KEY_set_private_key] in
        if negb ok then (None, s)
        else
          let '(pub, s) := lift (openssl E call_EC_POINT_new) s in
          if negb pub then (None, s)
          else
            let '(pt, s) :=
              lift (fun t => (EC_POINT_mul E t nid_ d,
                              t ++ [EvEC_POINT_mul nid_ d])) s in
            match pt with
            | None => (None, s)
            | Some pt =>
                let '(ok, s) := lift (openssl E call_EC_KEY_set_public_key) s in
                if negb ok then (None, s)
                else (Some {| ekp_nid := nid_; ekp_priv := d;
                              ekp_pub := pt |}, s)
            end
    end.

(** [ecdh_sw]. *)
Definition ecdh_sw (privkey_A pubkey_B : ICA_EC_KEY) (z : list Z)
    (s : lib_trace) : Z * list Z * lib_trace :=
  let privlen := u32 (privlen_from_nid H (nid privkey_A)) in
  let '(blocked, s) :=
    if ICA_FIPS C && fips_ICA_FIPS_MODE C then
      let '(m, s) := lift (openssl E call_FIPS_mode) s in (negb m, s)
    else (false, s) in
  if blocked then (EACCES, z, s)
  else
    let '(ok, s) := lift (is_supported_openssl_curve E (nid privkey_A)) s in
    if negb ok then (EINVAL, z, s)
    else
      let '(a, s) :=
        make_eckey (nid privkey_A) (deref (D privkey_A)) privlen s in
      let '(xb, s) := lift (BN_bin2bn E (deref (X pubkey_B)) privlen) s in
      let '(yb, s) := lift (BN_bin2bn E (deref (Y pubkey_B)) privlen) s in
      let '(b, s) := lift (make_public_eckey E (nid privkey_A) xb yb) s in
      match a, b with
      | Some a, Some b =>
          let ztmplen :=
            u32 (Z.quot (EC_GROUP_get_degree L s (nid privkey_A) + 7) 8) in
          let s := s ++ [EvEC_GROUP_get_degree (nid privkey_A)] in
          if negb (ztmplen =? privlen) then (EIO, z, s)
          else
            let '(rc, z) := ECDH_compute_key L s z privlen (ek_pub b) a in
            let s := s ++ [EvECDH_compute_key (nid privkey_A) privlen] in
            if rc =? 0 then (EIO, z, s)
            else (0, z, s)
      | _, _ => (EIO, z, s)
      end.

(** [ecdsa_sign_sw]. *)
Definition ecdsa_sign_sw (privkey : ICA_EC_KEY) (hash : list Z)
    (hash_length : Z) (signature : list Z) (s : lib_trace)
  : Z * list Z * lib_trace :=
  let privlen := u32 (privlen_from_nid H (nid privkey)) in
  let '(blocked, s) :=
    if ICA_FIPS C && fips_ICA_FIPS_MODE C then
      let '(m, s) := lift (openssl E call_FIPS_mode) s in (negb m, s)
    else (false, s) in
  if blocked then (EACCES, signature, s)
  else
    let '(ok, s) := lift (is_supported_openssl_curve E (nid privkey)) s in
    if negb ok then (EINVAL, signature, s)
    else
      let '(a, s) := make_eckey (nid privkey) (deref (D privkey)) privlen s in
      match a with
      | None => (EIO, signature, s)
      | Some a =>
          let ok := libcrypto_ok L s call_EC_KEY_check_key in
          let s := s ++ [EvLibcrypto call_EC_KEY_check_key] in
          if negb ok then (EIO, signature, s)
          else
            let sig := ECDSA_do_sign L s hash hash_length a in
            let s := s ++ [EvECDSA_do_sign (nid privkey)] in
            match sig with
            | None => (EIO, signature, s)
            | Some (r, s_) =>
                (* Insert leading 0x00's if r or s shorter than privlen *)
                let signature := bn_to_fixed signature privlen r in
                let n := Z.to_nat (u32 (privlen - BN_num_bytes s_)) in
                let signature :=
                  memcpy signature (Z.to_nat privlen) (zeros n) n in
                let signature :=
                  memcpy signature (Z.to_nat privlen + n) (BN_bn2bin s_)
                         (Z.to_nat (BN_num_bytes s_)) in
                (0, signature, s)
            end
      end.

(** [eckeygen_sw]. *)
Definition eckeygen_sw (key : ICA_EC_KEY) (s : lib_trace)
  : Z * ICA_EC_KEY * lib_trace :=
  let privlen := u32 (privlen_from_nid H (nid key)) in
  let '(blocked, s) :=
    if ICA_FIPS C && fips_ICA_FIPS_MODE C then
      let '(m, s) := lift (openssl E call_FIPS_mode) s in (negb m, s)
    else (false, s) in
  if blocked then (EACCES, key, s)
  else
    let '(ok, s) := lift (is_supported_openssl_curve E (nid key)) s in
    if negb ok then (EINVAL, key, s)
    else
      let '(a, s) :=
        lift (openssl E (call_EC_KEY_new_by_curve_name (nid key))) s in
      if negb a then (EIO, key, s)
      else
        let group := libcrypto_ok L s call_EC_KEY_get0_group in
        let s := s ++ [EvLibcrypto call_EC_KEY_get0_group] in
        if negb group then (EIO, key, s)
        else
          let generated := EC_KEY_generate_key L s (nid key) in
          let s := s ++ [EvEC_KEY_generate_key (nid key)] in
          match generated with
          | None => (EIO, key, s)
          | Some (d, q) =>
              (* provide private key *)
              let key :=
                {| nid := nid key; X := X key; Y := Y key;
                   D := option_map (fun b => bn_to_fixed b privlen d)
                                   (D key) |} in
              (* provide public key *)
              let '(_, s) := lift (openssl E call_BN_new) s in
              let '(_, s) := lift (openssl E call_BN_new) s in
              let '(xy, s) :=
                lift (fun t =>
                        (EC_POINT_get_affine_coordinates_GFp E t (nid key) q,
                         t ++ [EvEC_POINT_get_affine (nid key)])) s in
              match xy with
              | None => (EIO, key, s)
              | Some (x, y) =>
                  (0,
                   {| nid := nid key;
                      X := option_map (fun b => bn_to_fixed b privlen x)
                                      (X key);
                      Y := option_map (fun b => bn_to_fixed b privlen y)
                                      (Y key);
                      D := D key |},
                   s)
              end
          end.

End Fallback.

(** ** Public keys of the Montgomery and Edwards curves *)

(** The arrays [x25519_base_u] and [x448_base_u]: the little-endian [u]
    coordinate of the base point, [0x09], respectively [0x05], followed
    by the 31, respectively 55, bytes [0x00] that the source spells
    out. *)
Definition x25519_base_u : list Z := 0x09 :: repeat 0x00 31.
Definition x448_base_u : list Z := 0x05 :: repeat 0x00 55.
(** Base point coordinates (big-endian) of [ed25519_derive_pub]. *)
Definition ed25519_base_x : list Z :=
  [0x21; 0x69; 0x36; 0xd3; 0xcd; 0x6e; 0x53; 0xfe;
   0xc0; 0xa4; 0xe2; 0x31; 0xfd; 0xd6; 0xdc; 0x5c;
   0x69; 0x2c; 0xc7; 0x60; 0x95; 0x25; 0xa7; 0xb2;
   0xc9; 0x56; 0x2d; 0x60; 0x8f; 0x25; 0xd5; 0x1a].
Definition ed25519_base_y : list Z :=
  [0x66; 0x66; 0x66; 0x66; 0x66; 0x66; 0x66; 0x66;
   0x66; 0x66; 0x66; 0x66; 0x66; 0x66; 0x66; 0x66;
   0x66; 0x66; 0x66; 0x66; 0x66; 0x66; 0x66; 0x66;
   0x66; 0x66; 0x66; 0x66; 0x66; 0x66; 0x66; 0x58].
(** Base point coordinates (big-endian) of [ed448_derive_pub]. *)
Definition ed448_base_x : list Z :=
  [0x00;
   0x4f; 0x19; 0x70; 0xc6; 0x6b; 0xed; 0x0d; 0xed;
   0x22; 0x1d; 0x15; 0xa6; 0x22; 0xbf; 0x36; 0xda;
   0x9e; 0x14; 0x65; 0x70; 0x47; 0x0f; 0x17; 0x67;
   0xea; 0x6d; 0xe3; 0x24; 0xa3; 0xd3; 0xa4; 0x64;
   0x12; 0xae; 0x1a; 0xf7; 0x2a; 0xb6; 0x65; 0x11;
   0x43; 0x3b; 0x80; 0xe1; 0x8b; 0x00; 0x93; 0x8e;
   0x26; 0x26; 0xa8; 0x2b; 0xc7; 0x0c; 0xc0; 0x5e].
Definition ed448_base_y : list Z :=
  [0x00;
   0x69; 0x3f; 0x46; 0x71; 0x6e; 0xb6; 0xbc; 0x24;
   0x88; 0x76; 0x20; 0x37; 0x56; 0xc9; 0xc7; 0x62;
   0x4b; 0xea; 0x73; 0x73; 0x6c; 0xa3; 0x98; 0x40;
   0x87; 0x78; 0x9c; 0x1e; 0x05; 0xa0; 0xc2; 0xd7;
   0x3a; 0xd3; 0xff; 0x1c; 0xe6; 0x7c; 0x39; 0xc4;
   0xfd; 0xbd; 0x13; 0x2c; 0x4e; 0xd7; 0xc8; 0xad;
   0x98; 0x08; 0x79; 0x5b; 0xf2; 0x30; 0xfa; 0x14].

Section DerivePub.

Variable H : header.
Variable E : environ.
Variable L : library.

(** [x25519_derive_pub]: the counter is incremented whatever [rc]. *)
Definition x25519_derive_pub (pub priv : list Z) (s : lib_trace)
  : Z * list Z * lib_trace :=
  let '(rc, res_u, _, s) :=
    lift (scalar_mulx_cpacf H E (Some pub) priv x25519_base_u NID_X25519)
         s in
  let pub := match res_u with Some r => r | None => pub end in
  (rc, pub, s ++ [EvStats_increment ICA_STATS_X25519_KEYGEN]).

Definition x448_derive_pub (pub priv : list Z) (s : lib_trace)
  : Z * list Z * lib_trace :=
  let '(rc, res_u, _, s) :=
    lift (scalar_mulx_cpacf H E (Some pub) priv x448_base_u NID_X448) s in
  let pub := match res_u with Some r => r | None => pub end in
  (rc, pub, s ++ [EvStats_increment ICA_STATS_X448_KEYGEN]).

(** [ed25519_derive_pub].  [res_x0] is what the local array [res_x],
    which the source does not initialise, holds at entry. *)
Definition ed25519_derive_pub (res_x0 : list Z) (pub priv : list Z)
    (s : lib_trace) : Z * list Z * lib_trace :=
  let '(rc, buf) := s390_sha512 L s (firstn 32 priv) in
  let s := s ++ [EvSha512 (firstn 32 priv)] in
  if negb (rc =? 0) then (rc, pub, s)
  else
    (* ensure multiple of cofactor *)
    let buf := update_byte buf 0 (fun b => Z.land b (-8) mod 256) in
    let buf := update_byte buf 31 (fun b => Z.land b 0x3f) in
    let buf := update_byte buf 31 (fun b => Z.lor b 0x40) in
    (* to big endian *)
    let buf := s390_flip_endian_32 buf 0 in
    let '(rc, res_x, res_y, _, s) :=
      lift (scalar_mul_cpacf H E (Some res_x0) (Some pub) buf
                             ed25519_base_x ed25519_base_y NID_ED25519) s in
    let res_x := match res_x with Some r => r | None => res_x0 end in
    let pub := match res_y with Some r => r | None => pub end in
    if negb (rc =? 0) then (rc, pub, s)
    else
      (* to little endian *)
      let res_x := s390_flip_endian_32 res_x 0 in
      let pub := s390_flip_endian_32 pub 0 in
      let pub :=
        update_byte pub 31
          (fun b => Z.lor b (Z.shiftl (Z.land (nth 0 res_x 0) 0x01) 7)) in
      (* to big endian *)
      let pub := s390_flip_endian_32 pub 0 in
      (0, pub, s ++ [EvStats_increment ICA_STATS_ED25519_KEYGEN]).

(** [ed448_derive_pub]: the instruction works on the last 57 bytes of
    the 64-byte arrays [res_x] and [pub64] and of the first 64 bytes of
    [buf]. *)
Definition ed448_derive_pub (pub priv : list Z) (s : lib_trace)
  : Z * list Z * lib_trace :=
  let res_x := zeros 64 in
  let pub64 := zeros 64 in
  let '(rc, buf) := s390_shake_256 L s (firstn 57 priv) 114 in
  let s := s ++ [EvShake256 (firstn 57 priv) 114] in
  if negb (rc =? 0) then (rc, pub, s)
  else
    let buf := memcpy buf 57 (zeros 57) 57 in
    (* ensure multiple of cofactor *)
    let buf := update_byte buf 0 (fun b => Z.land b (-4) mod 256) in
    let buf := update_byte buf 55 (fun b => Z.lor b 0x80) in
    let buf := update_byte buf 56 (fun _ => 0) in
    (* to big endian *)
    let buf := s390_flip_endian_64 buf 0 in
    let '(rc, rx, ry, _, s) :=
      lift (scalar_mul_cpacf H E (Some (skipn (64 - 57) res_x))
                             (Some (skipn (64 - 57) pub64))
                             (skipn (64 - 57) buf)
                             ed448_base_x ed448_base_y NID_ED448) s in
    let res_x :=
      firstn (64 - 57) res_x
      ++ match rx with Some r => r | None => skipn (64 - 57) res_x end in
    let pub64 :=
      firstn (64 - 57) pub64
      ++ match ry with Some r => r | None => skipn (64 - 57) pub64 end in
    if negb (rc =? 0) then (rc, pub, s)
    else
      (* to little endian *)
      let res_x := s390_flip_endian_64 res_x 0 in
      let pub64 := s390_flip_endian_64 pub64 0 in
      let pub64 :=
        update_byte pub64 56
          (fun b => Z.lor b (Z.shiftl (Z.land (nth 0 res_x 0) 0x01) 7)) in
      (* to big endian *)
      let pub64 := s390_flip_endian_64 pub64 0 in
      let pub := memcpy pub 0 (skipn (64 - 57) pub64) 57 in
      (0, pub, s ++ [EvStats_increment ICA_STATS_ED448_KEYGEN]).

End DerivePub.

(** ** Vocabulary of the further statements *)

(** The field size of [DEF_PARAM(curve, size)] and the function code
    index [scalar_mul_cpacf] selects for a curve. *)
Definition pcc_layout (curve_nid : Z) : option (nat * pcc_function) :=
  if curve_nid =? NID_X9_62_prime256v1 then
    Some (32%nat, SCALAR_MULTIPLY_P256)
  else if curve_nid =? NID_secp384r1 then Some (48%nat, SCALAR_MULTIPLY_P384)
  else if curve_nid =? NID_secp521r1 then Some (80%nat, SCALAR_MULTIPLY_P521)
  else if curve_nid =? NID_ED25519 then Some (32%nat, SCALAR_MULTIPLY_ED25519)
  else if curve_nid =? NID_ED448 then Some (64%nat, SCALAR_MULTIPLY_ED448)
  else None.

(** A value at the right end of a field of [size] bytes, zeros before it. *)
Definition right_aligned (size : nat) (v : list Z) : list Z :=
  zeros (size - length v) ++ v.

(** The block of [scalar_mul_cpacf] for fields of [size] bytes: [res_x]
    and [res_y] still zero, then [x], [y] and [scalar]. *)
Definition scalar_mul_block (size : nat) (scalar x y : list Z) : list Z :=
  zeros (2 * size) ++ right_aligned size x ++ right_aligned size y
  ++ right_aligned size scalar ++ zeros (PARAM_BYTES - 5 * size).

(** An environment like [E] whose two instructions answer the condition
    code [cc] and leave the block as it is. *)
Definition with_condition_code (cc : Z) (E : environ) : environ := {|
  s390_pcc := fun _ _ param => (cc, param);
  s390_kdsa := fun _ _ param => (cc, param);
  malloc := malloc E;
  ioctl := ioctl E;
  sys_bus_ap_domain := sys_bus_ap_domain E;
  openssl_ok := openssl_ok E;
  BN_rand_range := BN_rand_range E;
  EC_POINT_mul := EC_POINT_mul E;
  EC_POINT_get_affine_coordinates_GFp :=
    EC_POINT_get_affine_coordinates_GFp E;
  ECDSA_do_verify := ECDSA_do_verify E
|}.

(** The [priv] and [rand] fields of a signing block with fields of [w]
    bytes hold zeros. *)
Definition secrets_wiped (w : nat) (blk : list Z) : Prop :=
  length blk = PARAM_BYTES /\ load blk (3 * w) (2 * w) = zeros (2 * w).

(** The constants [eckeygen_cpacf] selects for a curve: the coordinates
    of the base point and the group order. *)
Definition keygen_constants (curve_nid : Z)
  : option (list Z * list Z * list Z) :=
  if curve_nid =? NID_X9_62_prime256v1 then
    Some (p256_base_x, p256_base_y, p256_ord)
  else if curve_nid =? NID_secp384r1 then
    Some (p384_base_x, p384_base_y, p384_ord)
  else if curve_nid =? NID_secp521r1 then
    Some (p521_base_x, p521_base_y, p521_ord)
  else None.

(** The four OpenSSL calls [eckeygen_cpacf] makes before it draws. *)
Definition keygen_preamble : trace :=
  [EvOpenSSL call_BN_CTX_new; EvOpenSSL call_BN_new; EvOpenSSL call_BN_new;
   EvOpenSSL call_BN_bin2bn].

(** An environment like [E] whose [BN_rand_range] answers [0] at its
    first draw and [v] from the second draw on. *)
Definition zero_then (v : Z) (E : environ) : environ := {|
  s390_pcc := s390_pcc E;
  s390_kdsa := s390_kdsa E;
  malloc := malloc E;
  ioctl := ioctl E;
  sys_bus_ap_domain := sys_bus_ap_domain E;
  openssl_ok := openssl_ok E;
  BN_rand_range := fun t _ =>
    if existsb (fun e => match e with
                         | EvBN_rand_range _ => true
                         | _ => false
                         end) t
    then Some v else Some 0;
  EC_POINT_mul := EC_POINT_mul E;
  EC_POINT_get_affine_coordinates_GFp :=
    EC_POINT_get_affine_coordinates_GFp E;
  ECDSA_do_verify := ECDSA_do_verify E
|}.

(** What the statements about the ECDSA and key-generation requests
    assume of the structure declarations besides [packed_layout]: the
    verification key block is packed from its two 2-byte fields, the
    token header and the public key token, and the remaining structures
    are smaller than 64k. *)
Definition packed_layout_ecdsa (H : header) : Prop :=
  sizeof_ECDSA_PUBLIC_KEY_BLOCK H
  = 2 + 2 + sizeof_CCA_TOKEN_HDR H + sizeof_ECC_PUBLIC_KEY_TOKEN H
  /\ fits16 (sizeof_ECDSA_PARMBLOCK_PART1 H)
  /\ fits16 (sizeof_ECDSA_PARMBLOCK_PART2 H)
  /\ fits16 (sizeof_ECKEYGEN_PARMBLOCK H)
  /\ fits16 (sizeof_ECKEYGEN_KEY_TOKEN H)
  /\ fits16 (sizeof_ECC_NULL_TOKEN H).

(** The lengths and addresses a builder announces agree with what it
    wrote: the structures follow one another from the start of the
    allocation; the request length of the [xcrb] is the bytes they take
    up; the [CPRBX] in front announces the bytes behind it as the
    parameter block; the reply is expected in the second half. *)
Definition request_consistent (H : header) (r : request) : Prop :=
  let '(w, xcrb, len) := r in
  contiguous H 0 w
  /\ request_control_blk_length xcrb = wire_bytes H w
  /\ reply_control_blk_length xcrb = CPRBXSIZE H + PARMBSIZE
  /\ request_control_blk_addr xcrb = 0
  /\ reply_control_blk_addr xcrb = CPRBXSIZE H + PARMBSIZE
  /\ len = 2 * (CPRBXSIZE H + PARMBSIZE)
  /\ exists c rest,
       w = (0, ItCPRBX c) :: rest
       /\ cprb_len c = CPRBXSIZE H
       /\ req_parml c = wire_bytes H rest
       /\ rpl_msgbl c = CPRBXSIZE H + PARMBSIZE
       /\ req_parmb c = CPRBXSIZE H
       /\ rpl_parmb c = 2 * CPRBXSIZE H + PARMBSIZE.

(** A library in which every call succeeds: the degree is that of
    P-256, the shared secret is [outlen] bytes 6, the signature is
    [(5, 258)], the generated key is [7] with the point [(8, 9)], and
    the hashes are all-ones. *)
Definition quiet_library : library := {|
  libcrypto_ok := fun _ _ => true;
  EC_GROUP_get_degree := fun _ _ => 256;
  ECDH_compute_key := fun _ z outlen _ _ =>
    (outlen, memcpy z 0 (repeat 6 (Z.to_nat outlen)) (Z.to_nat outlen));
  ECDSA_do_sign := fun _ _ _ _ => Some (5, 258);
  EC_KEY_generate_key := fun _ _ => Some (7, (8, 9));
  s390_sha512 := fun _ _ => (0, repeat 0xFF 64);
  s390_shake_256 := fun _ _ n => (0, repeat 0xFF n)
|}.

(** The pruning of the hashed secret in [ed25519_derive_pub] and
    [ed448_derive_pub], byte by byte of the little-endian digest. *)
Definition ed25519_scalar_byte (i : nat) (b : Z) : Z :=
  if (i =? 0)%nat then Z.land b (-8) mod 256
  else if (i =? 31)%nat then Z.lor (Z.land b 0x3f) 0x40
  else b.

Definition ed448_scalar_byte (i : nat) (b : Z) : Z :=
  if (i =? 0)%nat then Z.land b (-4) mod 256
  else if (i =? 55)%nat then Z.lor b 0x80
  else if (i =? 56)%nat then 0
  else b.

(** A point as the two functions hand it out: the big-endian [y] with
    the lowest bit of the big-endian [x] in the top bit of its first
    byte. *)
Definition encode_point (x y : list Z) : list Z :=
  update_byte y 0 (fun b => Z.lor b (Z.shiftl (Z.land (last x 0) 0x01) 7)).

(** How often a history increments the counter [c]. *)
Definition stats_increments (c : stats_counter) (s : lib_trace) : nat :=
  length (filter (fun e => match e with
                           | EvStats_increment c' =>
                               match c, c' with
                               | ICA_STATS_X25519_KEYGEN,
                                 ICA_STATS_X25519_KEYGEN
                               | ICA_STATS_X448_KEYGEN,
                                 ICA_STATS_X448_KEYGEN
                               | ICA_STATS_ED25519_KEYGEN,
                                 ICA_STATS_ED25519_KEYGEN
                               | ICA_STATS_ED448_KEYGEN,
                                 ICA_STATS_ED448_KEYGEN => true
                               | _, _ => false
                               end
                           | _ => false
                           end) s).

(** The events that [s'] has after its first [length s]. *)
Definition lib_since (s s' : lib_trace) : lib_trace := skipn (length s) s'.

(** The FIPS test at the head of the software entry points: [None] when
    it refuses the call, else the history after it. *)
Definition fips_test (E : environ) (C : config) (s : lib_trace)
  : option lib_trace :=
  if ICA_FIPS C && fips_ICA_FIPS_MODE C then
    if openssl_ok E (core s) call_FIPS_mode
    then Some (s ++ [Core (EvOpenSSL call_FIPS_mode)])
    else None
  else Some s.

(** The calls of a [make_eckey] that succeeds, and of a
    [make_public_eckey] that is given both coordinates and succeeds. *)
Definition make_eckey_calls (nid_ d : Z) : lib_trace :=
  [Core (EvOpenSSL (call_EC_KEY_new_by_curve_name nid_));
   Core (EvOpenSSL call_BN_bin2bn);
   EvLibcrypto call_EC_KEY_set_private_key;
   Core (EvOpenSSL call_EC_POINT_new);
   Core (EvEC_POINT_mul nid_ d);
   Core (EvOpenSSL call_EC_KEY_set_public_key)].


Definition make_public_eckey_calls (nid_ : Z) : trace :=
  [EvOpenSSL (call_EC_KEY_new_by_curve_name nid_);
   EvOpenSSL call_EC_POINT_new;
   EvOpenSSL call_BN_CTX_new;
   EvOpenSSL call_EC_KEY_set_public_key].

(** OpenSSL's allocations and setters never fail. *)
Definition openssl_reliable (E : environ) (L : library) : Prop :=
  (forall th c, openssl_ok E th c = true)
  /\ (forall sh c, libcrypto_ok L sh c = true).

(** * Properties *)

(** ** Buffers *)

Lemma length_zeros (n : nat) : length (zeros n) = n.
Proof. apply repeat_length. Qed.

Lemma length_memcpy (dst src : list Z) (off n : nat) :
  (n <= length src)%nat -> (off + n <= length dst)%nat ->
  length (memcpy dst off src n) = length dst.
Proof.
  intros Hs Hd. unfold memcpy.
  rewrite !length_app, !length_firstn, length_skipn. lia.
Qed.

Lemma length_load (buf : list Z) (off n : nat) :
  (off + n <= length buf)%nat -> length (load buf off n) = n.
Proof.
  intros Hb. unfold load. rewrite length_firstn, length_skipn. lia.
Qed.

(** Copying [n] bytes over a buffer of [n] bytes replaces it. *)
Lemma memcpy_whole (dst src : list Z) (n : nat) :
  length dst = n -> length src = n -> memcpy dst 0 src n = src.
Proof.
  intros Hd Hs. unfold memcpy. simpl.
  rewrite firstn_all2 by lia. rewrite skipn_all2 by lia.
  apply app_nil_r.
Qed.

(** Flipping the field at the front of a block and reading it back. *)
Lemma load_flip_front (buf : list Z) (w n : nat) :
  (w <= length buf)%nat -> (n <= w)%nat ->
  load (s390_flip_endian w buf 0) 0 n = firstn n (rev (load buf 0 w)).
Proof.
  intros Hw Hn. unfold s390_flip_endian, memcpy, load. simpl.
  assert (Hall : firstn w (rev (firstn w buf)) = rev (firstn w buf)).
  { apply firstn_all2. rewrite length_rev, length_firstn. lia. }
  rewrite Hall, firstn_app, length_rev, length_firstn.
  replace (n - Nat.min w (length buf))%nat with 0%nat by lia.
  rewrite firstn_O. apply app_nil_r.
Qed.

Lemma length_flip (w : nat) (buf : list Z) (off : nat) :
  (off + w <= length buf)%nat ->
  length (s390_flip_endian w buf off) = length buf.
Proof.
  intros Hb. unfold s390_flip_endian. apply length_memcpy; [|exact Hb].
  rewrite length_rev, length_load; lia.
Qed.

(** Wiping a whole block leaves zeros. *)
Lemma cleanse_all (buf : list Z) :
  length buf = PARAM_BYTES ->
  OPENSSL_cleanse buf 0 PARAM_BYTES = zeros PARAM_BYTES.
Proof.
  intros Hb. unfold OPENSSL_cleanse.
  apply memcpy_whole; [exact Hb | apply length_zeros].
Qed.

(** ** The Montgomery ladder, [scalar_mulx_cpacf] *)

Lemma scalar_mulx_cpacf_other (H : header) (E : environ) (t : trace)
    (res_u : option (list Z)) (scalar u : list Z) (curve_nid : Z) :
  curve_nid <> NID_X25519 -> curve_nid <> NID_X448 ->
  scalar_mulx_cpacf H E res_u scalar u curve_nid t
  = (EINVAL, res_u, zeros PARAM_BYTES, t).
Proof.
  intros H1 H2. unfold scalar_mulx_cpacf.
  destruct (Z.eqb_spec curve_nid NID_X25519); [contradiction|].
  destruct (Z.eqb_spec curve_nid NID_X448); [contradiction|].
  reflexivity.
Qed.

Lemma scalar_mulx_cpacf_x25519 (H : header) (E : environ) (t : trace)
    (res_u scalar u : list Z) :
  privlen_from_nid H NID_X25519 = 32 ->
  length scalar = 32%nat -> length u = 32%nat -> length res_u = 32%nat ->
  in_place (s390_pcc E) ->
  scalar_mulx_cpacf H E (Some res_u) scalar u NID_X25519 t =
    ladder_result H E t SCALAR_MULTIPLY_X25519 (x25519_block scalar u) 32 32.
Proof.
  intros Hp Hs Hu Hr Hin.
  unfold scalar_mulx_cpacf, ladder_result, privlen_size. rewrite Hp.
  change (NID_X25519 =? NID_X25519) with true. cbv iota.
  change (Z.to_nat 32) with 32%nat.
  match goal with
  | |- context [s390_pcc E t _ ?b] =>
      replace b with (x25519_block scalar u)
  end.
  2:{ do 33 (destruct scalar as [|? scalar]; try discriminate).
      do 33 (destruct u as [|? u]; try discriminate).
      reflexivity. }
  set (r := s390_pcc E t _ _).
  assert (Hlen : length (snd r) = 4096%nat).
  { unfold r. rewrite Hin. unfold x25519_block, mapi.
    rewrite !length_app, !length_rev, !length_map, !length_combine,
      !length_seq, !length_zeros. lia. }
  destruct r as [cc out]. simpl fst. simpl snd in *.
  assert (Hflip : length (s390_flip_endian_32 out 0) = 4096%nat)
    by (unfold s390_flip_endian_32; rewrite length_flip; lia).
  rewrite cleanse_all by exact Hflip.
  f_equal. f_equal. f_equal. simpl option_map. f_equal.
  unfold s390_flip_endian_32. rewrite load_flip_front by lia.
  rewrite firstn_all2 by (rewrite length_rev, length_load; lia).
  apply memcpy_whole; [exact Hr | rewrite length_rev, length_load; lia].
Qed.

Lemma scalar_mulx_cpacf_x448 (H : header) (E : environ) (t : trace)
    (res_u scalar u : list Z) :
  privlen_from_nid H NID_X448 = 56 ->
  length scalar = 56%nat -> length u = 56%nat -> length res_u = 56%nat ->
  in_place (s390_pcc E) ->
  scalar_mulx_cpacf H E (Some res_u) scalar u NID_X448 t =
    ladder_result H E t SCALAR_MULTIPLY_X448 (x448_block scalar u) 64 56.
Proof.
  intros Hp Hs Hu Hr Hin.
  unfold scalar_mulx_cpacf, ladder_result, privlen_size. rewrite Hp.
  change (NID_X448 =? NID_X25519) with false.
  change (NID_X448 =? NID_X448) with true. cbv iota.
  change (Z.to_nat 56) with 56%nat.
  match goal with
  | |- context [s390_pcc E t _ ?b] =>
      replace b with (x448_block scalar u)
  end.
  2:{ do 57 (destruct scalar as [|? scalar]; try discriminate).
      do 57 (destruct u as [|? u]; try discriminate).
      reflexivity. }
  set (r := s390_pcc E t _ _).
  assert (Hlen : length (snd r) = 4096%nat).
  { unfold r. rewrite Hin. unfold x448_block, mapi.
    rewrite !length_app, !length_rev, !length_map, !length_combine,
      !length_seq, !length_zeros. lia. }
  destruct r as [cc out]. simpl fst. simpl snd in *.
  assert (Hflip : length (s390_flip_endian_64 out 0) = 4096%nat)
    by (unfold s390_flip_endian_64; rewrite length_flip; lia).
  rewrite cleanse_all by exact Hflip.
  f_equal. f_equal. f_equal. simpl option_map. f_equal.
  unfold s390_flip_endian_64. rewrite load_flip_front by lia.
  assert (Hrev : firstn 56 (rev (load out 0 64)) = rev (load out 8 56)).
  { rewrite firstn_rev, length_load by lia. unfold load. simpl skipn at 2.
    change (64 - 56)%nat with 8%nat. f_equal.
    rewrite skipn_firstn_comm. reflexivity. }
  rewrite Hrev.
  apply memcpy_whole; [exact Hr | rewrite length_rev, length_load; lia].
Qed.

(** C5. [scalar_mulx_cpacf] clamps the X25519 scalar (byte 0 ANDed with
    248, byte 31 ANDed with 127 and ORed with 64) and the u-coordinate
    (byte 31 ANDed with 0x7f), clamps the X448 scalar (byte 0 ANDed with
    252, byte 55 ORed with 128), reverses scalar and u to big-endian
    before the one invocation of the instruction, and hands the caller
    the result reversed back to little-endian; for any other curve
    identifier it returns [EINVAL], calls no instruction and leaves the
    caller's buffer alone. *)
Theorem scalar_mulx_cpacf_ladder :
  forall (H : header) (E : environ) (t : trace)
         (res25 scalar25 u25 res448 scalar448 u448 : list Z),
    privlen_from_nid H NID_X25519 = 32 ->
    privlen_from_nid H NID_X448 = 56 ->
    length scalar25 = 32%nat -> length u25 = 32%nat ->
    length res25 = 32%nat ->
    length scalar448 = 56%nat -> length u448 = 56%nat ->
    length res448 = 56%nat ->
    in_place (s390_pcc E) ->
    scalar_mulx_cpacf H E (Some res25) scalar25 u25 NID_X25519 t =
      ladder_result H E t SCALAR_MULTIPLY_X25519
                    (x25519_block scalar25 u25) 32 32
    /\ scalar_mulx_cpacf H E (Some res448) scalar448 u448 NID_X448 t =
         ladder_result H E t SCALAR_MULTIPLY_X448
                       (x448_block scalar448 u448) 64 56
    /\ (forall curve_nid res_u scalar u,
          curve_nid <> NID_X25519 -> curve_nid <> NID_X448 ->
          scalar_mulx_cpacf H E res_u scalar u curve_nid t
          = (EINVAL, res_u, zeros PARAM_BYTES, t)).
Proof.
  intros H E t res25 scalar25 u25 res448 scalar448 u448
         Hp25 Hp448 Hs25 Hu25 Hr25 Hs448 Hu448 Hr448 Hin.
  split; [|split].
  - now apply scalar_mulx_cpacf_x25519.
  - now apply scalar_mulx_cpacf_x448.
  - intros. now apply scalar_mulx_cpacf_other.
Qed.

Lemma quiet_in_place (reply : card_reply) :
  in_place (s390_pcc (quiet_environ reply))
  /\ in_place (s390_kdsa (quiet_environ reply)).
Proof. split; intros t fc param; reflexivity. Qed.

(** The ladder run on the base points [9] and [5] with an all-ones
    scalar, on the sample platform. *)
Lemma scalar_mulx_cpacf_ladder_witness :
  let E := quiet_environ blank_reply in
  scalar_mulx_cpacf sample_header E (Some (zeros 32)) (repeat 255 32)
                    (9 :: zeros 31) NID_X25519 []
  = ladder_result sample_header E [] SCALAR_MULTIPLY_X25519
                  (x25519_block (repeat 255 32) (9 :: zeros 31)) 32 32
  /\ scalar_mulx_cpacf sample_header E (Some (zeros 56)) (repeat 255 56)
                       (5 :: zeros 55) NID_X448 []
     = ladder_result sample_header E [] SCALAR_MULTIPLY_X448
                     (x448_block (repeat 255 56) (5 :: zeros 55)) 64 56
  /\ (forall curve_nid res_u scalar u,
        curve_nid <> NID_X25519 -> curve_nid <> NID_X448 ->
        scalar_mulx_cpacf sample_header E res_u scalar u curve_nid []
        = (EINVAL, res_u, zeros PARAM_BYTES, [])).
Proof.
  intro E.
  apply (scalar_mulx_cpacf_ladder sample_header E []
           (zeros 32) (repeat 255 32) (9 :: zeros 31)
           (zeros 56) (repeat 255 56) (5 :: zeros 55));
    try reflexivity.
  apply (quiet_in_place blank_reply).
Defined.

(** ** Reading a block after a [memcpy] *)

(** A [memcpy] does not change what lies before its destination. *)
Lemma load_memcpy_before (dst src : list Z) (off n o m : nat) :
  (o + m <= off)%nat -> (off <= length dst)%nat ->
  load (memcpy dst off src n) o m = load dst o m.
Proof.
  intros Hom Hoff. unfold load, memcpy.
  rewrite skipn_app, length_firstn.
  replace (o - Nat.min off (length dst))%nat with 0%nat by lia.
  rewrite skipn_O, firstn_app, length_skipn, length_firstn.
  replace (m - (Nat.min off (length dst) - o))%nat with 0%nat by lia.
  rewrite firstn_O, app_nil_r, skipn_firstn_comm, firstn_firstn.
  f_equal. lia.
Qed.

(** Reading from [o] up to the end of what a [memcpy] wrote. *)
Lemma load_memcpy_upto (dst src : list Z) (off n o : nat) :
  (o <= off)%nat -> (off <= length dst)%nat -> (n <= length src)%nat ->
  load (memcpy dst off src n) o (off - o + n)
  = load dst o (off - o) ++ firstn n src.
Proof.
  intros Ho Hoff Hn. unfold load, memcpy.
  rewrite skipn_app, length_firstn.
  replace (o - Nat.min off (length dst))%nat with 0%nat by lia.
  rewrite skipn_O, firstn_app, length_skipn, length_firstn.
  replace (off - o + n - (Nat.min off (length dst) - o))%nat with n by lia.
  rewrite firstn_app, length_firstn, firstn_firstn.
  replace (n - Nat.min n (length src))%nat with 0%nat by lia.
  rewrite firstn_O, app_nil_r, Nat.min_id.
  f_equal.
  rewrite skipn_firstn_comm, firstn_firstn. f_equal. lia.
Qed.

Lemma firstn_zeros (n m : nat) :
  (m <= n)%nat -> firstn m (zeros n) = zeros m.
Proof.
  intros Hm. unfold zeros.
  replace n with (m + (n - m))%nat by lia.
  rewrite repeat_app, firstn_app, repeat_length, Nat.sub_diag, firstn_O.
  rewrite app_nil_r. apply firstn_all2. rewrite repeat_length. lia.
Qed.

Lemma skipn_zeros (n m : nat) : skipn m (zeros n) = zeros (n - m).
Proof.
  unfold zeros. destruct (Nat.le_gt_cases m n) as [Hm | Hm].
  - replace n with (m + (n - m))%nat at 1 by lia.
    rewrite repeat_app, skipn_app, repeat_length, Nat.sub_diag, skipn_O.
    rewrite skipn_all2 by (rewrite repeat_length; lia). reflexivity.
  - rewrite skipn_all2 by (rewrite repeat_length; lia).
    replace (n - m)%nat with 0%nat by lia. reflexivity.
Qed.

Lemma load_zeros (len o m : nat) :
  (o + m <= len)%nat -> load (zeros len) o m = zeros m.
Proof.
  intros Hl. unfold load. rewrite skipn_zeros. apply firstn_zeros. lia.
Qed.

(** ** The hash operand of the signature instruction *)

(** The first [memcpy] of both parameter builders fits the hash. *)
Lemma hash_memcpy_fit (size : nat) (hash : list Z) (hashlen : nat) :
  length hash = hashlen -> (3 * size <= PARAM_BYTES)%nat ->
  let off := (size - (if (size <? hashlen)%nat then size else hashlen))%nat in
  hash_operand size
    (memcpy (zeros PARAM_BYTES) (2 * size + off) hash (size - off))
  = fit_hash size hash.
Proof.
  intros Hh Hs off. unfold hash_operand, fit_hash. rewrite Hh.
  assert (Hoff : (off <= size)%nat) by (unfold off; lia).
  match goal with
  | |- load ?b ?o ?m = _ =>
      replace (load b o m)
        with (load b o (2 * size + off - 2 * size + (size - off)))
        by (f_equal; lia)
  end.
  rewrite load_memcpy_upto; [| lia | rewrite length_zeros; lia |].
  2:{ unfold off. destruct (Nat.ltb_spec size hashlen); lia. }
  rewrite load_zeros by lia.
  unfold off. destruct (Nat.ltb_spec size hashlen).
  - replace (2 * size + (size - size) - 2 * size)%nat with 0%nat by lia.
    replace (size - (size - size))%nat with size by lia. reflexivity.
  - replace (2 * size + (size - hashlen) - 2 * size)%nat
      with (size - hashlen)%nat by lia.
    replace (size - (size - hashlen))%nat with hashlen by lia.
    rewrite firstn_all2 by lia. reflexivity.
Qed.

Lemma length_hash_memcpy (size : nat) (hash : list Z) (hashlen : nat) :
  length hash = hashlen -> (3 * size <= PARAM_BYTES)%nat ->
  let off := (size - (if (size <? hashlen)%nat then size else hashlen))%nat in
  length (memcpy (zeros PARAM_BYTES) (2 * size + off) hash (size - off))
  = PARAM_BYTES.
Proof.
  intros Hh Hs off.
  rewrite length_memcpy; rewrite ?length_zeros; try reflexivity.
  - unfold off. destruct (Nat.ltb_spec size hashlen); lia.
  - unfold off. destruct (Nat.ltb_spec size hashlen); lia.
Qed.

Lemma ecdsa_sign_param_hash (H : header) (size : nat) (priv : ICA_EC_KEY)
    (hash : list Z) (hashlen : nat) :
  length hash = hashlen -> (4 * size <= PARAM_BYTES)%nat ->
  hash_operand size (ecdsa_sign_param H size priv hash hashlen)
  = fit_hash size hash.
Proof.
  intros Hh Hs. unfold ecdsa_sign_param.
  unfold hash_operand at 1.
  rewrite load_memcpy_before.
  - apply hash_memcpy_fit; [exact Hh | lia].
  - lia.
  - rewrite length_hash_memcpy by (exact Hh || lia). lia.
Qed.

(** A [memcpy] does not change what lies behind its destination. *)
Lemma load_memcpy_after (dst src : list Z) (off n o m : nat) :
  (off + n <= o)%nat -> (n <= length src)%nat ->
  (off + n <= length dst)%nat ->
  load (memcpy dst off src n) o m = load dst o m.
Proof.
  intros Ho Hn Hd. unfold load, memcpy. f_equal.
  rewrite skipn_app, length_firstn.
  rewrite (skipn_all2 (firstn off dst)) by (rewrite length_firstn; lia).
  rewrite app_nil_l, skipn_app, length_firstn.
  rewrite (skipn_all2 (firstn n src)) by (rewrite length_firstn; lia).
  rewrite app_nil_l, skipn_skipn. f_equal. lia.
Qed.

(** A [memcpy] from a source that is too short loses at most [n] bytes. *)
Lemma length_memcpy_ge (dst src : list Z) (off n : nat) :
  (off + n <= length dst)%nat ->
  (length dst - n <= length (memcpy dst off src n))%nat.
Proof.
  intros Hd. unfold memcpy.
  rewrite !length_app, !length_firstn, length_skipn. lia.
Qed.

Lemma ecdsa_verify_param_hash (H : header) (size : nat) (pub : ICA_EC_KEY)
    (hash : list Z) (hashlen : nat) (sig : list Z) :
  length hash = hashlen -> (6 * size <= PARAM_BYTES)%nat ->
  (2 * privlen_size H (nid pub) <= length sig)%nat ->
  hash_operand size (ecdsa_verify_param H size pub hash hashlen sig)
  = fit_hash size hash.
Proof.
  intros Hh Hs Hsig. unfold ecdsa_verify_param.
  set (off := (size - privlen_size H (nid pub))%nat).
  set (p0 := memcpy (zeros PARAM_BYTES) _ hash _).
  assert (L0 : length p0 = PARAM_BYTES)
    by (apply length_hash_memcpy; [exact Hh | lia]).
  set (p1 := memcpy p0 off sig (size - off)).
  assert (L1 : length p1 = PARAM_BYTES).
  { unfold p1. rewrite length_memcpy; [exact L0 | unfold off; lia | lia]. }
  set (p2 := memcpy p1 (size + off) (skipn (size - off) sig) (size - off)).
  assert (L2 : length p2 = PARAM_BYTES).
  { unfold p2. rewrite length_memcpy; [exact L1 | | lia].
    rewrite length_skipn. unfold off. lia. }
  set (p3 := memcpy p2 (3 * size + off) (deref (X pub)) (size - off)).
  assert (L3 : (PARAM_BYTES - size <= length p3)%nat).
  { unfold p3.
    pose proof (length_memcpy_ge p2 (deref (X pub)) (3 * size + off)
                  (size - off)) as G.
    rewrite L2 in G. lia. }
  unfold hash_operand.
  rewrite load_memcpy_before by lia.
  unfold p3. rewrite load_memcpy_before by lia.
  unfold p2. rewrite load_memcpy_after; [| lia | | lia].
  2:{ rewrite length_skipn. unfold off. lia. }
  unfold p1. rewrite load_memcpy_after; [| lia | unfold off; lia | lia].
  apply hash_memcpy_fit; [exact Hh | lia].
Qed.

(** The retry loop only appends to the history. *)
Lemma sign_retry_extends (E : environ) (cb : rng_callback) (fc : Z)
    (rand_at n : nat) (fuel : nat) :
  forall param t rc out t',
    sign_retry E fuel cb fc rand_at n (param, t) = Some (rc, (out, t')) ->
    exists rest, t' = t ++ rest.
Proof.
  induction fuel as [|fuel IH]; intros param t rc out t' Hr;
    [discriminate|].
  simpl in Hr.
  destruct (s390_kdsa E (t ++ [EvRng n]) fc
              (memcpy param rand_at (cb t n) n)) as [rc1 out1] eqn:Hk.
  destruct (rc1 =? 0).
  - inversion Hr; subst. rewrite <- app_assoc. eauto.
  - apply IH in Hr. destruct Hr as [rest ->].
    rewrite <- !app_assoc. eauto.
Qed.

(** Its first invocation gets the block with the random bytes put in. *)
Lemma sign_retry_first (E : environ) (cb : rng_callback) (fc : Z)
    (rand_at n : nat) (fuel : nat) (param : list Z) (t : trace)
    (rc : Z) (out : list Z) (t' : trace) :
  sign_retry E fuel cb fc rand_at n (param, t) = Some (rc, (out, t')) ->
  exists rest,
    t' = t ++ EvRng n :: EvKdsa fc (memcpy param rand_at (cb t n) n) :: rest.
Proof.
  destruct fuel as [|fuel]; [discriminate|]. simpl.
  destruct (s390_kdsa E (t ++ [EvRng n]) fc
              (memcpy param rand_at (cb t n) n)) as [rc1 out1] eqn:Hk.
  destruct (rc1 =? 0); intros Hr.
  - inversion Hr; subst. exists []. rewrite <- app_assoc. reflexivity.
  - apply sign_retry_extends in Hr. destruct Hr as [rest ->].
    exists rest. rewrite <- !app_assoc. reflexivity.
Qed.

Lemma since_app (t l : trace) : since t (t ++ l) = l.
Proof.
  unfold since. rewrite skipn_app, Nat.sub_diag, skipn_O.
  rewrite skipn_all2 by lia. reflexivity.
Qed.

Lemma kdsa_operand_width_cases (curve_nid : Z) (w : nat) :
  kdsa_operand_width curve_nid = Some w ->
  (curve_nid = NID_X9_62_prime256v1 /\ w = 32%nat)
  \/ (curve_nid = NID_secp384r1 /\ w = 48%nat)
  \/ (curve_nid = NID_secp521r1 /\ w = 80%nat).
Proof.
  unfold kdsa_operand_width.
  destruct (Z.eqb_spec curve_nid NID_X9_62_prime256v1).
  { intros [= <-]. auto. }
  destruct (Z.eqb_spec curve_nid NID_secp384r1).
  { intros [= <-]. auto. }
  destruct (Z.eqb_spec curve_nid NID_secp521r1).
  { intros [= <-]. auto. }
  discriminate.
Qed.

Lemma kdsa_sign_function_width (curve_nid : Z) (w : nat) :
  kdsa_operand_width curve_nid = Some w ->
  exists f, kdsa_sign_function curve_nid = Some f.
Proof.
  intros Hw. unfold kdsa_sign_function.
  destruct (kdsa_operand_width_cases _ _ Hw) as [[-> _]|[[-> _]|[-> _]]];
    simpl; eauto.
Qed.

(** On a supported curve [ecdsa_sign_cpacf] is its [case] for the
    operand width and the function code of the curve. *)
Lemma ecdsa_sign_cpacf_case (H : header) (E : environ) (fuel : nat)
    (priv : ICA_EC_KEY) (hash : list Z) (hashlen : nat) (sig : list Z)
    (rng_cb : option rng_callback) (t : trace) (w : nat)
    (f : kdsa_function) :
  kdsa_operand_width (nid priv) = Some w ->
  kdsa_sign_function (nid priv) = Some f ->
  ecdsa_sign_cpacf H E fuel priv hash hashlen sig rng_cb t
  = ecdsa_sign_case H E fuel w f priv hash hashlen sig rng_cb t.
Proof.
  intros Hw Hf. unfold ecdsa_sign_cpacf.
  unfold kdsa_sign_function in Hf.
  destruct (kdsa_operand_width_cases _ _ Hw) as [[Hn ->]|[[Hn ->]|[Hn ->]]];
    rewrite Hn in *; simpl in Hf; injection Hf as <-; reflexivity.
Qed.

(** C10. At the signature instruction the hash is fitted to the operand
    width of the curve (32, 48 and 80 bytes, the fields of the three
    parameter layouts): a shorter hash is copied right-aligned behind
    zeros, of a longer hash only the leftmost bytes are used.  This is
    the [hash] field of the block that the first invocation receives,
    in [ecdsa_sign_cpacf] with and without a callback and in
    [ecdsa_verify_cpacf]. *)
Theorem ecdsa_cpacf_hash_fitted :
  forall (H : header) (E : environ) (t : trace) (key : ICA_EC_KEY)
         (hash : list Z) (hashlen : nat) (sig_out sig : list Z) (w : nat),
    kdsa_operand_width (nid key) = Some w ->
    length hash = hashlen ->
    (2 * privlen_size H (nid key) <= length sig)%nat ->
    (forall fuel,
        exists r fc blk,
          ecdsa_sign_cpacf H E fuel key hash hashlen sig_out None t = Some r
          /\ since t (snd r) = [EvKdsa fc blk]
          /\ hash_operand w blk = fit_hash w hash)
    /\ (forall fuel cb r,
          ecdsa_sign_cpacf H E fuel key hash hashlen sig_out (Some cb) t
          = Some r ->
          exists fc blk,
            hd_error (kdsa_calls (since t (snd r))) = Some (fc, blk)
            /\ hash_operand w blk = fit_hash w hash)
    /\ (exists fc blk,
          since t (snd (ecdsa_verify_cpacf H E key hash hashlen sig t))
          = [EvKdsa fc blk]
          /\ hash_operand w blk = fit_hash w hash).
Proof.
  intros H E t key hash hashlen sig_out sig w Hw Hh Hsig.
  assert (Hsize : (6 * w <= PARAM_BYTES)%nat).
  { destruct (kdsa_operand_width_cases _ _ Hw)
      as [[_ ->]|[[_ ->]|[_ ->]]]; unfold PARAM_BYTES; lia. }
  split; [|split].
  - intros fuel.
    destruct (kdsa_sign_function_width _ _ Hw) as [f Hf].
    rewrite (ecdsa_sign_cpacf_case H E fuel key hash hashlen sig_out
               None t w f Hw Hf).
    unfold ecdsa_sign_case.
    destruct (s390_kdsa E t (s390_kdsa_functions H f)
                (ecdsa_sign_param H w key hash hashlen)) as [rc out].
    eexists. eexists. eexists. split; [reflexivity|]. simpl snd. split.
    + apply since_app.
    + apply ecdsa_sign_param_hash; [exact Hh | lia].
  - intros fuel cb r.
    destruct (kdsa_sign_function_width _ _ Hw) as [f Hf].
    rewrite (ecdsa_sign_cpacf_case H E fuel key hash hashlen sig_out
               (Some cb) t w f Hw Hf).
    unfold ecdsa_sign_case.
    destruct (sign_retry E fuel cb _ _ _ _) as [[rc [out t']]|] eqn:Hr;
      [|discriminate].
    intros [= <-]. simpl snd.
    apply sign_retry_first in Hr. destruct Hr as [rest ->].
    rewrite since_app. simpl. eexists. eexists. split; [reflexivity|].
    unfold hash_operand. rewrite load_memcpy_before.
    + apply ecdsa_sign_param_hash; [exact Hh | lia].
    + lia.
    + unfold ecdsa_sign_param.
      set (p0 := memcpy (zeros PARAM_BYTES) _ hash _).
      assert (L0 : length p0 = PARAM_BYTES)
        by (apply length_hash_memcpy; [exact Hh | lia]).
      pose proof (length_memcpy_ge p0 (deref (D key))
                    (3 * w + (w - privlen_size H (nid key)))
                    (w - (w - privlen_size H (nid key)))) as G.
      rewrite L0 in G. lia.
  - unfold ecdsa_verify_cpacf.
    destruct (kdsa_operand_width_cases _ _ Hw)
      as [[Hn ->]|[[Hn ->]|[Hn ->]]]; rewrite Hn; simpl "=?"; cbv iota;
      match goal with
      | |- context [s390_kdsa E t ?fc ?b] =>
          destruct (s390_kdsa E t fc b) as [cc out]
      end;
      simpl snd; rewrite since_app;
      eexists; eexists; (split; [reflexivity|]);
      apply ecdsa_verify_param_hash; try assumption; lia.
Qed.

(** On P-521 the field has 80 bytes, 14 more than a coordinate: a hash
    of 70 bytes is used whole. *)
Lemma p521_hash_of_70_bytes_used_whole (hash : list Z) :
  length hash = 70%nat ->
  kdsa_operand_width NID_secp521r1 = Some 80%nat
  /\ fit_hash 80 hash = zeros 10 ++ hash.
Proof.
  intros Hh. split; [reflexivity|].
  unfold fit_hash. rewrite Hh. reflexivity.
Qed.

(** A 20-byte hash on P-256, on the sample platform. *)
Lemma ecdsa_cpacf_hash_fitted_witness :
  exists r fc blk,
    ecdsa_sign_cpacf sample_header (quiet_environ blank_reply) 0
      sample_p256_key (repeat 0xAB 20) 20 (zeros 64) None [] = Some r
    /\ since [] (snd r) = [EvKdsa fc blk]
    /\ hash_operand 32 blk = fit_hash 32 (repeat 0xAB 20).
Proof.
  refine (proj1 (ecdsa_cpacf_hash_fitted sample_header
            (quiet_environ blank_reply) [] sample_p256_key
            (repeat 0xAB 20) 20 (zeros 64) (zeros 64) 32 _ _ _) 0%nat).
  - reflexivity.
  - reflexivity.
  - vm_compute. apply le_n.
Defined.

(** ** The retry loop of deterministic signing *)

Lemma kdsa_calls_app (t1 t2 : trace) :
  kdsa_calls (t1 ++ t2) = kdsa_calls t1 ++ kdsa_calls t2.
Proof. unfold kdsa_calls. apply flat_map_app. Qed.

(** [ecdsa_sign_param] builds a block of the full length. *)
Lemma length_ecdsa_sign_param (H : header) (w : nat) (key : ICA_EC_KEY)
    (hash : list Z) (hashlen : nat) (d : list Z) :
  (5 * w <= PARAM_BYTES)%nat -> length hash = hashlen ->
  D key = Some d -> (privlen_size H (nid key) <= length d)%nat ->
  length (ecdsa_sign_param H w key hash hashlen) = PARAM_BYTES.
Proof.
  intros Hw Hh HD Hd. unfold ecdsa_sign_param. rewrite HD. cbn [deref].
  rewrite length_memcpy.
  - apply length_hash_memcpy; [exact Hh | lia].
  - lia.
  - rewrite length_hash_memcpy by (exact Hh || lia). lia.
Qed.

Lemma kdsa_operand_width_bound (curve_nid : Z) (w : nat) :
  kdsa_operand_width curve_nid = Some w -> (5 * w <= PARAM_BYTES)%nat.
Proof.
  intros Hw.
  destruct (kdsa_operand_width_cases _ _ Hw) as [[_ ->]|[[_ ->]|[_ ->]]];
    unfold PARAM_BYTES; lia.
Qed.

(** [read_signature] fills a signature buffer of [2 * len] bytes with the
    significant bytes of [sig_r] and of [sig_s]. *)
Lemma read_signature_halves (w len : nat) (out sig : list Z) :
  (len <= w)%nat -> (2 * w <= length out)%nat ->
  length sig = (2 * len)%nat ->
  read_signature w (w - len) out sig
  = load out (w - len) len ++ load out (w + (w - len)) len.
Proof.
  intros Hl Ho Hs. unfold read_signature.
  replace (w - (w - len))%nat with len by lia.
  set (r := load out (w - len) len).
  set (s := load out (w + (w - len)) len).
  assert (Hr : length r = len) by (unfold r; apply length_load; lia).
  assert (Hs' : length s = len) by (unfold s; apply length_load; lia).
  unfold memcpy. cbn [firstn app Nat.add].
  rewrite (firstn_all2 r) by lia. rewrite (firstn_all2 s) by lia.
  rewrite firstn_app, (firstn_all2 r) by lia.
  rewrite Hr, Nat.sub_diag, firstn_O, app_nil_r.
  rewrite skipn_all2.
  2:{ rewrite length_app, length_skipn. lia. }
  rewrite app_nil_r. reflexivity.
Qed.

(** The loop of the source ends with the first attempt that the
    instruction accepts, and hands to the instruction what the
    specification says. *)
Lemma sign_retry_attempts (E : environ) (cb : rng_callback) (fc : Z)
    (rand_at n : nat) (k : nat) :
  forall block t fuel,
    (forall j, (j < k)%nat ->
       fst (s390_kdsa E (snd (attempt_input E cb fc rand_at n j block t)) fc
              (fst (attempt_input E cb fc rand_at n j block t))) <> 0) ->
    fst (s390_kdsa E (snd (attempt_input E cb fc rand_at n k block t)) fc
           (fst (attempt_input E cb fc rand_at n k block t))) = 0 ->
    (k < fuel)%nat ->
    sign_retry E fuel cb fc rand_at n (block, t)
    = Some (0,
            (snd (s390_kdsa E
                    (snd (attempt_input E cb fc rand_at n k block t)) fc
                    (fst (attempt_input E cb fc rand_at n k block t))),
             snd (attempt_input E cb fc rand_at n k block t)
             ++ [EvKdsa fc
                   (fst (attempt_input E cb fc rand_at n k block t))])).
Proof.
  induction k as [|k IH]; intros block t fuel Hrej Hacc Hfuel;
    (destruct fuel as [|fuel]; [lia|]).
  - cbn [attempt_input fst snd] in Hacc |- *.
    cbn [sign_retry kdsa_attempt].
    destruct (s390_kdsa E (t ++ [EvRng n]) fc
                (memcpy block rand_at (cb t n) n)) as [rc out].
    cbn [fst snd] in *. subst rc. reflexivity.
  - pose proof (Hrej 0%nat ltac:(lia)) as H0.
    cbn [attempt_input fst snd] in H0.
    cbn [sign_retry kdsa_attempt].
    cbn [attempt_input] in Hacc |- *.
    destruct (s390_kdsa E (t ++ [EvRng n]) fc
                (memcpy block rand_at (cb t n) n)) as [rc out] eqn:Hk.
    cbn [fst snd] in *.
    destruct (Z.eqb_spec rc 0); [contradiction|].
    apply IH; [| exact Hacc | lia].
    intros j Hj. pose proof (Hrej (S j) ltac:(lia)) as Hs.
    cbn [attempt_input] in Hs. rewrite Hk in Hs. exact Hs.
Qed.

(** The history of attempt [k]: a draw and an invocation for every
    attempt before it, and its own draw. *)
Lemma attempt_input_history (E : environ) (cb : rng_callback) (fc : Z)
    (rand_at n : nat) (k : nat) :
  forall block t,
    snd (attempt_input E cb fc rand_at n k block t)
    = t ++ flat_map
             (fun j =>
                [EvRng n;
                 EvKdsa fc (fst (attempt_input E cb fc rand_at n j block t))])
             (seq 0 k)
        ++ [EvRng n].
Proof.
  induction k as [|k IH]; intros block t; [reflexivity|].
  cbn [attempt_input]. rewrite IH.
  cbn [seq flat_map]. rewrite <- seq_shift.
  rewrite (flat_map_concat_map _ (map S (seq 0 k))), map_map,
    <- flat_map_concat_map.
  cbn [app attempt_input fst]. rewrite <- !app_assoc.
  reflexivity.
Qed.

(** Every attempt works on a block of the full length. *)
Lemma length_attempt_input (E : environ) (cb : rng_callback) (fc : Z)
    (rand_at n N : nat) (k : nat) :
  in_place (s390_kdsa E) -> (forall th, length (cb th n) = n) ->
  (rand_at + n <= N)%nat ->
  forall block t,
    length block = N ->
    length (fst (attempt_input E cb fc rand_at n k block t)) = N.
Proof.
  intros Hin Hcb Hn.
  induction k as [|k IH]; intros block t Hb; cbn [attempt_input fst].
  - rewrite length_memcpy by (rewrite ?Hcb; lia). exact Hb.
  - apply IH. rewrite Hin.
    rewrite length_memcpy by (rewrite ?Hcb; lia). exact Hb.
Qed.

(** The sample instructions work in place. *)
Lemma answering_signature_in_place (cc : Z) (w : nat) (r s : list Z)
    (E : environ) :
  (length r <= w)%nat -> (length s <= w)%nat ->
  in_place (s390_kdsa (answering_signature cc w r s E)).
Proof.
  intros Hr Hs t fc param. unfold answering_signature. cbn [s390_kdsa].
  destruct (Nat.leb_spec (w + w) (length param)) as [Hp|Hp]; cbn [snd];
    [|reflexivity].
  rewrite length_memcpy.
  - apply length_memcpy; lia.
  - lia.
  - rewrite length_memcpy; lia.
Qed.

Lemma rejecting_until_in_place (n : nat) (E : environ) :
  in_place (s390_kdsa E) -> in_place (s390_kdsa (rejecting_until n E)).
Proof.
  intros HE t fc param. unfold rejecting_until. cbn [s390_kdsa].
  destruct (length t <? n)%nat; [reflexivity | apply HE].
Qed.

(** C9. Without a callback [ecdsa_sign_cpacf] invokes the instruction
    exactly once, with the function code of the curve, and hands out
    the signature of that invocation.  With a callback it draws a fresh
    random value into the random field and invokes the instruction,
    with the function code ORed with [0x80], again and again until an
    invocation returns 0: if attempt [k] is the first that the
    instruction accepts, then with more than [k] attempts allowed the
    function returns 0 after exactly [k + 1] draws and invocations, each
    invocation on the block the attempt before it has left with the new
    random value put in, and the signature it hands out is read from
    the answer to attempt [k]: the significant bytes of its two
    signature fields. *)
Theorem ecdsa_sign_cpacf_retries_until_accepted :
  forall (H : header) (E : environ) (t : trace) (key : ICA_EC_KEY)
         (hash : list Z) (hashlen : nat) (sig : list Z)
         (w : nat) (f : kdsa_function) (d : list Z),
    kdsa_operand_width (nid key) = Some w ->
    kdsa_sign_function (nid key) = Some f ->
    let len := privlen_size H (nid key) in
    (len <= w)%nat ->
    length hash = hashlen -> D key = Some d -> length d = len ->
    length sig = (2 * len)%nat ->
    in_place (s390_kdsa E) ->
    let signature_of (out : list Z) :=
      load out (w - len) len ++ load out (w + (w - len)) len in
    (forall fuel,
        let fc := s390_kdsa_functions H f in
        let param := ecdsa_sign_param H w key hash hashlen in
        let a := s390_kdsa E t fc param in
        exists blk,
          ecdsa_sign_cpacf H E fuel key hash hashlen sig None t
          = Some (fst a, signature_of (snd a), blk,
                  t ++ [EvKdsa fc param]))
    /\ (forall (cb : rng_callback) (k fuel : nat),
          (forall th n, length (cb th n) = n) ->
          let fc := Z.lor (s390_kdsa_functions H f) 0x80 in
          let input := signing_input H E cb w f key hash hashlen t in
          let answer := signing_answer H E cb w f key hash hashlen t in
          (forall j, (j < k)%nat -> fst (answer j) <> 0) ->
          fst (answer k) = 0 ->
          (k < fuel)%nat ->
          exists blk,
            ecdsa_sign_cpacf H E fuel key hash hashlen sig (Some cb) t
            = Some (0, signature_of (snd (answer k)), blk,
                    t ++ flat_map
                           (fun j => [EvRng len; EvKdsa fc (fst (input j))])
                           (seq 0 (S k)))).
Proof.
  intros H E t key hash hashlen sig w f d Hw Hf len Hlen Hh HD Hd Hsig Hin
         signature_of.
  pose proof (kdsa_operand_width_bound _ _ Hw) as Hb.
  assert (Lp : length (ecdsa_sign_param H w key hash hashlen) = PARAM_BYTES).
  { apply (length_ecdsa_sign_param H w key hash hashlen d);
      [exact Hb | exact Hh | exact HD | fold len; lia]. }
  split.
  - intros fuel fc param a.
    rewrite (ecdsa_sign_cpacf_case H E fuel key hash hashlen sig
               None t w f Hw Hf).
    unfold ecdsa_sign_case. fold param fc.
    pose proof (Hin t fc param) as La. fold a in La. subst a.
    destruct (s390_kdsa E t fc param) as [rc out]. cbn [fst snd] in *.
    eexists. fold len.
    rewrite read_signature_halves by (fold param in Lp; lia).
    reflexivity.
  - intros cb k fuel Hcb fc input answer Hrej Hacc Hfuel.
    rewrite (ecdsa_sign_cpacf_case H E fuel key hash hashlen sig
               (Some cb) t w f Hw Hf).
    unfold ecdsa_sign_case. fold len.
    replace (w - (w - len))%nat with len by lia.
    subst input answer. unfold signing_answer, signing_input in *.
    cbv zeta in Hrej, Hacc |- *. fold len in Hrej, Hacc |- *.
    fold fc in Hrej, Hacc |- *.
    rewrite (sign_retry_attempts E cb fc (4 * w + (w - len)) len k
               _ t fuel Hrej Hacc Hfuel).
    set (i := attempt_input E cb fc (4 * w + (w - len)) len k
                (ecdsa_sign_param H w key hash hashlen) t) in *.
    assert (Li : length (fst i) = PARAM_BYTES).
    { unfold i. apply length_attempt_input;
        [exact Hin | intros th; apply Hcb | lia | exact Lp]. }
    pose proof (Hin (snd i) fc (fst i)) as La. rewrite Li in La.
    pose proof (attempt_input_history E cb fc (4 * w + (w - len)) len k
                  (ecdsa_sign_param H w key hash hashlen) t) as Hhist.
    fold i in Hhist.
    eexists.
    rewrite read_signature_halves by lia.
    rewrite seq_S, flat_map_app. cbn [flat_map Nat.add].
    fold i. rewrite Hhist, <- !app_assoc. reflexivity.
Qed.

Lemma ecdsa_sign_cpacf_retries_until_accepted_witness :
  let E :=
    rejecting_until 3
      (answering_signature 0 32 (repeat 0x11 32) (repeat 0x22 32)
                           (quiet_environ blank_reply)) in
  let cb : rng_callback := fun _ n => repeat 7 n in
  let input :=
    signing_input sample_header E cb 32 ECDSA_SIGN_P256 sample_p256_key
                  (repeat 0xAB 20) 20 [] in
  let answer :=
    signing_answer sample_header E cb 32 ECDSA_SIGN_P256 sample_p256_key
                   (repeat 0xAB 20) 20 [] in
  fst (answer 0%nat) = 1
  /\ load (fst (input 1%nat)) 128 32 = repeat 7 32
  /\ exists blk,
       ecdsa_sign_cpacf sample_header E 2 sample_p256_key (repeat 0xAB 20)
                        20 (zeros 64) (Some cb) []
       = Some (0, repeat 0x11 32 ++ repeat 0x22 32, blk,
               [EvRng 32; EvKdsa 137 (fst (input 0%nat));
                EvRng 32; EvKdsa 137 (fst (input 1%nat))]).
Proof.
  intros E cb input answer.
  split; [reflexivity|]. split; [reflexivity|].
  refine (proj2 (ecdsa_sign_cpacf_retries_until_accepted sample_header E []
            sample_p256_key (repeat 0xAB 20) 20 (zeros 64) 32
            ECDSA_SIGN_P256 (repeat 1 32) eq_refl eq_refl (le_n 32)
            eq_refl eq_refl eq_refl eq_refl _) cb 1%nat 2%nat _ _ _ _).
  - apply rejecting_until_in_place, answering_signature_in_place;
      rewrite repeat_length; apply le_n.
  - intros th n. apply repeat_length.
  - intros j Hj. assert (j = 0%nat) as -> by lia.
    vm_compute. discriminate.
  - vm_compute. reflexivity.
  - apply Nat.leb_le. reflexivity.
Defined.

(** ** Bit lengths in key tokens *)

Lemma u32_small (x : Z) : 0 <= x < 2 ^ 32 -> u32 x = x.
Proof. intros Hx. unfold u32. apply Z.mod_small. exact Hx. Qed.

Lemma token_bitlen_expected (H : header) (curve_nid : Z) :
  0 <= privlen_from_nid H curve_nid < 2 ^ 29 ->
  token_bitlen curve_nid (privlen_from_nid H curve_nid)
  = expected_bitlen H curve_nid.
Proof.
  intros Hp. unfold token_bitlen, expected_bitlen.
  destruct (curve_nid =? NID_secp521r1); [reflexivity|].
  rewrite u32_small by lia. lia.
Qed.

(** C6. Every key token built for the coprocessor carries, in each of
    its bit-length fields, 8 times the byte length of the curve, except
    on [NID_secp521r1], where it carries 521: in the private section,
    the associated data and the public section of the ECDH and ECDSA
    private key tokens and of the key-generation token, and in the
    public section of the ECDSA public key token. *)
Theorem key_tokens_carry_expected_bitlen :
  forall (H : header) (key peer : ICA_EC_KEY) (keyblock_length : Z)
         (X_ Y_ : list Z) (curve_type : Z),
    0 <= privlen_from_nid H (nid key) < 2 ^ 29 ->
    let bits := expected_bitlen H (nid key) in
    token_bitlens
      (fst (make_ecdh_key_token H keyblock_length key peer curve_type))
    = [bits; bits; bits]
    /\ token_bitlens
         (fst (make_ecdsa_private_key_token H key X_ Y_ curve_type))
       = [bits; bits; bits]
    /\ pub_p_bitlen
         (kb_pubsec (fst (make_ecdsa_public_key_token H key curve_type)))
       = bits
    /\ eckeygen_token_bitlens
         (fst (make_eckeygen_private_key_token H (nid key) curve_type))
       = [bits; bits; bits].
Proof.
  intros H key peer keyblock_length X_ Y_ curve_type Hp bits.
  pose proof (token_bitlen_expected H (nid key) Hp) as Hb.
  assert (Hu : u32 (privlen_from_nid H (nid key))
               = privlen_from_nid H (nid key)) by (apply u32_small; lia).
  unfold make_ecdh_key_token, make_ecdsa_private_key_token,
    make_ecdsa_public_key_token, make_eckeygen_private_key_token,
    token_bitlens, eckeygen_token_bitlens.
  simpl. rewrite Hu, Hb. auto.
Qed.

Lemma key_tokens_carry_expected_bitlen_witness :
  let key := {| nid := NID_secp521r1; X := None; Y := None;
                D := Some (repeat 1 66) |} in
  token_bitlens
    (fst (make_ecdh_key_token sample_header 0 key sample_p256_key 0))
  = [521; 521; 521]
  /\ token_bitlens
       (fst (make_ecdsa_private_key_token sample_header key [] [] 0))
     = [521; 521; 521]
  /\ pub_p_bitlen
       (kb_pubsec (fst (make_ecdsa_public_key_token sample_header key 0)))
     = 521
  /\ eckeygen_token_bitlens
       (fst (make_eckeygen_private_key_token sample_header
               NID_secp521r1 0))
     = [521; 521; 521].
Proof.
  intro key.
  apply (key_tokens_carry_expected_bitlen sample_header key
           sample_p256_key 0 [] [] 0).
  vm_compute. split; [discriminate | reflexivity].
Defined.

(** ** The key block of the ECDH request *)

Lemma length_firstn_exact (n : Z) (l : list Z) :
  0 <= n -> n <= Z.of_nat (length l) ->
  Z.of_nat (length (firstn (Z.to_nat n) l)) = n.
Proof. intros H0 Hl. rewrite length_firstn. lia. Qed.

(** Rewrites every [u32 e] whose argument is in range, innermost first. *)
Ltac drop_u32 :=
  repeat match goal with
         | |- context [u32 ?e] =>
             lazymatch e with
             | context [u32 _] => fail
             | _ => rewrite (u32_small e) by (unfold fits16 in *; lia)
             end
         end.


Lemma sample_packed : packed_layout sample_header.
Proof. unfold packed_layout, fits16. simpl. lia. Qed.


(** ** Status codes of signature verification *)

Lemma kdsa_operand_width_none (curve_nid : Z) :
  kdsa_operand_width curve_nid = None ->
  (curve_nid =? NID_X9_62_prime256v1) = false
  /\ (curve_nid =? NID_secp384r1) = false
  /\ (curve_nid =? NID_secp521r1) = false.
Proof.
  unfold kdsa_operand_width.
  destruct (curve_nid =? NID_X9_62_prime256v1); [discriminate|].
  destruct (curve_nid =? NID_secp384r1); [discriminate|].
  destruct (curve_nid =? NID_secp521r1); [discriminate|].
  auto.
Qed.



Lemma verify_reply_status_spec (H : header) (rt rs : Z) :
  (rt = 4 /\ rs = RS_SIGNATURE_INVALID H ->
   verify_reply_status H rt rs = EFAULT)
  /\ (rt = 0 /\ rs = 0 -> verify_reply_status H rt rs = 0)
  /\ (~ (rt = 4 /\ rs = RS_SIGNATURE_INVALID H) -> ~ (rt = 0 /\ rs = 0) ->
      verify_reply_status H rt rs = EIO).
Proof.
  unfold verify_reply_status. repeat split.
  - intros [-> ->]. rewrite !Z.eqb_refl. reflexivity.
  - intros [-> ->]. reflexivity.
  - intros H4 H0.
    destruct (Z.eqb_spec rt 4), (Z.eqb_spec rs (RS_SIGNATURE_INVALID H));
      simpl; try tauto;
      destruct (Z.eqb_spec rt 0), (Z.eqb_spec rs 0); simpl; tauto.
Qed.

Lemma make_public_eckey_reliable (E : environ) (nid_ xv yv : Z) (t : trace) :
  (forall th c, openssl_ok E th c = true) ->
  make_public_eckey E nid_ (Some xv) (Some yv) t
  = (Some {| ek_nid := nid_; ek_pub := Some (xv, yv) |},
     t ++ make_public_eckey_calls nid_).
Proof.
  intros Hok. unfold make_public_eckey, openssl.
  rewrite !Hok. cbn [negb].
  unfold make_public_eckey_calls. rewrite <- !app_assoc. reflexivity.
Qed.






(** ** The dispatcher *)

Lemma instruction_path_disabled_spec (C : config) :
  msa9_switch C && negb (ica_offload_enabled C)
  = negb (instruction_path_disabled C).
Proof.
  unfold instruction_path_disabled.
  destruct (msa9_switch C), (ica_offload_enabled C); reflexivity.
Qed.

(** [ecdh_hw], [ecdsa_sign_hw] and [ecdsa_verify_hw] stay away from the
    instruction when its path is disabled, return [ENODEV] when the card
    is not permitted either, and return [EIO] for the sentinel handle;
    none of this touches the output or leaves the function. *)
Lemma sibling_entry_points_disabled (H : header) (E : environ) (C : config)
    (handle : Z) (key peer : ICA_EC_KEY) (hash : list Z) (hash_length : Z)
    (out : list Z) (t : trace) :
  instruction_path_disabled C = true ->
  let rc :=
    if negb (ecc_via_online_card C) then Some ENODEV
    else if handle =? DRIVER_NOT_LOADED H then Some EIO
    else None in
  forall code, rc = Some code ->
    ecdh_hw H E C handle key peer out t = (code, out, t)
    /\ ecdsa_sign_hw H E C handle key hash hash_length out t
       = Some (code, out, t)
    /\ ecdsa_verify_hw H E C handle key hash hash_length out t = (code, t).
Proof.
  intros Hdis rc code Hrc. subst rc.
  unfold ecdh_hw, ecdsa_sign_hw, ecdsa_verify_hw.
  rewrite instruction_path_disabled_spec, Hdis. cbn [negb].
  unfold ecdh_hw_coprocessor, ecdsa_sign_hw_coprocessor,
    ecdsa_verify_hw_coprocessor.
  destruct (negb (ecc_via_online_card C)).
  - injection Hrc as <-. auto.
  - destruct (handle =? DRIVER_NOT_LOADED H); [|discriminate].
    injection Hrc as <-. auto.
Qed.

(** When the instruction tier is entered and returns anything but
    [EINVAL], that is the result, and the card is not asked. *)
Lemma sibling_entry_points_instruction_result (H : header) (E : environ)
    (C : config) (handle : Z) (key peer : ICA_EC_KEY) (hash : list Z)
    (hash_length : Z) (out : list Z) (t : trace) :
  instruction_path_disabled C = false ->
  (forall rc rx ry blk t',
      scalar_mul_cpacf H E (Some out) None (deref (D key))
        (deref (X peer)) (deref (Y peer)) (nid key) t
      = (rc, rx, ry, blk, t') ->
      rc <> EINVAL ->
      fst (fst (ecdh_hw H E C handle key peer out t)) = u32 rc
      /\ snd (ecdh_hw H E C handle key peer out t) = t')
  /\ (forall rc sig' blk t',
        ecdsa_sign_cpacf H E 0 key hash (Z.to_nat hash_length) out None t
        = Some (rc, sig', blk, t') ->
        rc <> EINVAL ->
        ecdsa_sign_hw H E C handle key hash hash_length out t
        = Some (u32 rc, sig', t'))
  /\ (forall rc t',
        ecdsa_verify_cpacf H E key hash (Z.to_nat hash_length) out t
        = (rc, t') ->
        rc <> EINVAL ->
        ecdsa_verify_hw H E C handle key hash hash_length out t
        = (u32 rc, t')).
Proof.
  intros Hen.
  unfold ecdh_hw, ecdsa_sign_hw, ecdsa_verify_hw.
  rewrite instruction_path_disabled_spec, Hen. cbn [negb].
  split; [|split].
  - intros rc rx ry blk t' -> Hrc.
    destruct (Z.eqb_spec rc EINVAL); [contradiction|]. cbn [negb].
    split; reflexivity.
  - intros rc sig' blk t' -> Hrc.
    destruct (Z.eqb_spec rc EINVAL); [contradiction|]. reflexivity.
  - intros rc t' -> Hrc.
    destruct (Z.eqb_spec rc EINVAL); [contradiction|]. reflexivity.
Qed.

(** When the instruction tier returns [EINVAL], the three functions go
    on to the card: [ENODEV] if it is not permitted, [EIO] for the
    sentinel handle, and in both cases nothing is submitted. *)
Lemma sibling_entry_points_fall_through (H : header) (E : environ)
    (C : config) (handle : Z) (key peer : ICA_EC_KEY) (hash : list Z)
    (hash_length : Z) (out : list Z) (t : trace) :
  instruction_path_disabled C = false ->
  let gate :=
    if negb (ecc_via_online_card C) then Some ENODEV
    else if handle =? DRIVER_NOT_LOADED H then Some EIO
    else None in
  forall code, gate = Some code ->
    (forall rx ry blk t',
        scalar_mul_cpacf H E (Some out) None (deref (D key))
          (deref (X peer)) (deref (Y peer)) (nid key) t
        = (EINVAL, rx, ry, blk, t') ->
        fst (fst (ecdh_hw H E C handle key peer out t)) = code
        /\ snd (ecdh_hw H E C handle key peer out t) = t')
    /\ (forall sig' blk t',
          ecdsa_sign_cpacf H E 0 key hash (Z.to_nat hash_length) out None t
          = Some (EINVAL, sig', blk, t') ->
          ecdsa_sign_hw H E C handle key hash hash_length out t
          = Some (code, sig', t'))
    /\ (forall t',
          ecdsa_verify_cpacf H E key hash (Z.to_nat hash_length) out t
          = (EINVAL, t') ->
          ecdsa_verify_hw H E C handle key hash hash_length out t
          = (code, t')).
Proof.
  intros Hen gate code Hgate. subst gate.
  unfold ecdh_hw, ecdsa_sign_hw, ecdsa_verify_hw.
  rewrite instruction_path_disabled_spec, Hen. cbn [negb].
  unfold ecdh_hw_coprocessor, ecdsa_sign_hw_coprocessor,
    ecdsa_verify_hw_coprocessor.
  destruct (negb (ecc_via_online_card C)).
  - injection Hgate as <-.
    split; [|split]; intros * Hinsn; rewrite Hinsn;
      cbn [negb Z.eqb EINVAL]; auto.
  - destruct (handle =? DRIVER_NOT_LOADED H); [|discriminate].
    injection Hgate as <-.
    split; [|split]; intros * Hinsn; rewrite Hinsn;
      cbn [negb Z.eqb EINVAL]; auto.
Qed.

(** C1. [eckeygen_hw] leaves the state machine of its three siblings in
    two places.  With offload forced it still enters the instruction
    tier: the key is generated by one invocation of the instruction and
    no request is built.  With the sentinel handle and the card
    permitted it builds a request and submits it; [EIO] comes from the
    failing [ioctl], not from a test of the handle. *)
Theorem eckeygen_hw_skips_offload_and_sentinel_tests :
  let E := with_ioctl (card_behind_driver blank_reply)
                      (quiet_environ blank_reply) in
  (instruction_path_disabled offload_forced = true
   /\ exists key' t',
        eckeygen_hw sample_header E offload_forced 1 3 sample_p256_key []
        = Some (0, key', t')
        /\ instruction_calls t' = 1%nat
        /\ submitted t' = false)
  /\ (DRIVER_NOT_LOADED sample_header = -1
      /\ exists t',
           eckeygen_hw sample_header E card_only 1 (-1) sample_p256_key []
           = Some (EIO, sample_p256_key, t')
           /\ submitted t' = true).
Proof.
  intro E. split; (split; [reflexivity|]).
  - eexists. eexists. split; [vm_compute; reflexivity|].
    split; vm_compute; reflexivity.
  - eexists. split; [vm_compute; reflexivity|].
    vm_compute; reflexivity.
Qed.

(** ** Request buffers *)

Lemma heap_silent_counts (l m : trace) :
  heap_silent l = true ->
  allocations (l ++ m) = allocations m /\ releases (l ++ m) = releases m.
Proof.
  induction l as [|e l IH]; intros Hs; [split; reflexivity|].
  simpl in Hs. apply andb_prop in Hs. destruct Hs as [He Hl].
  destruct (IH Hl) as [Ha Hr].
  destruct e; try discriminate He; split; simpl; assumption.
Qed.

Lemma heap_silent_released (l : trace) :
  heap_silent l = true -> all_released l.
Proof.
  intros Hs. unfold all_released.
  destruct (heap_silent_counts l [] Hs) as [Ha Hr].
  rewrite app_nil_r in Ha, Hr. rewrite Ha, Hr. reflexivity.
Qed.

Lemma all_released_after_silent (l m : trace) :
  heap_silent l = true -> all_released m -> all_released (l ++ m).
Proof.
  intros Hs Hm. unfold all_released in *.
  destruct (heap_silent_counts l m Hs) as [-> ->]. exact Hm.
Qed.

(** Finishes a goal [exists l, t' = t ++ l /\ P l] once [t'] is an
    explicit extension of [t]. *)
Ltac extension :=
  rewrite <- ?app_assoc; eexists; split;
  [ first [ reflexivity | symmetry; apply app_nil_r ] | reflexivity ].

Lemma scalar_mul_cpacf_silent (H : header) (E : environ)
    (res_x res_y : option (list Z)) (scalar x y : list Z) (curve_nid : Z)
    (t : trace) :
  exists l,
    snd (scalar_mul_cpacf H E res_x res_y scalar x y curve_nid t) = t ++ l
    /\ heap_silent l = true.
Proof.
  unfold scalar_mul_cpacf, scalar_mul_case.
  repeat match goal with
         | |- context [if ?b then _ else _] => destruct b
         | |- context [s390_pcc E ?a ?b ?c] => destruct (s390_pcc E a b c)
         end; cbn [snd]; extension.
Qed.

Lemma ecdsa_sign_cpacf_silent (H : header) (E : environ) (fuel : nat)
    (key : ICA_EC_KEY) (hash : list Z) (hashlen : nat) (sig : list Z)
    (t : trace) :
  exists rc sig' blk l,
    ecdsa_sign_cpacf H E fuel key hash hashlen sig None t
    = Some (rc, sig', blk, t ++ l)
    /\ heap_silent l = true.
Proof.
  unfold ecdsa_sign_cpacf, ecdsa_sign_case.
  repeat match goal with
         | |- context [if ?b then _ else _] => destruct b
         | |- context [s390_kdsa E ?a ?b ?c] => destruct (s390_kdsa E a b c)
         end;
    first [ do 4 eexists; split; reflexivity
          | exists EINVAL, sig, (zeros PARAM_BYTES), [];
            rewrite app_nil_r; split; reflexivity ].
Qed.

Lemma ecdsa_verify_cpacf_silent (H : header) (E : environ)
    (key : ICA_EC_KEY) (hash : list Z) (hashlen : nat) (sig : list Z)
    (t : trace) :
  exists l,
    snd (ecdsa_verify_cpacf H E key hash hashlen sig t) = t ++ l
    /\ heap_silent l = true.
Proof.
  unfold ecdsa_verify_cpacf.
  repeat match goal with
         | |- context [if ?b then _ else _] => destruct b
         | |- context [s390_kdsa E ?a ?b ?c] => destruct (s390_kdsa E a b c)
         end; cbn [snd]; extension.
Qed.

Lemma rand_nonzero_silent (E : environ) (ord : Z) (fuel : nat) :
  forall t r t',
    rand_nonzero E fuel ord t = Some (r, t') ->
    exists l, t' = t ++ l /\ heap_silent l = true.
Proof.
  induction fuel as [|fuel IH]; intros t r t' Hr; [discriminate|].
  simpl in Hr. destruct (BN_rand_range E t ord) as [priv|].
  - destruct (priv =? 0).
    + apply IH in Hr. destruct Hr as (l & -> & Hl).
      rewrite <- app_assoc. eexists. split; [reflexivity|]. exact Hl.
    + inversion Hr. eexists. split; reflexivity.
  - inversion Hr. eexists. split; reflexivity.
Qed.

Lemma eckeygen_cpacf_silent (H : header) (E : environ) (fuel : nat)
    (key : ICA_EC_KEY) (t : trace) (rc : Z) (key' : ICA_EC_KEY)
    (t' : trace) :
  eckeygen_cpacf H E fuel key t = Some (rc, key', t') ->
  exists l, t' = t ++ l /\ heap_silent l = true.
Proof.
  unfold eckeygen_cpacf, BN_bin2bn, openssl.
  cbn [fst snd].
  destruct (negb _).
  { intros [= _ _ <-]. extension. }
  match goal with
  | |- context [match ?c with Some _ => _ | None => _ end] =>
      destruct c as [[[bx by_] ob]|]
  end.
  2:{ intros [= _ _ <-]. extension. }
  match goal with
  | |- context [rand_nonzero E fuel ?o ?th] =>
      destruct (rand_nonzero E fuel o th) as [[[priv|] t1]|] eqn:Hr
  end; [| |discriminate].
  - apply rand_nonzero_silent in Hr. destruct Hr as (l1 & -> & Hl1).
    destruct (negb _).
    + intros [= _ _ <-]. rewrite <- !app_assoc.
      eexists. split; [reflexivity|]. exact Hl1.
    + match goal with
      | |- context [scalar_mul_cpacf H E ?a ?b ?c ?d ?e ?f ?g] =>
          destruct (scalar_mul_cpacf_silent H E a b c d e f g)
            as (l2 & Hl2 & Hs2);
          destruct (scalar_mul_cpacf H E a b c d e f g)
            as [[[[rv x'] y'] blk] t2]
      end.
      cbn [snd] in Hl2. subst t2. intros [= _ _ <-].
      rewrite <- !app_assoc. eexists. split; [reflexivity|].
      cbn [app heap_silent forallb andb].
      unfold heap_silent in *. rewrite forallb_app, Hl1, Hs2. reflexivity.
  - apply rand_nonzero_silent in Hr. destruct Hr as (l1 & -> & Hl1).
    intros [= _ _ <-]. rewrite <- !app_assoc.
    eexists. split; [reflexivity|]. exact Hl1.
Qed.

Lemma provide_pubkey_silent (H : header) (E : environ) (key : ICA_EC_KEY)
    (X_ Y_ : list Z) (t : trace) (rc : Z) (X' Y' : list Z) (t' : trace) :
  provide_pubkey H E key X_ Y_ t = Some (rc, X', Y', t') ->
  exists l, t' = t ++ l /\ heap_silent l = true.
Proof.
  unfold provide_pubkey, BN_bin2bn, openssl. cbn [fst snd].
  repeat match goal with
         | |- context [if ?b then _ else _] => destruct b
         | |- context [match ?c with Some _ => _ | None => _ end] =>
             destruct c
         | |- context [let (_, _) := ?p in _] => destruct p
         end;
    intros Hr; try discriminate Hr; injection Hr as _ _ _ <-; extension.
Qed.

(** The three request builders that test the curve before they allocate
    either fail without a buffer or succeed with one. *)
Lemma builders_allocate_last (H : header) (E : environ)
    (key peer : ICA_EC_KEY) (X_ Y_ hash : list Z) (hash_length : Z)
    (t : trace) :
  let ok (r : option request * trace) :=
    (exists w xcrb len,
        r = (Some (w, xcrb, len), t ++ [EvMalloc len true; EvDomain]))
    \/ (exists l, r = (None, t ++ l) /\ allocations l = 0%nat
                  /\ releases l = 0%nat) in
  ok (make_ecdh_request H E key peer t)
  /\ ok (make_ecdsa_sign_request H E key X_ Y_ hash hash_length t)
  /\ ok (make_eckeygen_request H E key t).
Proof.
  intro ok. subst ok.
  unfold make_ecdh_request, make_ecdsa_sign_request, make_eckeygen_request,
    alloc_cbrbmem, make_cprbx, get_default_domain.
  cbn [fst snd].
  destruct (curve_type_from_nid H (nid key) <? 0).
  { repeat split; right; exists []; rewrite app_nil_r; auto. }
  destruct (malloc E t (2 * (CPRBXSIZE H + PARMBSIZE))); cbn [negb].
  - repeat split; left; do 3 eexists; rewrite <- app_assoc; reflexivity.
  - repeat split; right; eexists; repeat split; reflexivity.
Qed.

(** Closes [exists l, snd r = t ++ l /\ all_released l] on an explicit
    result. *)
Ltac released :=
  cbn [fst snd]; rewrite <- ?app_assoc; eexists;
  split; [ first [ reflexivity | symmetry; apply app_nil_r ]
         | unfold all_released; reflexivity ].

Lemma ecdh_hw_coprocessor_releases (H : header) (E : environ) (C : config)
    (handle : Z) (key peer : ICA_EC_KEY) (z : list Z) (t : trace) :
  exists l,
    snd (ecdh_hw_coprocessor H E C handle key peer z t) = t ++ l
    /\ all_released l.
Proof.
  unfold ecdh_hw_coprocessor.
  destruct (negb (ecc_via_online_card C)); [released|].
  destruct (handle =? DRIVER_NOT_LOADED H); [released|].
  destruct (builders_allocate_last H E key peer [] [] [] 0 t)
    as [[(w & xcrb & len & ->) | (l & -> & Ha & Hr)] _].
  - destruct (ioctl E _ handle (ZSECSENDCPRB H) xcrb w) as [rc reply].
    repeat match goal with
           | |- context [if ?b then _ else _] => destruct b
           end; released.
  - cbn [snd]. exists l. split; [reflexivity|].
    unfold all_released. rewrite Ha, Hr. reflexivity.
Qed.

Lemma ecdsa_sign_hw_coprocessor_releases (H : header) (E : environ)
    (C : config) (handle : Z) (key : ICA_EC_KEY) (hash : list Z)
    (hash_length : Z) (sig : list Z) (t : trace) (rc : Z) (sig' : list Z)
    (t' : trace) :
  ecdsa_sign_hw_coprocessor H E C handle key hash hash_length sig t
  = Some (rc, sig', t') ->
  exists l, t' = t ++ l /\ all_released l.
Proof.
  unfold ecdsa_sign_hw_coprocessor.
  destruct (negb (ecc_via_online_card C)).
  { intros [= _ _ <-]. exists []. rewrite app_nil_r.
    split; reflexivity. }
  destruct (handle =? DRIVER_NOT_LOADED H).
  { intros [= _ _ <-]. exists []. rewrite app_nil_r.
    split; reflexivity. }
  match goal with
  | |- context [provide_pubkey H E ?k ?x ?y ?th] =>
      destruct (provide_pubkey H E k x y th) as [[[[rc0 X_] Y_] t1]|] eqn:Hp;
      [|discriminate]
  end.
  apply provide_pubkey_silent in Hp. destruct Hp as (l1 & -> & Hs1).
  destruct (negb (rc0 =? 0)).
  { intros [= _ _ <-]. exists l1. split; [reflexivity|].
    apply heap_silent_released. exact Hs1. }
  destruct (builders_allocate_last H E key key X_ Y_ hash hash_length
              (t ++ l1))
    as [_ [[(w & xcrb & len & ->) | (l & -> & Ha & Hr)] _]].
  - destruct (ioctl E _ handle (ZSECSENDCPRB H) xcrb w) as [rc' reply].
    assert (Hrel : all_released
                     (l1 ++ [EvMalloc len true; EvDomain;
                             EvIoctl handle xcrb w; EvCleanse len; EvFree])).
    { apply all_released_after_silent; [exact Hs1 | reflexivity]. }
    repeat match goal with
           | |- context [if ?b then _ else _] => destruct b
           end;
      intros [= _ _ <-]; rewrite <- ?app_assoc; eexists;
      (split; [reflexivity | exact Hrel]).
  - intros [= _ _ <-]. rewrite <- app_assoc. eexists.
    split; [reflexivity|].
    apply all_released_after_silent; [exact Hs1|].
    unfold all_released. rewrite Ha, Hr. reflexivity.
Qed.

Lemma eckeygen_hw_coprocessor_releases (H : header) (E : environ)
    (C : config) (handle : Z) (key : ICA_EC_KEY) (t : trace) :
  exists l,
    snd (eckeygen_hw_coprocessor H E C handle key t) = t ++ l
    /\ all_released l.
Proof.
  unfold eckeygen_hw_coprocessor.
  destruct (negb (ecc_via_online_card C)); [released|].
  destruct (builders_allocate_last H E key key [] [] [] 0 t)
    as [_ [_ [(w & xcrb & len & ->) | (l & -> & Ha & Hr)]]].
  - destruct (ioctl E _ handle (ZSECSENDCPRB H) xcrb w) as [rc reply].
    repeat match goal with
           | |- context [if ?b then _ else _] => destruct b
           end; released.
  - cbn [snd]. exists l. split; [reflexivity|].
    unfold all_released. rewrite Ha, Hr. reflexivity.
Qed.

(** [ecdh_hw], [ecdsa_sign_hw] and [eckeygen_hw] wipe and free the
    request buffer on every path on which they obtained one. *)
Lemma sibling_entry_points_release (H : header) (E : environ) (C : config)
    (handle : Z) (key peer : ICA_EC_KEY) (hash : list Z) (hash_length : Z)
    (out : list Z) (t : trace) :
  (exists l,
      snd (ecdh_hw H E C handle key peer out t) = t ++ l /\ all_released l)
  /\ (forall rc sig' t',
        ecdsa_sign_hw H E C handle key hash hash_length out t
        = Some (rc, sig', t') ->
        exists l, t' = t ++ l /\ all_released l)
  /\ (forall fuel rc key' t',
        eckeygen_hw H E C fuel handle key t = Some (rc, key', t') ->
        exists l, t' = t ++ l /\ all_released l).
Proof.
  split; [|split].
  - unfold ecdh_hw.
    destruct (msa9_switch C && negb (ica_offload_enabled C)).
    2:{ apply ecdh_hw_coprocessor_releases. }
    match goal with
    | |- context [scalar_mul_cpacf H E ?a ?b ?c ?d ?e ?f ?g] =>
        destruct (scalar_mul_cpacf_silent H E a b c d e f g)
          as (l1 & Hl1 & Hs1);
        destruct (scalar_mul_cpacf H E a b c d e f g)
          as [[[[rc rx] ry] blk] t1]
    end.
    cbn [snd] in Hl1. subst t1.
    destruct (negb (rc =? EINVAL)).
    + cbn [snd]. exists l1. split; [reflexivity|].
      apply heap_silent_released. exact Hs1.
    + match goal with
      | |- context [ecdh_hw_coprocessor H E C handle key peer ?z ?th] =>
          destruct (ecdh_hw_coprocessor_releases H E C handle key peer z th)
            as (l2 & -> & Hr2)
      end.
      rewrite <- app_assoc. eexists. split; [reflexivity|].
      apply all_released_after_silent; assumption.
  - intros rc sig' t'. unfold ecdsa_sign_hw.
    destruct (msa9_switch C && negb (ica_offload_enabled C)).
    2:{ apply ecdsa_sign_hw_coprocessor_releases. }
    destruct (ecdsa_sign_cpacf_silent H E 0 key hash (Z.to_nat hash_length)
                out t) as (rc1 & sig1 & blk & l1 & -> & Hs1).
    destruct (negb (rc1 =? EINVAL)).
    + intros [= _ _ <-]. exists l1. split; [reflexivity|].
      apply heap_silent_released. exact Hs1.
    + intros Hco.
      apply ecdsa_sign_hw_coprocessor_releases in Hco.
      destruct Hco as (l2 & -> & Hr2). rewrite <- app_assoc.
      eexists. split; [reflexivity|].
      apply all_released_after_silent; assumption.
  - intros fuel rc key' t'. unfold eckeygen_hw.
    destruct (msa9_switch C).
    2:{ intros [= Hres].
        destruct (eckeygen_hw_coprocessor_releases H E C handle key t)
          as (l & Hl & Hr).
        rewrite Hres in Hl. cbn [snd] in Hl. eauto. }
    destruct (eckeygen_cpacf H E fuel key t) as [[[rc1 key1] t1]|] eqn:Hc;
      [|discriminate].
    apply eckeygen_cpacf_silent in Hc. destruct Hc as (l1 & -> & Hs1).
    destruct (negb (rc1 =? EINVAL)).
    + intros [= _ _ <-]. exists l1. split; [reflexivity|].
      apply heap_silent_released. exact Hs1.
    + intros [= Hres].
      destruct (eckeygen_hw_coprocessor_releases H E C handle key1
                  (t ++ l1)) as (l2 & Hl2 & Hr2).
      rewrite Hres in Hl2. cbn [snd] in Hl2. subst t'.
      rewrite <- app_assoc. eexists. split; [reflexivity|].
      apply all_released_after_silent; assumption.
Qed.

(** [ecdsa_verify_hw] does the same, except when the curve type turns
    out negative after the allocation: then the buffer stays behind. *)
Lemma ecdsa_verify_hw_coprocessor_releases (H : header) (E : environ)
    (C : config) (handle : Z) (key : ICA_EC_KEY) (hash : list Z)
    (hash_length : Z) (sig : list Z) (t : trace) :
  exists l,
    snd (ecdsa_verify_hw_coprocessor H E C handle key hash hash_length
           sig t) = t ++ l
    /\ (all_released l
        \/ (curve_type_from_nid H (nid key) < 0
            /\ l = [EvMalloc (2 * (CPRBXSIZE H + PARMBSIZE)) true])).
Proof.
  unfold ecdsa_verify_hw_coprocessor, make_ecdsa_verify_request,
    alloc_cbrbmem, make_cprbx, get_default_domain.
  cbn [fst snd].
  destruct (negb (ecc_via_online_card C)).
  { exists []. rewrite app_nil_r. split; [reflexivity | left; reflexivity]. }
  destruct (handle =? DRIVER_NOT_LOADED H).
  { exists []. rewrite app_nil_r. split; [reflexivity | left; reflexivity]. }
  destruct (malloc E t (2 * (CPRBXSIZE H + PARMBSIZE))); cbn [negb].
  - destruct (Z.ltb_spec (curve_type_from_nid H (nid key)) 0) as [Hneg|_].
    + cbn [snd]. eexists. split; [reflexivity|]. right. auto.
    + unfold make_ecdsa_verify_parmblock, make_keyblock_length,
        make_ecdsa_public_key_token.
      cbv beta iota zeta.
      match goal with
      | |- context [ioctl E ?a ?b ?c ?d ?e] =>
          destruct (ioctl E a b c d e) as [rc reply]
      end.
      cbn [snd]. rewrite <- !app_assoc. eexists.
      split; [reflexivity | left; reflexivity].
  - cbn [snd]. eexists. split; [reflexivity | left; reflexivity].
Qed.

(** A [memcpy] inside the first [N] bytes keeps a buffer within [N]. *)
Lemma length_memcpy_bounded (dst src : list Z) (off n N : nat) :
  (off + n <= N)%nat -> (length dst <= N)%nat ->
  (length (memcpy dst off src n) <= N)%nat.
Proof.
  intros Hn Hd. unfold memcpy.
  rewrite !length_app, !length_firstn, length_skipn. lia.
Qed.

Lemma cleanse_short (buf : list Z) :
  (length buf <= PARAM_BYTES)%nat ->
  OPENSSL_cleanse buf 0 PARAM_BYTES = zeros PARAM_BYTES.
Proof.
  intros Hb. unfold OPENSSL_cleanse, memcpy. simpl firstn at 1.
  rewrite firstn_all2 by (rewrite length_zeros; lia).
  rewrite skipn_all2 by (simpl; lia). apply app_nil_r.
Qed.

(** The parameter block of [scalar_mul_cpacf], which holds a copy of the
    private scalar, is all zero when the function returns. *)
Lemma scalar_mul_cpacf_wipes (H : header) (E : environ)
    (res_x res_y : option (list Z)) (scalar x y : list Z) (curve_nid : Z)
    (t : trace) :
  in_place (s390_pcc E) ->
  snd (fst (scalar_mul_cpacf H E res_x res_y scalar x y curve_nid t))
  = zeros PARAM_BYTES.
Proof.
  intros Hin. unfold scalar_mul_cpacf.
  assert (Hcase : forall size f,
             (5 * size <= PARAM_BYTES)%nat ->
             snd (fst (scalar_mul_case H E size f (privlen_size H curve_nid)
                         res_x res_y scalar x y t)) = zeros PARAM_BYTES).
  { intros size f Hsize. unfold scalar_mul_case. cbv zeta.
    match goal with
    | |- context [s390_pcc E t ?fc ?p] =>
        pose proof (Hin t fc p) as Hlen;
        assert (Hp : (length p <= PARAM_BYTES)%nat);
        [| destruct (s390_pcc E t fc p) as [cc out] ]
    end.
    - repeat (apply length_memcpy_bounded; [lia|]).
      rewrite length_zeros. lia.
    - cbn [fst snd] in *. apply cleanse_short. lia. }
  repeat match goal with
         | |- context [if ?b then _ else _] => destruct b
         end;
    try (apply Hcase; unfold PARAM_BYTES; lia).
  cbn [fst snd]. apply cleanse_short. rewrite length_zeros. lia.
Qed.

(** C8. [ecdsa_verify_hw] on a key whose curve has no coprocessor curve
    type: [make_ecdsa_verify_request] has allocated the request buffer
    when it finds that out and returns [NULL]; [ecdsa_verify_hw] returns
    [EIO]; the buffer is neither wiped nor freed. *)
Theorem ecdsa_verify_hw_leaves_request_buffer :
  let E := quiet_environ blank_reply in
  let hash := repeat 0xAB 32 in
  let sig := zeros 64 in
  curve_type_from_nid sample_header (nid sample_x25519_key) = -1
  /\ make_ecdsa_verify_request sample_header E sample_x25519_key
       hash 32 sig []
     = (None, [EvMalloc 4536 true])
  /\ exists t',
       ecdsa_verify_hw sample_header E card_only 3 sample_x25519_key
         hash 32 sig []
       = (EIO, t')
       /\ allocations t' = 1%nat
       /\ releases t' = 0%nat.
Proof.
  intros E hash sig. split; [reflexivity|]. split; [reflexivity|].
  eexists. split; [vm_compute; reflexivity|]. split; reflexivity.
Qed.

(** ** Decoding replies *)

Lemma scalar_mul_cpacf_unsupported (H : header) (E : environ)
    (res_x res_y : option (list Z)) (scalar x y : list Z) (curve_nid : Z)
    (t : trace) :
  pcc_supported curve_nid = false ->
  scalar_mul_cpacf H E res_x res_y scalar x y curve_nid t
  = (EINVAL, res_x, res_y, zeros PARAM_BYTES, t).
Proof.
  unfold pcc_supported, scalar_mul_cpacf. intros Hs.
  repeat (apply orb_false_elim in Hs; destruct Hs as [Hs ?]).
  repeat match goal with Hq : (_ =? _) = false |- _ => rewrite Hq; clear Hq end.
  reflexivity.
Qed.

Lemma ecdh_hw_past_instruction (H : header) (E : environ) (C : config)
    (handle : Z) (key peer : ICA_EC_KEY) (z : list Z) (t : trace) :
  msa9_switch C && negb (ica_offload_enabled C) = false
  \/ pcc_supported (nid key) = false ->
  ecdh_hw H E C handle key peer z t
  = ecdh_hw_coprocessor H E C handle key peer z t.
Proof.
  intros [Hoff | Huns]; unfold ecdh_hw.
  - rewrite Hoff. reflexivity.
  - destruct (msa9_switch C && negb (ica_offload_enabled C));
      [|reflexivity].
    rewrite scalar_mul_cpacf_unsupported by exact Huns. reflexivity.
Qed.

Lemma ecdsa_sign_hw_past_instruction (H : header) (E : environ)
    (C : config) (handle : Z) (key : ICA_EC_KEY) (hash : list Z)
    (hash_length : Z) (sig : list Z) (t : trace) :
  msa9_switch C && negb (ica_offload_enabled C) = false
  \/ kdsa_operand_width (nid key) = None ->
  ecdsa_sign_hw H E C handle key hash hash_length sig t
  = ecdsa_sign_hw_coprocessor H E C handle key hash hash_length sig t.
Proof.
  intros [Hoff | Hnone]; unfold ecdsa_sign_hw.
  - rewrite Hoff. reflexivity.
  - destruct (msa9_switch C && negb (ica_offload_enabled C));
      [|reflexivity].
    unfold ecdsa_sign_cpacf.
    destruct (kdsa_operand_width_none _ Hnone) as (-> & -> & ->).
    reflexivity.
Qed.

(** [eckeygen_cpacf] returns [EINVAL] only for a curve it has no [case]
    for, and then it has not touched the key. *)
Lemma eckeygen_cpacf_einval (H : header) (E : environ) (fuel : nat)
    (key key' : ICA_EC_KEY) (t t' : trace) :
  eckeygen_cpacf H E fuel key t = Some (EINVAL, key', t') -> key' = key.
Proof.
  unfold eckeygen_cpacf, BN_bin2bn, openssl. cbn [fst snd].
  destruct (negb _); [discriminate|].
  match goal with
  | |- context [match ?c with Some _ => _ | None => _ end] =>
      destruct c as [[[bx by_] ob]|] eqn:Hcurve
  end.
  2:{ intros [= <- _]. reflexivity. }
  assert (Hsup : pcc_supported (nid key) = true).
  { unfold pcc_supported.
    destruct (nid key =? NID_X9_62_prime256v1); [reflexivity|].
    destruct (nid key =? NID_secp384r1); [reflexivity|].
    destruct (nid key =? NID_secp521r1); [reflexivity|].
    discriminate Hcurve. }
  match goal with
  | |- context [rand_nonzero E fuel ?o ?th] =>
      destruct (rand_nonzero E fuel o th) as [[[priv|] t1]|]
  end; try discriminate.
  destruct (negb _); [discriminate|].
  unfold scalar_mul_cpacf, scalar_mul_case. cbn [nid].
  unfold pcc_supported in Hsup.
  repeat match goal with
         | |- context [if ?b then _ else _] => destruct b
         | |- context [s390_pcc E ?a ?b ?c] => destruct (s390_pcc E a b c)
         end; try discriminate.
Qed.

(** C3, as the source has it.  On the coprocessor path, after an
    [ioctl] that succeeded: [ecdh_hw] copies the shared secret only if
    the reply key length minus 4 is the byte length of the curve, and
    [ecdsa_sign_hw] copies the signature only if the reply VUD length
    minus 8 is twice that length; on a mismatch both return [EIO] and
    leave the caller's buffer as it was.  [eckeygen_hw] copies the
    private key once the formatted-data length is the byte length, and
    the coordinates once the compression marker is 0x04 as well: a
    wrong length gives [EIO] with the key untouched, a wrong marker
    gives [EIO] with [X] and [Y] untouched. *)
Theorem replies_checked_before_copy :
  forall (H : header) (E : environ) (C : config) (handle : Z),
    ecc_via_online_card C = true ->
    (forall (key peer : ICA_EC_KEY) (z : list Z) (t : trace)
            (buf : wire) (xcrb : ica_xcRB) (len : Z) (t1 : trace),
        msa9_switch C && negb (ica_offload_enabled C) = false
        \/ pcc_supported (nid key) = false ->
        handle <> DRIVER_NOT_LOADED H ->
        make_ecdh_request H E key peer t = (Some (buf, xcrb, len), t1) ->
        fst (ioctl E t1 handle (ZSECSENDCPRB H) xcrb buf) = 0 ->
        let reply := snd (ioctl E t1 handle (ZSECSENDCPRB H) xcrb buf) in
        let privlen := privlen_from_nid H (nid key) in
        let res := fst (ecdh_hw H E C handle key peer z t) in
        (rp_key_len reply - 4 = privlen ->
         res = (0, memcpy z 0 (raw_z_value reply) (Z.to_nat privlen)))
        /\ (rp_key_len reply - 4 <> privlen -> res = (EIO, z)))
    /\ (forall (key : ICA_EC_KEY) (hash : list Z) (hash_length : Z)
               (sig : list Z) (t : trace) (X_ Y_ : list Z) (t0 : trace)
               (buf : wire) (xcrb : ica_xcRB) (len : Z) (t1 : trace),
          msa9_switch C && negb (ica_offload_enabled C) = false
          \/ kdsa_operand_width (nid key) = None ->
          handle <> DRIVER_NOT_LOADED H ->
          provide_pubkey H E key (zeros (Z.to_nat (MAX_ECC_PRIV_SIZE H)))
            (zeros (Z.to_nat (MAX_ECC_PRIV_SIZE H))) t
          = Some (0, X_, Y_, t0) ->
          make_ecdsa_sign_request H E key X_ Y_ hash hash_length t0
          = (Some (buf, xcrb, len), t1) ->
          fst (ioctl E t1 handle (ZSECSENDCPRB H) xcrb buf) = 0 ->
          let reply := snd (ioctl E t1 handle (ZSECSENDCPRB H) xcrb buf) in
          let privlen := privlen_from_nid H (nid key) in
          forall rc sig' t',
            ecdsa_sign_hw H E C handle key hash hash_length sig t
            = Some (rc, sig', t') ->
            (rp_vud_len reply - 8 = 2 * privlen ->
             rc = 0
             /\ sig' = memcpy sig 0 (rp_signature reply)
                              (Z.to_nat (2 * privlen)))
            /\ (rp_vud_len reply - 8 <> 2 * privlen ->
                rc = EIO /\ sig' = sig))
    /\ (forall (fuel : nat) (key : ICA_EC_KEY) (t t0 : trace)
               (buf : wire) (xcrb : ica_xcRB) (len : Z) (t1 : trace),
          (msa9_switch C = false /\ t0 = t)
          \/ (msa9_switch C = true
              /\ exists key0,
                   eckeygen_cpacf H E fuel key t
                   = Some (EINVAL, key0, t0)) ->
          make_eckeygen_request H E key t0 = (Some (buf, xcrb, len), t1) ->
          fst (ioctl E t1 handle (ZSECSENDCPRB H) xcrb buf) = 0 ->
          let reply := snd (ioctl E t1 handle (ZSECSENDCPRB H) xcrb buf) in
          let privlen := u32 (privlen_from_nid H (nid key)) in
          let n := Z.to_nat privlen in
          let pub_p := rp_pub_at reply (rp_section_len reply) in
          exists rc key' t',
            eckeygen_hw H E C fuel handle key t = Some (rc, key', t')
            /\ nid key' = nid key
            /\ (rp_formatted_data_len reply <> privlen ->
                rc = EIO /\ key' = key)
            /\ (rp_formatted_data_len reply = privlen ->
                D key'
                = option_map (fun d => memcpy d 0 (rp_privkey reply) n)
                             (D key))
            /\ (rp_formatted_data_len reply = privlen ->
                compress_flag pub_p <> 0x04 ->
                rc = EIO /\ X key' = X key /\ Y key' = Y key)
            /\ (rp_formatted_data_len reply = privlen ->
                compress_flag pub_p = 0x04 ->
                rc = 0
                /\ X key'
                   = option_map (fun x => memcpy x 0 (pubkey pub_p) n)
                                (X key)
                /\ Y key'
                   = option_map
                       (fun y => memcpy y 0 (skipn n (pubkey pub_p)) n)
                       (Y key))).
Proof.
  intros H E C handle Hcard. split; [|split].
  - intros key peer z t buf xcrb len t1 Hpath Hh Hreq Hrc reply privlen res.
    subst res. rewrite ecdh_hw_past_instruction by exact Hpath.
    unfold ecdh_hw_coprocessor. rewrite Hcard. cbn [negb].
    destruct (Z.eqb_spec handle (DRIVER_NOT_LOADED H)); [contradiction|].
    rewrite Hreq. subst reply.
    destruct (ioctl E t1 handle (ZSECSENDCPRB H) xcrb buf) as [rc rep].
    cbn [fst snd] in *. subst rc. cbn [Z.eqb negb].
    fold privlen.
    destruct (Z.eqb_spec (rp_key_len rep - 4) privlen); cbn [negb fst];
      split; intros; try contradiction; reflexivity.
  - intros key hash hash_length sig t X_ Y_ t0 buf xcrb len t1
           Hpath Hh Hpub Hreq Hrc reply privlen rc sig' t'.
    rewrite ecdsa_sign_hw_past_instruction by exact Hpath.
    unfold ecdsa_sign_hw_coprocessor. rewrite Hcard. cbn [negb].
    destruct (Z.eqb_spec handle (DRIVER_NOT_LOADED H)); [contradiction|].
    rewrite Hpub. cbn [Z.eqb negb]. rewrite Hreq. subst reply.
    destruct (ioctl E t1 handle (ZSECSENDCPRB H) xcrb buf) as [rc0 rep].
    cbn [fst snd] in *. subst rc0. cbn [Z.eqb negb].
    fold privlen.
    destruct (Z.eqb_spec (rp_vud_len rep - 8) (2 * privlen)) as [Heq|Hne];
      cbn [negb]; intros [= <- <- _]; split; intros;
      try contradiction; try (split; [reflexivity|]).
    + rewrite Heq. reflexivity.
    + reflexivity.
  - intros fuel key t t0 buf xcrb len t1 Hpath Hreq Hrc
           reply privlen n pub_p.
    assert (Hhw : eckeygen_hw H E C fuel handle key t
                  = Some (eckeygen_hw_coprocessor H E C handle key t0)).
    { unfold eckeygen_hw.
      destruct Hpath as [[-> ->] | [-> [key0 Hcp]]]; [reflexivity|].
      rewrite Hcp, (eckeygen_cpacf_einval _ _ _ _ _ _ _ Hcp).
      reflexivity. }
    rewrite Hhw. unfold eckeygen_hw_coprocessor.
    rewrite Hcard. cbn [negb]. rewrite Hreq. subst reply pub_p.
    destruct (ioctl E t1 handle (ZSECSENDCPRB H) xcrb buf) as [rc0 rep].
    cbn [fst snd] in *. subst rc0. cbn [Z.eqb negb].
    fold privlen. fold n.
    destruct (Z.eqb_spec (rp_formatted_data_len rep) privlen) as [Hf|Hf];
      cbn [negb].
    + destruct (Z.eqb_spec
                  (compress_flag (rp_pub_at rep (rp_section_len rep))) 4)
        as [Hm|Hm]; cbn [negb];
        do 3 eexists; (split; [reflexivity|]); cbn [nid X Y D];
        repeat split; intros; try contradiction; reflexivity.
    + do 3 eexists. split; [reflexivity|].
      repeat split; intros; try contradiction; reflexivity.
Qed.

(** A key-generation reply with the right length and a wrong marker:
    [eckeygen_hw] returns [EIO], and [key->D] holds the private key of
    the reply. *)
Lemma eckeygen_hw_writes_private_key_before_marker :
  exists key' t',
    eckeygen_hw sample_header
      (with_ioctl (fun _ _ _ _ _ => (0, compressed_point_reply))
                  (quiet_environ blank_reply))
      card_only 1 3 sample_p256_key []
    = Some (EIO, key', t')
    /\ D key' = Some (repeat 9 32)
    /\ D key' <> D sample_p256_key.
Proof.
  eexists. eexists. split; [vm_compute; reflexivity|].
  split; [reflexivity | discriminate].
Qed.

(** The same reply with the marker 0x04 is accepted. *)
Lemma replies_checked_before_copy_witness :
  let E := with_ioctl (fun _ _ _ _ _ => (0, generated_key_reply))
                      (quiet_environ blank_reply) in
  exists rc key' t',
    eckeygen_hw sample_header E card_only 1 3 sample_p256_key []
    = Some (rc, key', t')
    /\ rc = 0
    /\ D key' = Some (repeat 9 32)
    /\ X key' = Some (repeat 7 32)
    /\ Y key' = Some (repeat 8 32).
Proof.
  intro E.
  destruct (make_eckeygen_request sample_header E sample_p256_key [])
    as [[[[buf xcrb] len]|] t1] eqn:Hreq; [|discriminate Hreq].
  destruct (proj2 (proj2 (replies_checked_before_copy sample_header E
                            card_only 3 eq_refl))
              1%nat sample_p256_key [] [] buf xcrb len t1
              (or_introl (conj eq_refl eq_refl)) Hreq eq_refl)
    as (rc & key' & t' & Hhw & _ & _ & HD & _ & Hok).
  destruct (Hok eq_refl eq_refl) as (Hrc & HX & HY).
  exists rc, key', t'.
  split; [exact Hhw|]. split; [exact Hrc|].
  split; [exact (HD eq_refl)|]. split; [exact HX | exact HY].
Defined.

(** ** Public coordinates in requests *)

Lemma length_BN_bn2bin (v : Z) :
  length (BN_bn2bin v) = Z.to_nat (BN_num_bytes v).
Proof.
  unfold BN_bn2bin. rewrite length_map, length_rev, length_seq. reflexivity.
Qed.

Lemma BN_num_bytes_nonneg (v : Z) : 0 <= BN_num_bytes v.
Proof.
  unfold BN_num_bytes. destruct (v <=? 0); [lia|].
  pose proof (Z.log2_nonneg v).
  pose proof (Z.div_pos (Z.log2 v) 8 ltac:(lia) ltac:(lia)). lia.
Qed.


Lemma since_refl (t : trace) : since t t = [].
Proof. unfold since. apply skipn_all. Qed.





(** [provide_pubkey] returns whenever the three allocations it does not
    test succeed. *)
Lemma provide_pubkey_returns (H : header) (E : environ) (key : ICA_EC_KEY)
    (X0 Y0 : list Z) (t : trace) :
  (forall th, openssl_ok E th (call_EC_KEY_new_by_curve_name (nid key))
              = true) ->
  (forall th, openssl_ok E th call_EC_POINT_new = true) ->
  (forall th, openssl_ok E th call_BN_new = true) ->
  exists r, provide_pubkey H E key X0 Y0 t = Some r.
Proof.
  intros Hk Hp Hb. unfold provide_pubkey, BN_bin2bn, openssl.
  cbv beta iota zeta.
  destruct (privlen_from_nid H (nid key) <? 0); [eexists; reflexivity|].
  destruct (X key), (Y key); try (eexists; reflexivity);
    (destruct (openssl_ok E t call_BN_bin2bn); cbv beta iota zeta;
     [|eexists; reflexivity]);
    rewrite Hk, Hp; cbn [negb];
    match goal with
    | |- context [EC_POINT_mul E ?th ?c ?d] =>
        destruct (EC_POINT_mul E th c d); [|eexists; reflexivity]
    end;
    rewrite !Hb; cbn [negb orb];
    match goal with
    | |- context [EC_POINT_get_affine_coordinates_GFp E ?th ?c ?q] =>
        destruct (EC_POINT_get_affine_coordinates_GFp E th c q)
          as [[bn_x bn_y]|]
    end; eexists; reflexivity.
Qed.






(** * Further properties *)

(** ** Facts about the sample platform *)

Lemma sample_packed_ecdsa : packed_layout_ecdsa sample_header.
Proof. unfold packed_layout_ecdsa, fits16. simpl. lia. Qed.

Lemma quiet_reliable (reply : card_reply) :
  openssl_reliable (quiet_environ reply) quiet_library.
Proof. split; intros; reflexivity. Qed.

(** ** The block of [scalar_mul_cpacf] *)

Lemma zeros_app (n m : nat) : zeros (n + m) = zeros n ++ zeros m.
Proof. unfold zeros. apply repeat_app. Qed.

(** Filling the right end of a zeroed field inside a block. *)
Lemma memcpy_field (pre post v : list Z) (size off : nat) :
  (off <= size)%nat -> length v = (size - off)%nat ->
  memcpy (pre ++ zeros size ++ post) (length pre + off) v (size - off)
  = pre ++ (zeros off ++ v) ++ post.
Proof.
  intros Ho Hv. unfold memcpy.
  rewrite firstn_app, firstn_all2 by lia.
  replace (length pre + off - length pre)%nat with off by lia.
  rewrite firstn_app, length_zeros, firstn_zeros by lia.
  replace (off - size)%nat with 0%nat by lia. rewrite firstn_O, app_nil_r.
  rewrite (firstn_all2 v) by lia.
  rewrite skipn_app, skipn_all2 by lia.
  replace (length pre + off + (size - off) - length pre)%nat with size by lia.
  rewrite skipn_app, length_zeros, Nat.sub_diag, skipn_O.
  rewrite skipn_all2 by (rewrite length_zeros; lia).
  rewrite <- !app_assoc. reflexivity.
Qed.

Lemma length_right_aligned (size : nat) (v : list Z) :
  (length v <= size)%nat -> length (right_aligned size v) = size.
Proof.
  intros Hv. unfold right_aligned. rewrite length_app, length_zeros. lia.
Qed.

Lemma scalar_mul_case_block (H : header) (E : environ) (size : nat)
    (f : pcc_function) (len : nat) (res_x res_y : option (list Z))
    (scalar x y : list Z) (t : trace) :
  (len <= size)%nat -> (5 * size <= PARAM_BYTES)%nat ->
  length x = len -> length y = len -> length scalar = len ->
  let fc := s390_pcc_functions H f in
  let block := scalar_mul_block size scalar x y in
  let r := s390_pcc E t fc block in
  scalar_mul_case H E size f len res_x res_y scalar x y t
  = ((if fst r =? 0 then 0 else EIO),
     option_map (fun b => memcpy b 0 (load (snd r) (size - len) len) len)
                res_x,
     option_map
       (fun b => memcpy b 0 (load (snd r) (size + (size - len)) len) len)
       res_y,
     OPENSSL_cleanse (snd r) 0 PARAM_BYTES,
     t ++ [EvPcc fc block]).
Proof.
  intros Hl Hs Hx Hy Hsc fc block r.
  unfold scalar_mul_case.
  set (off := (size - len)%nat).
  assert (Hn : (size - off)%nat = len) by (unfold off; lia).
  assert (Hblock :
    memcpy
      (memcpy
         (memcpy (zeros PARAM_BYTES) (2 * size + off) x (size - off))
         (3 * size + off) y (size - off))
      (4 * size + off) scalar (size - off) = block).
  { unfold block, scalar_mul_block, right_aligned.
    rewrite Hx, Hy, Hsc. fold off.
    replace PARAM_BYTES
      with (2 * size + (size + (size + (size + (PARAM_BYTES - 5 * size)))))%nat
      at 1 by lia.
    rewrite !zeros_app.
    pose proof (memcpy_field (zeros (2 * size))
                  (zeros size ++ zeros size ++ zeros (PARAM_BYTES - 5 * size))
                  x size off) as M1.
    rewrite length_zeros in M1. rewrite M1 by lia. clear M1.
    pose proof (memcpy_field (zeros (2 * size) ++ zeros off ++ x)
                  (zeros size ++ zeros (PARAM_BYTES - 5 * size))
                  y size off) as M2.
    rewrite !length_app, !length_zeros, Hx in M2.
    replace (2 * size + (off + len))%nat with (3 * size)%nat in M2 by lia.
    rewrite <- !app_assoc in *.
    rewrite M2 by lia. clear M2.
    pose proof (memcpy_field
                  (zeros (2 * size) ++ zeros off ++ x ++ zeros off ++ y)
                  (zeros (PARAM_BYTES - 5 * size))
                  scalar size off) as M3.
    rewrite !length_app, !length_zeros, Hx, Hy in M3.
    replace (2 * size + (off + (len + (off + len))))%nat
      with (4 * size)%nat in M3 by lia.
    rewrite <- !app_assoc in *.
    rewrite M3 by lia. reflexivity. }
  rewrite Hblock. fold fc. fold r.
  destruct r as [cc out]. cbn [fst snd].
  unfold off in *. rewrite ?Hn. reflexivity.
Qed.

Lemma pcc_layout_cases (curve_nid : Z) (size : nat) (f : pcc_function) :
  pcc_layout curve_nid = Some (size, f) ->
  (curve_nid = NID_X9_62_prime256v1 /\ size = 32%nat
   /\ f = SCALAR_MULTIPLY_P256)
  \/ (curve_nid = NID_secp384r1 /\ size = 48%nat /\ f = SCALAR_MULTIPLY_P384)
  \/ (curve_nid = NID_secp521r1 /\ size = 80%nat /\ f = SCALAR_MULTIPLY_P521)
  \/ (curve_nid = NID_ED25519 /\ size = 32%nat
      /\ f = SCALAR_MULTIPLY_ED25519)
  \/ (curve_nid = NID_ED448 /\ size = 64%nat /\ f = SCALAR_MULTIPLY_ED448).
Proof.
  unfold pcc_layout.
  destruct (Z.eqb_spec curve_nid NID_X9_62_prime256v1).
  { intros [= <- <-]. auto. }
  destruct (Z.eqb_spec curve_nid NID_secp384r1).
  { intros [= <- <-]. auto 6. }
  destruct (Z.eqb_spec curve_nid NID_secp521r1).
  { intros [= <- <-]. auto 6. }
  destruct (Z.eqb_spec curve_nid NID_ED25519).
  { intros [= <- <-]. auto 8. }
  destruct (Z.eqb_spec curve_nid NID_ED448).
  { intros [= <- <-]. auto 8. }
  discriminate.
Qed.

(** On a curve it has a [case] for, [scalar_mul_cpacf] is that case. *)
Lemma scalar_mul_cpacf_case (H : header) (E : environ)
    (res_x res_y : option (list Z)) (scalar x y : list Z) (curve_nid : Z)
    (t : trace) (size : nat) (f : pcc_function) :
  pcc_layout curve_nid = Some (size, f) ->
  scalar_mul_cpacf H E res_x res_y scalar x y curve_nid t
  = scalar_mul_case H E size f (privlen_size H curve_nid) res_x res_y
                    scalar x y t
  /\ (5 * size <= PARAM_BYTES)%nat.
Proof.
  intros Hl. unfold scalar_mul_cpacf.
  destruct (pcc_layout_cases _ _ _ Hl)
    as [(-> & -> & ->)|[(-> & -> & ->)|[(-> & -> & ->)|[(-> & -> & ->)
       |(-> & -> & ->)]]]];
    (split; [reflexivity | unfold PARAM_BYTES; lia]).
Qed.

Lemma scalar_mul_cpacf_supported :
  forall (H : header) (E : environ) (t : trace) (curve_nid : Z)
         (size : nat) (f : pcc_function) (res_x res_y : option (list Z))
         (scalar x y : list Z),
    pcc_layout curve_nid = Some (size, f) ->
    let len := privlen_size H curve_nid in
    (len <= size)%nat ->
    length x = len -> length y = len -> length scalar = len ->
    let fc := s390_pcc_functions H f in
    let block := scalar_mul_block size scalar x y in
    let r := s390_pcc E t fc block in
    scalar_mul_cpacf H E res_x res_y scalar x y curve_nid t
    = ((if fst r =? 0 then 0 else EIO),
       option_map (fun b => memcpy b 0 (load (snd r) (size - len) len) len)
                  res_x,
       option_map
         (fun b => memcpy b 0 (load (snd r) (size + (size - len)) len) len)
         res_y,
       OPENSSL_cleanse (snd r) 0 PARAM_BYTES,
       t ++ [EvPcc fc block]).
Proof.
  intros H E t curve_nid size f res_x res_y scalar x y Hl len Hlen Hx Hy Hs.
  destruct (scalar_mul_cpacf_case H E res_x res_y scalar x y curve_nid t
              size f Hl) as [-> Hsz].
  apply scalar_mul_case_block; assumption.
Qed.

(** X1. [scalar_mul_cpacf] right-aligns its operands. On a curve the
    function has a case for (P-256, P-384, P-521, Ed25519, Ed448), with
    operands of the curve's private-key length and that length no longer
    than the field of the block, the block handed to the instruction has
    zeroed result fields and then [x], [y] and the scalar, each at the
    right end of its field behind zeros. The instruction is invoked
    exactly once; the coordinates are read from the right end of the
    result fields into the buffers that were passed, whatever the
    condition code; the function returns 0 at condition code 0 and [EIO]
    otherwise, and the whole block is wiped afterwards. *)
Theorem scalar_mul_cpacf_operands_right_aligned :
  forall (H : header) (E : environ) (t : trace) (curve_nid : Z)
         (size : nat) (f : pcc_function) (res_x res_y : option (list Z))
         (scalar x y : list Z),
    pcc_layout curve_nid = Some (size, f) ->
    let len := privlen_size H curve_nid in
    (len <= size)%nat ->
    length x = len -> length y = len -> length scalar = len ->
    let fc := s390_pcc_functions H f in
    let block := scalar_mul_block size scalar x y in
    let r := s390_pcc E t fc block in
    scalar_mul_cpacf H E res_x res_y scalar x y curve_nid t
    = ((if fst r =? 0 then 0 else EIO),
       option_map (fun b => memcpy b 0 (load (snd r) (size - len) len) len)
                  res_x,
       option_map
         (fun b => memcpy b 0 (load (snd r) (size + (size - len)) len) len)
         res_y,
       OPENSSL_cleanse (snd r) 0 PARAM_BYTES,
       t ++ [EvPcc fc block]).
Proof. exact scalar_mul_cpacf_supported. Qed.

Lemma scalar_mul_cpacf_operands_right_aligned_witness :
  let E := quiet_environ blank_reply in
  let d := repeat 1 66 in
  let x := repeat 2 66 in
  let y := repeat 3 66 in
  let block := scalar_mul_block 80 d x y in
  scalar_mul_cpacf sample_header E (Some (zeros 66)) None d x y
                   NID_secp521r1 []
  = (0, Some (memcpy (zeros 66) 0 (load block 14 66) 66), None,
     OPENSSL_cleanse block 0 PARAM_BYTES, [EvPcc 66 block]).
Proof.
  intros E d x y block.
  apply (scalar_mul_cpacf_operands_right_aligned sample_header E []
           NID_secp521r1 80 SCALAR_MULTIPLY_P521 (Some (zeros 66)) None
           d x y); try reflexivity; apply Nat.leb_le; reflexivity.
Defined.

(** X2. [ecdh_hw] on the instruction tier. With MSA 9 available and the
    offload switch off, on a curve [scalar_mul_cpacf] has a case for, the
    only call [ecdh_hw] makes is the scalar multiplication of the peer's
    point by the private scalar: nothing is sent to a coprocessor. It
    returns 0 at condition code 0 and [EIO] otherwise, and in both cases
    the first result field of the answer has been copied into [z]. *)
Theorem ecdh_hw_instruction_tier :
  forall (H : header) (E : environ) (C : config) (handle : Z)
         (key peer : ICA_EC_KEY) (z : list Z) (t : trace)
         (size : nat) (f : pcc_function) (d x y : list Z),
    msa9_switch C = true -> ica_offload_enabled C = false ->
    pcc_layout (nid key) = Some (size, f) ->
    let len := privlen_size H (nid key) in
    (len <= size)%nat ->
    D key = Some d -> X peer = Some x -> Y peer = Some y ->
    length d = len -> length x = len -> length y = len ->
    let fc := s390_pcc_functions H f in
    let block := scalar_mul_block size d x y in
    let r := s390_pcc E t fc block in
    ecdh_hw H E C handle key peer z t
    = ((if fst r =? 0 then 0 else EIO),
       memcpy z 0 (load (snd r) (size - len) len) len,
       t ++ [EvPcc fc block]).
Proof.
  intros H E C handle key peer z t size f d x y Hm Ho Hl len Hlen
         HD HX HY Hd Hx Hy fc block r.
  unfold ecdh_hw. rewrite Hm, Ho, HD, HX, HY. cbn [andb negb deref].
  rewrite (scalar_mul_cpacf_supported H E t (nid key) size f
             (Some z) None d x y Hl Hlen Hx Hy Hd).
  fold len fc block r. cbn [option_map].
  destruct (fst r =? 0); reflexivity.
Qed.

Lemma ecdh_hw_instruction_tier_witness :
  let E := with_condition_code 3 (quiet_environ blank_reply) in
  let block := scalar_mul_block 32 (repeat 1 32) (repeat 4 32) (repeat 5 32) in
  ecdh_hw sample_header E both_tiers 3 sample_private_key sample_peer_key
          (repeat 9 32) []
  = (EIO, zeros 32, [EvPcc 64 block]).
Proof.
  intros E block.
  apply (ecdh_hw_instruction_tier sample_header E both_tiers 3
           sample_private_key sample_peer_key (repeat 9 32) []
           32 SCALAR_MULTIPLY_P256 (repeat 1 32) (repeat 4 32) (repeat 5 32));
    try reflexivity; apply Nat.leb_le; reflexivity.
Defined.

(** ** Return codes of the hardware entry points *)

Lemma scalar_mul_cpacf_codes (H : header) (E : environ)
    (res_x res_y : option (list Z)) (scalar x y : list Z) (curve_nid : Z)
    (t : trace) :
  let rc :=
    fst (fst (fst (fst (scalar_mul_cpacf H E res_x res_y scalar x y
                                          curve_nid t)))) in
  rc = 0 \/ rc = EIO \/ rc = EINVAL.
Proof.
  unfold scalar_mul_cpacf, scalar_mul_case.
  repeat match goal with
         | |- context [if ?c =? ?d then _ else _] =>
             destruct (c =? d)
         | |- context [s390_pcc E ?a ?b ?c] =>
             destruct (s390_pcc E a b c) as [? ?]
         end; cbn [fst]; auto.
Qed.

Lemma ecdh_hw_coprocessor_codes (H : header) (E : environ) (C : config)
    (handle : Z) (key peer : ICA_EC_KEY) (z : list Z) (t : trace) :
  In (fst (fst (ecdh_hw_coprocessor H E C handle key peer z t)))
     [0; EIO; ENODEV].
Proof.
  unfold ecdh_hw_coprocessor.
  destruct (ecc_via_online_card C); cbn [negb fst]; [|simpl; auto].
  destruct (handle =? DRIVER_NOT_LOADED H); cbn [fst]; [simpl; auto|].
  destruct (make_ecdh_request H E key peer t) as [[[[w xcrb] len]|] t1];
    cbn [fst]; [|simpl; auto].
  destruct (ioctl E t1 handle (ZSECSENDCPRB H) xcrb w) as [rc reply].
  destruct (rc =? 0); cbn [negb fst]; [|simpl; auto].
  destruct (rp_key_len reply - 4 =? privlen_from_nid H (nid key));
    cbn [negb fst]; simpl; auto.
Qed.

Lemma ecdsa_verify_cpacf_codes (H : header) (E : environ)
    (key : ICA_EC_KEY) (hash : list Z) (hashlen : nat) (sig : list Z)
    (t : trace) :
  let rc := fst (ecdsa_verify_cpacf H E key hash hashlen sig t) in
  rc = 0 \/ rc = EFAULT \/ rc = EINVAL.
Proof.
  unfold ecdsa_verify_cpacf.
  repeat match goal with
         | |- context [if ?c =? ?d then _ else _] =>
             destruct (c =? d)
         | |- context [s390_kdsa E ?a ?b ?c] =>
             destruct (s390_kdsa E a b c) as [? ?]
         end; cbn [fst]; auto.
Qed.

Lemma ecdsa_verify_hw_coprocessor_codes (H : header) (E : environ)
    (C : config) (handle : Z) (key : ICA_EC_KEY) (hash : list Z)
    (hash_length : Z) (sig : list Z) (t : trace) :
  In (fst (ecdsa_verify_hw_coprocessor H E C handle key hash hash_length
             sig t))
     [0; EIO; ENODEV; EFAULT].
Proof.
  unfold ecdsa_verify_hw_coprocessor.
  destruct (ecc_via_online_card C); cbn [negb fst]; [|simpl; auto].
  destruct (handle =? DRIVER_NOT_LOADED H); cbn [fst]; [simpl; auto|].
  destruct (make_ecdsa_verify_request H E key hash hash_length sig t)
    as [[[[w xcrb] len]|] t1]; cbn [fst]; [|simpl; auto].
  destruct (ioctl E t1 handle (ZSECSENDCPRB H) xcrb w) as [rc reply].
  cbn [fst].
  destruct (rc =? 0); cbn [negb]; [|simpl; auto].
  destruct ((ccp_rtcode reply =? 4)
            && (ccp_rscode reply =? RS_SIGNATURE_INVALID H));
    [simpl; auto 6|].
  destruct (negb (ccp_rtcode reply =? 0) || negb (ccp_rscode reply =? 0));
    simpl; auto.
Qed.

Lemma eckeygen_cpacf_codes (H : header) (E : environ) (fuel : nat)
    (key key' : ICA_EC_KEY) (t t' : trace) (rc : Z) :
  eckeygen_cpacf H E fuel key t = Some (rc, key', t') ->
  In rc [0; EIO; ENOMEM; EINVAL].
Proof.
  unfold eckeygen_cpacf.
  destruct (openssl E call_BN_CTX_new t) as [ctx t1].
  destruct (openssl E call_BN_new t1) as [priv t2].
  destruct (openssl E call_BN_new t2) as [ord t3].
  destruct (negb (ctx && priv && ord)).
  { intros [= <- <- <-]. simpl; auto. }
  match goal with
  | |- context [match ?c with Some _ => _ | None => _ end] =>
      destruct c as [[[bx by_] ob]|]
  end.
  2:{ intros [= <- <- <-]. simpl; auto 6. }
  destruct (BN_bin2bn E ob (Z.of_nat (length ob)) t3) as [o t4].
  destruct (rand_nonzero E fuel _ t4) as [[[p|] t5]|]; [| |discriminate].
  2:{ intros [= <- <- <-]. simpl; auto. }
  match goal with
  | |- context [if negb (?a =? ?b) then _ else _] => destruct (a =? b)
  end; cbn [negb].
  2:{ intros [= <- <- <-]. simpl; auto. }
  match goal with
  | |- context [scalar_mul_cpacf H E ?a ?b ?c ?d ?e ?f ?g] =>
      pose proof (scalar_mul_cpacf_codes H E a b c d e f g) as Hc;
      destruct (scalar_mul_cpacf H E a b c d e f g) as [[[[rc1 x1] y1] b1] t6]
  end.
  cbn [fst] in Hc. intros [= <- <- <-].
  destruct Hc as [->|[->| ->]]; simpl; auto 6.
Qed.

Lemma eckeygen_hw_coprocessor_codes (H : header) (E : environ) (C : config)
    (handle : Z) (key : ICA_EC_KEY) (t : trace) :
  In (fst (fst (eckeygen_hw_coprocessor H E C handle key t)))
     [0; EIO; ENODEV; ENOMEM].
Proof.
  unfold eckeygen_hw_coprocessor.
  destruct (ecc_via_online_card C); cbn [negb fst]; [|simpl; auto].
  destruct (make_eckeygen_request H E key t) as [[[[w xcrb] len]|] t1];
    cbn [fst]; [|simpl; auto].
  destruct (ioctl E t1 handle (ZSECSENDCPRB H) xcrb w) as [rc reply].
  destruct (rc =? 0); cbn [negb fst]; [|simpl; auto].
  destruct (rp_formatted_data_len reply =? u32 (privlen_from_nid H (nid key)));
    cbn [negb fst]; [|simpl; auto].
  destruct (compress_flag (rp_pub_at reply (rp_section_len reply)) =? 4);
    cbn [negb fst]; simpl; auto.
Qed.

(** X3. The return codes of the hardware entry points. Whatever the
    environment answers, [ecdh_hw] returns 0, [EIO] or [ENODEV];
    [ecdsa_verify_hw] returns 0, [EIO], [ENODEV] or [EFAULT]; and a return
    of [eckeygen_hw] is 0, [EIO], [ENODEV] or [ENOMEM]. *)
Theorem entry_points_return_codes :
  forall (H : header) (E : environ) (C : config) (handle : Z)
         (key peer : ICA_EC_KEY) (hash : list Z) (hash_length : Z)
         (out : list Z) (t : trace),
    In (fst (fst (ecdh_hw H E C handle key peer out t))) [0; EIO; ENODEV]
    /\ In (fst (ecdsa_verify_hw H E C handle key hash hash_length out t))
          [0; EIO; ENODEV; EFAULT]
    /\ (forall fuel rc key' t',
          eckeygen_hw H E C fuel handle key t = Some (rc, key', t') ->
          In rc [0; EIO; ENODEV; ENOMEM]).
Proof.
  intros H E C handle key peer hash hash_length out t.
  split; [|split].
  - unfold ecdh_hw.
    destruct (msa9_switch C && negb (ica_offload_enabled C));
      [|apply ecdh_hw_coprocessor_codes].
    pose proof (scalar_mul_cpacf_codes H E (Some out) None (deref (D key))
                  (deref (X peer)) (deref (Y peer)) (nid key) t) as Hc.
    destruct (scalar_mul_cpacf H E (Some out) None (deref (D key))
                (deref (X peer)) (deref (Y peer)) (nid key) t)
      as [[[[rc rx] ry] blk] t1].
    cbn [fst] in Hc.
    destruct Hc as [->|[->| ->]]; cbn -[ecdh_hw_coprocessor In];
      [simpl; auto | simpl; auto | apply ecdh_hw_coprocessor_codes].
  - unfold ecdsa_verify_hw.
    destruct (msa9_switch C && negb (ica_offload_enabled C));
      [|apply ecdsa_verify_hw_coprocessor_codes].
    pose proof (ecdsa_verify_cpacf_codes H E key hash
                  (Z.to_nat hash_length) out t) as Hc.
    destruct (ecdsa_verify_cpacf H E key hash (Z.to_nat hash_length) out t)
      as [rc t1].
    cbn [fst] in Hc.
    destruct Hc as [->|[->| ->]]; cbn -[ecdsa_verify_hw_coprocessor In];
      [simpl; auto | simpl; auto 6
      | apply ecdsa_verify_hw_coprocessor_codes].
  - intros fuel rc key' t'. unfold eckeygen_hw.
    destruct (msa9_switch C).
    2:{ intros [= Hr].
        pose proof (eckeygen_hw_coprocessor_codes H E C handle key t) as Hc.
        rewrite Hr in Hc. exact Hc. }
    destruct (eckeygen_cpacf H E fuel key t) as [[[rc1 key1] t1]|] eqn:Hk;
      [|discriminate].
    apply eckeygen_cpacf_codes in Hk.
    destruct (rc1 =? EINVAL) eqn:He; cbn [negb].
    + intros [= Hr].
      pose proof (eckeygen_hw_coprocessor_codes H E C handle key1 t1) as Hc.
      rewrite Hr in Hc. exact Hc.
    + intros [= <- <- <-].
      destruct Hk as [<-|[<-|[<-|[<-|[]]]]]; try (simpl; auto 6).
      discriminate He.
Qed.

(** ** Signing and verifying with the instruction *)

Lemma firstn_plus (n m : nat) (l : list Z) :
  firstn (n + m) l = firstn n l ++ firstn m (skipn n l).
Proof.
  revert l. induction n as [|n IH]; intros l; [reflexivity|].
  destruct l as [|a l]; cbn [Nat.add firstn skipn app].
  - rewrite firstn_nil. reflexivity.
  - rewrite IH. reflexivity.
Qed.

Lemma load_app (buf : list Z) (o n m : nat) :
  load buf o (n + m) = load buf o n ++ load buf (o + n) m.
Proof.
  unfold load. rewrite firstn_plus, skipn_skipn.
  replace (n + o)%nat with (o + n)%nat by lia. reflexivity.
Qed.

(** The two signature fields of the block [ecdsa_verify_cpacf] builds
    from a signature [r ++ s]. *)
Lemma ecdsa_verify_param_signature (H : header) (w : nat)
    (pub : ICA_EC_KEY) (hash : list Z) (hashlen : nat) (r s : list Z) :
  let len := privlen_size H (nid pub) in
  (len <= w)%nat -> (5 * w <= PARAM_BYTES)%nat ->
  length hash = hashlen -> length r = len -> length s = len ->
  load (ecdsa_verify_param H w pub hash hashlen (r ++ s)) 0 (2 * w)
  = right_aligned w r ++ right_aligned w s.
Proof.
  intros len Hl Hw Hh Hr Hs. unfold ecdsa_verify_param. fold len.
  set (off := (w - len)%nat).
  replace (w - off)%nat with len by (unfold off; lia).
  set (p0 := memcpy (zeros PARAM_BYTES) _ hash _).
  assert (L0 : length p0 = PARAM_BYTES)
    by (apply length_hash_memcpy; [exact Hh | lia]).
  assert (Z0 : forall o m, (o + m <= 2 * w)%nat -> load p0 o m = zeros m).
  { intros o m Hom. unfold p0. rewrite load_memcpy_before.
    - apply load_zeros. unfold PARAM_BYTES in *. lia.
    - lia.
    - rewrite length_zeros. unfold PARAM_BYTES in *.
      destruct (w <? hashlen)%nat; lia. }
  set (p1 := memcpy p0 off (r ++ s) len).
  assert (L1 : length p1 = PARAM_BYTES).
  { unfold p1. rewrite length_memcpy; [exact L0 | | unfold off; lia].
    rewrite length_app. lia. }
  set (p2 := memcpy p1 (w + off) (skipn len (r ++ s)) len).
  assert (L2 : length p2 = PARAM_BYTES).
  { unfold p2. rewrite length_memcpy; [exact L1 | | unfold off; lia].
    rewrite length_skipn, length_app. lia. }
  set (p3 := memcpy p2 (3 * w + off) (deref (X pub)) len).
  assert (L3 : (PARAM_BYTES - len <= length p3)%nat).
  { unfold p3.
    pose proof (length_memcpy_ge p2 (deref (X pub)) (3 * w + off) len) as G.
    rewrite L2 in G. apply G. unfold off. lia. }
  rewrite load_memcpy_before by (unfold off; lia).
  unfold p3. rewrite load_memcpy_before by (unfold off; lia).
  replace (2 * w)%nat with (w + w)%nat by lia.
  rewrite load_app. cbn [Nat.add].
  f_equal.
  - unfold p2. rewrite load_memcpy_before by (unfold off; lia).
    unfold p1.
    match goal with
    | |- load ?b ?o ?m = _ =>
        replace (load b o m) with (load b o (off - 0 + len))
          by (f_equal; unfold off; lia)
    end.
    rewrite load_memcpy_upto; [| lia | lia | rewrite length_app; lia].
    rewrite Nat.sub_0_r, Z0 by (unfold off; lia).
    rewrite firstn_app, (firstn_all2 r) by lia.
    rewrite Hr, Nat.sub_diag, firstn_O, app_nil_r.
    unfold right_aligned. rewrite Hr. reflexivity.
  - unfold p2.
    match goal with
    | |- load ?b ?o ?m = _ =>
        replace (load b o m) with (load b o (w + off - w + len))
          by (f_equal; unfold off; lia)
    end.
    rewrite load_memcpy_upto;
      [| lia | lia | rewrite length_skipn, length_app; lia].
    replace (w + off - w)%nat with off by lia.
    unfold p1.
    rewrite load_memcpy_after;
      [| unfold off; lia | rewrite length_app; lia | unfold off; lia].
    rewrite Z0 by (unfold off; lia).
    rewrite skipn_app, skipn_all2 by lia.
    rewrite Hr, Nat.sub_diag, skipn_O, app_nil_l.
    rewrite (firstn_all2 s) by lia.
    unfold right_aligned. rewrite Hs. reflexivity.
Qed.

(** X4. What [ecdsa_sign_cpacf] writes is what [ecdsa_verify_cpacf] reads.
    Called without a random-number callback, the function invokes the
    instruction once and returns as the signature [r ++ s], the
    significant bytes of the two signature fields of the answer, each of
    the curve's private-key length. The verification block built from that
    signature, for a key of the same curve and any hash, holds [r] and [s]
    again at the right end of its two signature fields, behind zeros. *)
Theorem ecdsa_cpacf_signature_round_trip :
  forall (H : header) (E : environ) (fuel : nat) (key : ICA_EC_KEY)
         (hash : list Z) (hashlen : nat) (sig : list Z) (t : trace)
         (w : nat) (f : kdsa_function) (d : list Z),
    kdsa_operand_width (nid key) = Some w ->
    kdsa_sign_function (nid key) = Some f ->
    let len := privlen_size H (nid key) in
    (len <= w)%nat ->
    length hash = hashlen -> D key = Some d -> length d = len ->
    length sig = (2 * len)%nat ->
    in_place (s390_kdsa E) ->
    let fc := s390_kdsa_functions H f in
    let param := ecdsa_sign_param H w key hash hashlen in
    let out := snd (s390_kdsa E t fc param) in
    let r := load out (w - len) len in
    let s := load out (w + (w - len)) len in
    (exists rc blk,
        ecdsa_sign_cpacf H E fuel key hash hashlen sig None t
        = Some (rc, r ++ s, blk, t ++ [EvKdsa fc param]))
    /\ length r = len /\ length s = len
    /\ forall (pub : ICA_EC_KEY) (hash' : list Z),
         nid pub = nid key ->
         load (ecdsa_verify_param H w pub hash' (length hash') (r ++ s))
              0 (2 * w)
         = right_aligned w r ++ right_aligned w s.
Proof.
  intros H E fuel key hash hashlen sig t w f d Hw Hf len Hl Hh HD Hd Hs Hin
         fc param out r s.
  pose proof (kdsa_operand_width_bound _ _ Hw) as Hb.
  assert (Lp : length param = PARAM_BYTES).
  { unfold param. eapply length_ecdsa_sign_param; eauto. fold len. lia. }
  assert (Lo : length out = PARAM_BYTES).
  { unfold out. rewrite Hin. exact Lp. }
  assert (Hr : length r = len)
    by (unfold r; apply length_load; unfold PARAM_BYTES in *; lia).
  assert (Hs' : length s = len)
    by (unfold s; apply length_load; unfold PARAM_BYTES in *; lia).
  split; [|split; [exact Hr | split; [exact Hs'|]]].
  - rewrite (ecdsa_sign_cpacf_case H E fuel key hash hashlen sig None t w f
               Hw Hf).
    unfold ecdsa_sign_case. fold len param fc.
    unfold out in *.
    destruct (s390_kdsa E t fc param) as [rc o]. cbn [snd] in *.
    rewrite read_signature_halves by (unfold PARAM_BYTES in *; lia).
    eauto.
  - intros pub hash' Hn.
    apply ecdsa_verify_param_signature; rewrite ?Hn; fold len;
      auto.
Qed.

(** ** What signing leaves in the block *)

Lemma cleanse_priv_and_rand (w : nat) (out : list Z) :
  (5 * w <= PARAM_BYTES)%nat -> length out = PARAM_BYTES ->
  let blk := OPENSSL_cleanse (OPENSSL_cleanse out (3 * w) w) (4 * w) w in
  secrets_wiped w blk /\ load blk 0 (3 * w) = load out 0 (3 * w).
Proof.
  intros Hw Lo blk. unfold blk, OPENSSL_cleanse.
  set (b1 := memcpy out (3 * w) (zeros w) w).
  assert (L1 : length b1 = PARAM_BYTES).
  { unfold b1. rewrite length_memcpy; rewrite ?length_zeros; lia. }
  split; [split|].
  - rewrite length_memcpy; rewrite ?length_zeros; lia.
  - replace (2 * w)%nat with (w + w)%nat by lia.
    rewrite load_app.
    rewrite load_memcpy_before by lia.
    match goal with
    | |- _ ++ load ?b ?o ?m = _ =>
        replace (load b o m) with (load b o (4 * w - o + w))
          by (f_equal; lia)
    end.
    rewrite load_memcpy_upto by (rewrite ?length_zeros; lia).
    replace (4 * w - (3 * w + w))%nat with 0%nat by lia.
    unfold load at 2. rewrite firstn_O, app_nil_l.
    rewrite (firstn_all2 (zeros w)) by (rewrite length_zeros; lia).
    unfold b1.
    match goal with
    | |- load ?b ?o ?m ++ _ = _ =>
        replace (load b o m) with (load b o (3 * w - o + w))
          by (f_equal; lia)
    end.
    rewrite load_memcpy_upto by (rewrite ?length_zeros; lia).
    rewrite Nat.sub_diag. unfold load at 1. rewrite firstn_O, app_nil_l.
    rewrite (firstn_all2 (zeros w)) by (rewrite length_zeros; lia).
    symmetry. apply zeros_app.
  - rewrite load_memcpy_before by lia.
    unfold b1. rewrite load_memcpy_before by lia. reflexivity.
Qed.

(** The retry loop keeps the length of the block. *)
Lemma sign_retry_length (E : environ) (cb : rng_callback) (fc : Z)
    (rand_at n : nat) (N : nat) :
  in_place (s390_kdsa E) -> (forall t, length (cb t n) = n) ->
  (rand_at + n <= N)%nat ->
  forall fuel param t rc out t',
    length param = N ->
    sign_retry E fuel cb fc rand_at n (param, t) = Some (rc, (out, t')) ->
    length out = N.
Proof.
  intros Hin Hcb Hn.
  induction fuel as [|fuel IH]; intros param t rc out t' Lp Hr;
    [discriminate|].
  simpl in Hr.
  pose proof (Hin (t ++ [EvRng n]) fc (memcpy param rand_at (cb t n) n))
    as Hlen.
  destruct (s390_kdsa E (t ++ [EvRng n]) fc
              (memcpy param rand_at (cb t n) n)) as [rc1 out1].
  cbn [snd] in Hlen.
  rewrite length_memcpy in Hlen by (rewrite ?Hcb; lia).
  destruct (rc1 =? 0).
  - inversion Hr; subst. exact Hlen.
  - eapply IH; [|exact Hr]. lia.
Qed.

(** X5. [ecdsa_sign_cpacf] wipes the key and the nonce, and nothing else.
    The block the function leaves behind has zeros in its private-key and
    random-number fields, with or without a random-number callback.
    Without a callback the three fields in front of them (signature and
    hash) still hold what the instruction left there. *)
Theorem ecdsa_sign_cpacf_wipes_key_and_nonce :
  forall (H : header) (E : environ) (key : ICA_EC_KEY) (hash : list Z)
         (hashlen : nat) (sig : list Z) (t : trace) (w : nat)
         (f : kdsa_function) (d : list Z),
    kdsa_operand_width (nid key) = Some w ->
    kdsa_sign_function (nid key) = Some f ->
    (privlen_size H (nid key) <= w)%nat ->
    length hash = hashlen ->
    D key = Some d -> length d = privlen_size H (nid key) ->
    in_place (s390_kdsa E) ->
    (forall fuel,
        let out :=
          snd (s390_kdsa E t (s390_kdsa_functions H f)
                         (ecdsa_sign_param H w key hash hashlen)) in
        exists rc sig' blk t',
          ecdsa_sign_cpacf H E fuel key hash hashlen sig None t
          = Some (rc, sig', blk, t')
          /\ secrets_wiped w blk
          /\ load blk 0 (3 * w) = load out 0 (3 * w))
    /\ (forall (cb : rng_callback) fuel rc sig' blk t',
          (forall th n, length (cb th n) = n) ->
          ecdsa_sign_cpacf H E fuel key hash hashlen sig (Some cb) t
          = Some (rc, sig', blk, t') ->
          secrets_wiped w blk).
Proof.
  intros H E key hash hashlen sig t w f d Hw Hf Hl Hh HD Hd Hin.
  pose proof (kdsa_operand_width_bound _ _ Hw) as Hb.
  assert (Lp : length (ecdsa_sign_param H w key hash hashlen) = PARAM_BYTES).
  { eapply length_ecdsa_sign_param; eauto. lia. }
  split.
  - intros fuel out.
    rewrite (ecdsa_sign_cpacf_case H E fuel key hash hashlen sig None t w f
               Hw Hf).
    unfold ecdsa_sign_case.
    assert (Lo : length out = PARAM_BYTES) by (unfold out; rewrite Hin; exact Lp).
    unfold out in *.
    destruct (s390_kdsa E t (s390_kdsa_functions H f)
                (ecdsa_sign_param H w key hash hashlen)) as [rc o].
    cbn [snd] in *.
    destruct (cleanse_priv_and_rand w o Hb Lo) as [Hwiped Hkept].
    eauto 8.
  - intros cb fuel rc sig' blk t' Hcb.
    rewrite (ecdsa_sign_cpacf_case H E fuel key hash hashlen sig (Some cb) t
               w f Hw Hf).
    unfold ecdsa_sign_case.
    destruct (sign_retry E fuel cb _ _ _ _) as [[rc1 [o t1]]|] eqn:Hr;
      [|discriminate].
    intros [= <- <- <- <-].
    apply sign_retry_length with (N := PARAM_BYTES) in Hr;
      [| exact Hin | intros; apply Hcb | lia | exact Lp].
    apply (cleanse_priv_and_rand w o Hb Hr).
Qed.

(** X6. [ecdsa_sign_hw] on the instruction tier hands out the
    instruction's code. With MSA 9 available and the offload switch off,
    on a curve the signing instruction supports, [ecdsa_sign_hw] invokes
    it once and, unless it answers [EINVAL], returns its condition code
    itself (as an [unsigned int]), not [EIO]. Whatever the code, the
    signature buffer then holds the significant bytes of the two
    signature fields of the block the instruction left: the last
    private-key-length bytes of the field at offset 0 and of the field at
    offset [w], one after the other. *)
Theorem ecdsa_sign_hw_returns_instruction_code :
  forall (H : header) (E : environ) (C : config) (handle : Z)
         (key : ICA_EC_KEY) (hash : list Z) (hash_length : Z)
         (sig : list Z) (t : trace) (w : nat) (f : kdsa_function)
         (d : list Z),
    msa9_switch C = true -> ica_offload_enabled C = false ->
    kdsa_operand_width (nid key) = Some w ->
    kdsa_sign_function (nid key) = Some f ->
    let len := privlen_size H (nid key) in
    (len <= w)%nat ->
    length hash = Z.to_nat hash_length ->
    D key = Some d -> length d = len ->
    length sig = (2 * len)%nat ->
    in_place (s390_kdsa E) ->
    let fc := s390_kdsa_functions H f in
    let param := ecdsa_sign_param H w key hash (Z.to_nat hash_length) in
    let r := s390_kdsa E t fc param in
    fst r <> EINVAL ->
    ecdsa_sign_hw H E C handle key hash hash_length sig t
    = Some (u32 (fst r),
            load (snd r) (w - len) len ++ load (snd r) (w + (w - len)) len,
            t ++ [EvKdsa fc param]).
Proof.
  intros H E C handle key hash hash_length sig t w f d Hm Ho Hw Hf len Hl Hh
         HD Hd Hs Hin fc param r Hr.
  pose proof (kdsa_operand_width_bound _ _ Hw) as Hb.
  assert (Lp : length param = PARAM_BYTES).
  { unfold param. eapply length_ecdsa_sign_param; eauto. fold len. lia. }
  assert (Lo : length (snd r) = PARAM_BYTES).
  { unfold r. rewrite Hin. exact Lp. }
  rewrite <- (read_signature_halves w len (snd r) sig Hl)
    by (rewrite ?Lo; unfold PARAM_BYTES in *; lia).
  unfold ecdsa_sign_hw. rewrite Hm, Ho. cbn [andb negb].
  rewrite (ecdsa_sign_cpacf_case H E 0 key hash (Z.to_nat hash_length) sig
             None t w f Hw Hf).
  unfold ecdsa_sign_case. fold len param fc. unfold r in *.
  destruct (s390_kdsa E t fc param) as [rc o]. cbn [fst snd] in *.
  destruct (Z.eqb_spec rc EINVAL); [contradiction|]. reflexivity.
Qed.

Lemma ecdsa_sign_hw_returns_instruction_code_witness :
  let E :=
    answering_signature 3 32 (repeat 0x11 32) (repeat 0x22 32)
                        (quiet_environ blank_reply) in
  let param :=
    ecdsa_sign_param sample_header 32 sample_p256_key (repeat 0xAB 32) 32 in
  ecdsa_sign_hw sample_header E both_tiers 3 sample_p256_key
                (repeat 0xAB 32) 32 (zeros 64) []
  = Some (3, repeat 0x11 32 ++ repeat 0x22 32, [EvKdsa 9 param]).
Proof.
  intros E param.
  refine (eq_trans
            (ecdsa_sign_hw_returns_instruction_code sample_header E
               both_tiers 3 sample_p256_key (repeat 0xAB 32) 32 (zeros 64)
               [] 32 ECDSA_SIGN_P256 (repeat 1 32) eq_refl eq_refl eq_refl
               eq_refl (le_n 32) eq_refl eq_refl eq_refl eq_refl _ _) _).
  - apply answering_signature_in_place; rewrite repeat_length; apply le_n.
  - vm_compute. intro Hc. discriminate Hc.
  - vm_compute. reflexivity.
Defined.

Lemma ecdsa_sign_cpacf_wipes_key_and_nonce_witness :
  let E := quiet_environ blank_reply in
  let cb : rng_callback := fun _ n => repeat 7 n in
  exists rc sig' blk t',
    ecdsa_sign_cpacf sample_header E 1 sample_p256_key (repeat 0xAB 20) 20
                     (zeros 64) (Some cb) []
    = Some (rc, sig', blk, t')
    /\ secrets_wiped 32 blk.
Proof.
  intros E cb.
  exists 0. eexists. eexists. eexists.
  split; [reflexivity|].
  eapply (proj2 (ecdsa_sign_cpacf_wipes_key_and_nonce sample_header E
                   sample_p256_key (repeat 0xAB 20) 20 (zeros 64) []
                   32 ECDSA_SIGN_P256 (repeat 1 32)
                   eq_refl eq_refl (le_n 32) eq_refl eq_refl eq_refl
                   (proj2 (quiet_in_place blank_reply)))
            cb 1%nat).
  - intros th n. apply repeat_length.
  - reflexivity.
Defined.

Lemma ecdsa_cpacf_signature_round_trip_witness :
  let E := quiet_environ blank_reply in
  let param :=
    ecdsa_sign_param sample_header 32 sample_p256_key (repeat 0xAB 20) 20 in
  let r := load param 0 32 in
  let s := load param 32 32 in
  (exists rc blk,
      ecdsa_sign_cpacf sample_header E 0 sample_p256_key (repeat 0xAB 20) 20
                       (zeros 64) None []
      = Some (rc, r ++ s, blk, [EvKdsa 9 param]))
  /\ length r = 32%nat /\ length s = 32%nat
  /\ load (ecdsa_verify_param sample_header 32 sample_p256_key
             (repeat 0xAB 20) 20 (r ++ s)) 0 64
     = right_aligned 32 r ++ right_aligned 32 s.
Proof.
  intros E param r s.
  destruct (ecdsa_cpacf_signature_round_trip sample_header E 0
              sample_p256_key (repeat 0xAB 20) 20 (zeros 64) []
              32 ECDSA_SIGN_P256 (repeat 1 32)
              eq_refl eq_refl (le_n 32) eq_refl eq_refl eq_refl eq_refl
              (proj2 (quiet_in_place blank_reply)))
    as (Hsign & Hr & Hs & Hverify).
  split; [exact Hsign | split; [exact Hr | split; [exact Hs|]]].
  exact (Hverify sample_p256_key (repeat 0xAB 20) eq_refl).
Defined.

(** ** Big-endian values and the constants of key generation *)

Lemma be_value_acc (l : list Z) (acc : Z) :
  fold_left (fun a b => a * 256 + b) l acc
  = acc * 256 ^ Z.of_nat (length l) + be_value l.
Proof.
  unfold be_value. revert acc.
  induction l as [|b l IH]; intros acc.
  - simpl. lia.
  - cbn [fold_left length]. rewrite IH, (IH (0 * 256 + b)).
    rewrite Nat2Z.inj_succ, Z.pow_succ_r by lia. lia.
Qed.

Lemma be_value_cons (b : Z) (l : list Z) :
  be_value (b :: l) = b * 256 ^ Z.of_nat (length l) + be_value l.
Proof.
  unfold be_value at 1. cbn [fold_left]. rewrite be_value_acc. lia.
Qed.

Lemma be_value_zeros_app (k : nat) (l : list Z) :
  be_value (zeros k ++ l) = be_value l.
Proof.
  induction k as [|k IH]; [reflexivity|].
  change (zeros (S k)) with (0 :: zeros k). cbn [app].
  rewrite be_value_cons, IH. lia.
Qed.

(** The [k] low base-256 digits of [v], most significant first. *)
Lemma be_value_digits (v : Z) (k : nat) :
  0 <= v ->
  be_value (map (fun i => Z.shiftr v (8 * Z.of_nat i) mod 256)
                (rev (seq 0 k)))
  = v mod 256 ^ Z.of_nat k.
Proof.
  intros Hv. induction k as [|k IH].
  - simpl. rewrite Z.mod_1_r. reflexivity.
  - rewrite seq_S, rev_app_distr. cbn [rev app map Nat.add].
    rewrite be_value_cons, IH.
    rewrite length_map, length_rev, length_seq.
    rewrite Z.shiftr_div_pow2 by lia.
    rewrite Nat2Z.inj_succ, Z.pow_succ_r by lia.
    replace (2 ^ (8 * Z.of_nat k)) with (256 ^ Z.of_nat k).
    2:{ change 256 with (2 ^ 8). rewrite <- Z.pow_mul_r by lia. reflexivity. }
    assert (Hp : 0 < 256 ^ Z.of_nat k) by (apply Z.pow_pos_nonneg; lia).
    rewrite (Z.mul_comm 256 (256 ^ Z.of_nat k)).
    rewrite Z.rem_mul_r by lia. lia.
Qed.

Lemma BN_num_bytes_bound (v : Z) :
  0 <= v -> v < 256 ^ BN_num_bytes v.
Proof.
  intros Hv. unfold BN_num_bytes.
  destruct (Z.leb_spec v 0) as [H0 | H0].
  - replace v with 0 by lia. simpl. lia.
  - pose proof (Z.log2_nonneg v) as Hl.
    assert (Hq : Z.log2 v < 8 * (Z.log2 v / 8 + 1)).
    { pose proof (Z.mod_pos_bound (Z.log2 v) 8 ltac:(lia)) as Hm.
      pose proof (Z.div_mod (Z.log2 v) 8 ltac:(lia)) as Hd. lia. }
    change 256 with (2 ^ 8).
    rewrite <- Z.pow_mul_r by (pose proof (Z.div_pos (Z.log2 v) 8); lia).
    apply Z.log2_lt_pow2; lia.
Qed.

(** [BN_bn2bin] followed by [BN_bin2bn] gives the number back. *)
Lemma be_value_BN_bn2bin (v : Z) : 0 <= v -> be_value (BN_bn2bin v) = v.
Proof.
  intros Hv. unfold BN_bn2bin. rewrite be_value_digits by exact Hv.
  pose proof (BN_num_bytes_nonneg v) as Hn.
  rewrite Z2Nat.id by exact Hn.
  apply Z.mod_small. split; [exact Hv | apply BN_num_bytes_bound; exact Hv].
Qed.

Lemma be_value_left_padded (n : nat) (v : Z) :
  0 <= v -> be_value (left_padded n v) = v.
Proof.
  intros Hv. unfold left_padded.
  rewrite be_value_zeros_app. apply be_value_BN_bn2bin. exact Hv.
Qed.

Lemma BN_num_bytes_le (v : Z) (n : Z) :
  0 <= n -> 0 <= v < 256 ^ n -> BN_num_bytes v <= n.
Proof.
  intros Hn [Hv Hlt]. unfold BN_num_bytes.
  destruct (Z.leb_spec v 0) as [H0 | H0]; [lia|].
  assert (Hl : Z.log2 v < 8 * n).
  { apply Z.log2_lt_pow2; [lia|].
    rewrite Z.pow_mul_r by lia. exact Hlt. }
  pose proof (Z.log2_nonneg v) as Hl0.
  assert (Z.log2 v / 8 < n).
  { apply Z.div_lt_upper_bound; lia. }
  lia.
Qed.

Lemma length_left_padded (n : nat) (v : Z) :
  BN_num_bytes v <= Z.of_nat n -> length (left_padded n v) = n.
Proof.
  intros Hv. pose proof (BN_num_bytes_nonneg v).
  unfold left_padded. rewrite length_app, length_zeros, length_BN_bn2bin.
  lia.
Qed.

(** What the draw loop returns is a non-zero answer of [BN_rand_range]. *)
Lemma rand_nonzero_drawn (E : environ) (ord : Z) (fuel : nat) :
  forall t priv t',
    rand_nonzero E fuel ord t = Some (Some priv, t') ->
    priv <> 0
    /\ exists th, BN_rand_range E th ord = Some priv
                  /\ t' = th ++ [EvBN_rand_range ord]
                  /\ exists l, th = t ++ l
                               /\ instruction_calls l = 0%nat.
Proof.
  induction fuel as [|fuel IH]; intros t priv t' Hr; [discriminate|].
  simpl in Hr.
  destruct (BN_rand_range E t ord) as [p|] eqn:Hd; [|discriminate].
  destruct (Z.eqb_spec p 0) as [-> | Hp].
  - apply IH in Hr. destruct Hr as (Hn & th & Hth & -> & l & -> & Hl).
    split; [exact Hn|]. exists ((t ++ [EvBN_rand_range ord]) ++ l).
    split; [exact Hth|]. split; [reflexivity|].
    exists ([EvBN_rand_range ord] ++ l).
    split; [rewrite <- app_assoc; reflexivity|].
    exact Hl.
  - injection Hr as <- <-. split; [exact Hp|].
    exists t. split; [exact Hd|]. split; [reflexivity|].
    exists []. split; [symmetry; apply app_nil_r | reflexivity].
Qed.

Lemma keygen_constants_layout (curve_nid : Z) (bx by_ ord : list Z) :
  keygen_constants curve_nid = Some (bx, by_, ord) ->
  exists size f,
    pcc_layout curve_nid = Some (size, f)
    /\ length bx = length ord /\ length by_ = length ord
    /\ (length ord <= size)%nat
    /\ 0 < be_value ord < 256 ^ Z.of_nat (length ord)
    /\ ((curve_nid =? NID_X9_62_prime256v1) = true
        \/ (curve_nid =? NID_secp384r1) = true
        \/ (curve_nid =? NID_secp521r1) = true).
Proof.
  unfold keygen_constants, pcc_layout.
  destruct (curve_nid =? NID_X9_62_prime256v1).
  { intros [= <- <- <-]. exists 32%nat, SCALAR_MULTIPLY_P256.
    repeat split; auto; try (apply Nat.leb_le; reflexivity);
      try (vm_compute; congruence). }
  destruct (curve_nid =? NID_secp384r1).
  { intros [= <- <- <-]. exists 48%nat, SCALAR_MULTIPLY_P384.
    repeat split; auto; try (apply Nat.leb_le; reflexivity);
      try (vm_compute; congruence). }
  destruct (curve_nid =? NID_secp521r1).
  { intros [= <- <- <-]. exists 80%nat, SCALAR_MULTIPLY_P521.
    repeat split; auto; try (apply Nat.leb_le; reflexivity);
      try (vm_compute; congruence). }
  discriminate.
Qed.

(** ** Key generation by the instruction *)

Lemma pcc_layout_size (curve_nid : Z) (size : nat) (f : pcc_function) :
  pcc_layout curve_nid = Some (size, f) -> (size <= 80)%nat.
Proof.
  intros Hl.
  destruct (pcc_layout_cases _ _ _ Hl)
    as [(_ & -> & _)|[(_ & -> & _)|[(_ & -> & _)|[(_ & -> & _)
       |(_ & -> & _)]]]]; lia.
Qed.

(** The private key written by [memset(key->D, 0, privlen)] and
    [BN_bn2bin(priv, key->D + privlen - numbytes)]. *)
Lemma keygen_private_key (n : nat) (priv : Z) (d0 : list Z) :
  length d0 = n -> BN_num_bytes priv <= Z.of_nat n ->
  Z.of_nat n < 2 ^ 32 ->
  memcpy (memcpy d0 0 (zeros n) n)
         (Z.to_nat (u32 (Z.of_nat n - BN_num_bytes priv)))
         (BN_bn2bin priv) (Z.to_nat (BN_num_bytes priv))
  = left_padded n priv.
Proof.
  intros Hd Hb Hn. pose proof (BN_num_bytes_nonneg priv) as H0.
  rewrite memcpy_whole by (rewrite ?length_zeros; lia).
  rewrite u32_small by lia.
  replace (Z.to_nat (Z.of_nat n - BN_num_bytes priv))
    with (n - Z.to_nat (BN_num_bytes priv))%nat by lia.
  set (nb := Z.to_nat (BN_num_bytes priv)).
  assert (Hnb : (nb <= n)%nat) by (unfold nb; lia).
  unfold memcpy, left_padded. fold nb.
  rewrite firstn_zeros by lia.
  rewrite firstn_all2 by (rewrite length_BN_bn2bin; fold nb; lia).
  rewrite skipn_all2 by (rewrite length_zeros; lia).
  rewrite app_nil_r. reflexivity.
Qed.

(** X7. What [eckeygen_cpacf] generates. On P-256, P-384 or P-521, when
    the OpenSSL allocations succeed and the draw ends with the non-zero
    number [priv] below the group order, the private key [D] is [priv] in
    big-endian digits, left-padded with zeros to the key length: its value
    is non-zero and below the order. The public key is read from the
    answer of one scalar multiplication of the curve's base point by [D].
    All three fields are written whatever the condition code: at a
    non-zero code the function returns [EIO] with the key already changed.
    *)
Theorem eckeygen_cpacf_generates (H : header) (E : environ) (fuel : nat)
    (key : ICA_EC_KEY) (t : trace) (bx by_ ord : list Z) (size : nat)
    (f : pcc_function) (x0 y0 d0 : list Z) (priv : Z) (t5 : trace) :
  keygen_constants (nid key) = Some (bx, by_, ord) ->
  pcc_layout (nid key) = Some (size, f) ->
  let n := length ord in
  privlen_from_nid H (nid key) = Z.of_nat n ->
  X key = Some x0 -> Y key = Some y0 -> D key = Some d0 ->
  length d0 = n ->
  (forall th c, openssl_ok E th c = true) ->
  (forall th r, BN_rand_range E th (be_value ord) = Some r ->
                0 <= r < be_value ord) ->
  rand_nonzero E fuel (be_value ord) (t ++ keygen_preamble)
  = Some (Some priv, t5) ->
  let d := left_padded n priv in
  let fc := s390_pcc_functions H f in
  let block := scalar_mul_block size d bx by_ in
  let r := s390_pcc E t5 fc block in
  eckeygen_cpacf H E fuel key t
  = Some ((if fst r =? 0 then 0 else EIO),
          {| nid := nid key;
             X := Some (memcpy x0 0 (load (snd r) (size - n) n) n);
             Y := Some (memcpy y0 0
                               (load (snd r) (size + (size - n)) n) n);
             D := Some d |},
          t5 ++ [EvPcc fc block])
  /\ length d = n /\ 0 < be_value d < be_value ord.
Proof.
  intros Hk Hl n Hp HX HY HD Hd Hok Hrange Hr d fc block r.
  destruct (keygen_constants_layout _ _ _ _ Hk)
    as (size' & f' & Hl' & Hbx & Hby & Hsz & Hord & _).
  rewrite Hl in Hl'. injection Hl' as <- <-.
  pose proof (pcc_layout_size _ _ _ Hl) as Hs80.
  fold n in Hbx, Hby, Hsz, Hord.
  destruct (rand_nonzero_drawn E _ _ _ _ _ Hr)
    as (Hnz & th & Hdraw & _ & _).
  apply Hrange in Hdraw.
  assert (Hnb : BN_num_bytes priv <= Z.of_nat n).
  { apply BN_num_bytes_le; lia. }
  assert (Ld : length d = n) by (apply length_left_padded; exact Hnb).
  assert (Vd : be_value d = priv)
    by (apply be_value_left_padded; lia).
  split; [| split; [exact Ld | rewrite Vd; lia]].
  unfold eckeygen_cpacf, BN_bin2bn, openssl.
  rewrite !Hok. cbn [andb negb].
  fold (keygen_constants (nid key)). rewrite Hk.
  rewrite Hp, Nat2Z.id, firstn_all.
  rewrite <- !app_assoc. cbn [app]. fold keygen_preamble.
  rewrite Hr.
  rewrite (u32_small (Z.of_nat n)) by lia.
  rewrite Nat2Z.id, HD. cbn [option_map].
  rewrite keygen_private_key by (assumption || lia).
  fold d.
  rewrite length_BN_bn2bin.
  pose proof (BN_num_bytes_nonneg priv) as H0.
  rewrite Z2Nat.id, Z.eqb_refl by exact H0. cbn [negb X Y D nid deref].
  rewrite HX, HY.
  assert (Hlen : privlen_size H (nid key) = n).
  { unfold privlen_size. rewrite Hp. apply Nat2Z.id. }
  pose proof (scalar_mul_cpacf_supported H E t5 (nid key) size f
                (Some x0) (Some y0) d bx by_ Hl) as Hrun.
  cbv zeta in Hrun. rewrite Hlen in Hrun.
  rewrite Hrun by (assumption || lia).
  reflexivity.
Qed.

Lemma eckeygen_cpacf_generates_witness :
  let E := zero_then 7 (quiet_environ blank_reply) in
  let d := zeros 31 ++ [7] in
  let block := scalar_mul_block 32 d p256_base_x p256_base_y in
  let t5 := keygen_preamble
            ++ [EvBN_rand_range (be_value p256_ord);
                EvBN_rand_range (be_value p256_ord)] in
  eckeygen_cpacf sample_header E 2 sample_p256_key []
  = Some (0,
          {| nid := NID_X9_62_prime256v1;
             X := Some (zeros 32); Y := Some (zeros 32); D := Some d |},
          t5 ++ [EvPcc 64 block])
  /\ length d = 32%nat /\ 0 < be_value d < be_value p256_ord.
Proof.
  intros E d block t5.
  apply (eckeygen_cpacf_generates sample_header E 2 sample_p256_key []
           p256_base_x p256_base_y p256_ord 32 SCALAR_MULTIPLY_P256
           (repeat 2 32) (repeat 3 32) (repeat 1 32) 7 t5);
    try reflexivity.
  intros th r. simpl.
  destruct (existsb _ th); intros [= <-]; vm_compute;
    split; congruence.
Defined.

Lemma instruction_calls_app (l m : trace) :
  instruction_calls (l ++ m)
  = (instruction_calls l + instruction_calls m)%nat.
Proof.
  unfold instruction_calls. rewrite filter_app, length_app. reflexivity.
Qed.

Lemma rand_nonzero_no_instruction (E : environ) (ord : Z) (fuel : nat) :
  forall t r t',
    rand_nonzero E fuel ord t = Some (r, t') ->
    exists l, t' = t ++ l /\ instruction_calls l = 0%nat.
Proof.
  induction fuel as [|fuel IH]; intros t r t' Hr; [discriminate|].
  simpl in Hr. destruct (BN_rand_range E t ord) as [priv|].
  - destruct (priv =? 0).
    + apply IH in Hr. destruct Hr as (l & -> & Hl).
      rewrite <- app_assoc. eexists. split; [reflexivity|].
      rewrite instruction_calls_app, Hl. reflexivity.
    + inversion Hr. eexists. split; reflexivity.
  - inversion Hr. eexists. split; reflexivity.
Qed.

Lemma eckeygen_cpacf_instruction (H : header) (E : environ) (fuel : nat)
    (key : ICA_EC_KEY) (t : trace) (rc : Z) (key' : ICA_EC_KEY)
    (t' : trace) :
  eckeygen_cpacf H E fuel key t = Some (rc, key', t') ->
  exists l,
    t' = t ++ l
    /\ ((instruction_calls l = 0%nat /\ key' = key
         /\ (rc = ENOMEM \/ rc = EINVAL \/ rc = EIO))
        \/ (instruction_calls l = 1%nat /\ (rc = 0 \/ rc = EIO))).
Proof.
  unfold eckeygen_cpacf, BN_bin2bn, openssl.
  cbn [fst snd].
  destruct (negb _).
  { intros [= <- <- <-]. rewrite <- !app_assoc.
    eexists. split; [reflexivity|]. left. auto. }
  fold (keygen_constants (nid key)).
  destruct (keygen_constants (nid key)) as [[[bx by_] ob]|] eqn:Hk.
  2:{ intros [= <- <- <-]. rewrite <- !app_assoc.
      eexists. split; [reflexivity|]. left. auto. }
  destruct (keygen_constants_layout _ _ _ _ Hk)
    as (size & f & Hl & _).
  match goal with
  | |- context [rand_nonzero E fuel ?o ?th] =>
      destruct (rand_nonzero E fuel o th) as [[[priv|] t1]|] eqn:Hr
  end; [| |discriminate].
  - apply rand_nonzero_no_instruction in Hr. destruct Hr as (l1 & -> & Hl1).
    rewrite length_BN_bn2bin.
    rewrite Z2Nat.id, Z.eqb_refl by apply BN_num_bytes_nonneg.
    cbn [negb nid X Y D].
    match goal with
    | |- context [scalar_mul_cpacf H E ?a ?b ?c ?d ?e ?ff ?g] =>
        destruct (scalar_mul_cpacf_case H E a b c d e ff g size f Hl)
          as [-> _]
    end.
    unfold scalar_mul_case.
    match goal with
    | |- context [s390_pcc E ?a ?b ?c] =>
        destruct (s390_pcc E a b c) as [cc out]
    end.
    intros [= <- <- <-]. rewrite <- !app_assoc.
    eexists. split; [reflexivity|]. right.
    rewrite !instruction_calls_app, Hl1.
    split; [reflexivity|]. destruct (cc =? 0); auto.
  - apply rand_nonzero_no_instruction in Hr. destruct Hr as (l1 & -> & Hl1).
    intros [= <- <- <-]. rewrite <- !app_assoc.
    eexists. split; [reflexivity|]. left.
    rewrite !instruction_calls_app, Hl1. auto.
Qed.

(** X8. [eckeygen_cpacf] touches the key only when it reaches the
    instruction. A run that returns has invoked the instruction at most
    once; a run that has not invoked it returns a non-zero code and the
    key as it was; and the codes [ENOMEM] and [EINVAL] are returned only
    by runs that have not invoked it. *)
Theorem eckeygen_cpacf_changes_key_only_with_instruction :
  forall (H : header) (E : environ) (fuel : nat) (key : ICA_EC_KEY)
         (t : trace) (rc : Z) (key' : ICA_EC_KEY) (t' : trace),
    eckeygen_cpacf H E fuel key t = Some (rc, key', t') ->
    (instruction_calls (since t t') <= 1)%nat
    /\ (instruction_calls (since t t') = 0%nat -> key' = key /\ rc <> 0)
    /\ (rc = ENOMEM \/ rc = EINVAL ->
        instruction_calls (since t t') = 0%nat).
Proof.
  intros H E fuel key t rc key' t' Hr.
  destruct (eckeygen_cpacf_instruction _ _ _ _ _ _ _ _ Hr)
    as (l & -> & [(Hl & -> & Hrc) | (Hl & Hrc)]);
    rewrite since_app, Hl.
  - split; [lia|]. split; [|reflexivity].
    intros _. split; [reflexivity|].
    destruct Hrc as [->|[->| ->]]; discriminate.
  - split; [lia|]. split; [discriminate|].
    intros [-> | ->]; destruct Hrc; discriminate.
Qed.

Lemma eckeygen_cpacf_changes_key_only_with_instruction_witness :
  let E := with_condition_code 3 (quiet_environ blank_reply) in
  exists key' t',
    eckeygen_cpacf sample_header E 1 sample_p256_key [] = Some (EIO, key', t')
    /\ D key' <> D sample_p256_key
    /\ instruction_calls (since [] t') = 1%nat.
Proof.
  intros E.
  destruct (eckeygen_cpacf sample_header E 1 sample_p256_key [])
    as [[[rc key'] t']|] eqn:Hr; [|discriminate Hr].
  pose proof (eckeygen_cpacf_changes_key_only_with_instruction
                sample_header E 1 sample_p256_key [] rc key' t' Hr)
    as (Hle & Hzero & _).
  exists key', t'.
  assert (Hv : rc = EIO /\ D key' <> D sample_p256_key).
  { vm_compute in Hr. injection Hr as <- <- <-.
    split; [reflexivity | discriminate]. }
  destruct Hv as [-> Hd].
  split; [reflexivity|]. split; [exact Hd|].
  destruct (instruction_calls (since [] t')) as [|[|k]];
    [| reflexivity | lia].
  destruct (Hzero eq_refl) as [-> _]. contradiction Hd. reflexivity.
Defined.

(** ** Length fields of the requests *)

Ltac wire_fields :=
  cbn [map snd fst app contiguous fold_right item_size
       key_len tknhdr tkn_length privsec ps_section_len formatted_data_len
       associated_data_len ibm_associated_data_len adata ibm_data_len
       pubsec pb_section_len pub_q_bytelen privkey pubkey keyblock_len
       nullkey_len
       request_control_blk_length reply_control_blk_length
       request_control_blk_addr reply_control_blk_addr
       cprb_len req_parml rpl_msgbl req_parmb rpl_parmb
       sg_vud_len sg_vud1_len sg_vud1 sv_vud2_len sv_vud2_data
       kb_key_len kb_tknhdr kb_pubsec kb_pubkey
       kg_key_len kg_tknhdr kg_privsec kg_adata kg_pubsec].

(** X9. The length fields of the ECDSA signing request.
    [make_ecdsa_sign_request] lays out a [CPRBX], the parameter block with
    the hash, the key block length, a private key token and a public key
    token, one behind the other from the start of the allocation. The
    request length of the [xcrb] is the bytes they take up, the [CPRBX]
    announces the bytes behind it, the reply is expected in the second
    half of the allocation, and every length field of the parameter block,
    the key block and the two tokens is the size of what it announces. *)
Theorem ecdsa_sign_request_lengths (H : header) (E : environ)
    (privkey : ICA_EC_KEY) (X_ Y_ hash : list Z) (hash_length : Z)
    (t : trace) (d : list Z) :
  packed_layout H -> packed_layout_ecdsa H ->
  0 <= privlen_from_nid H (nid privkey) < 2 ^ 16 ->
  D privkey = Some d ->
  privlen_from_nid H (nid privkey) <= Z.of_nat (length d) ->
  privlen_from_nid H (nid privkey) <= Z.of_nat (length X_) ->
  privlen_from_nid H (nid privkey) <= Z.of_nat (length Y_) ->
  0 <= hash_length < 2 ^ 16 -> hash_length <= Z.of_nat (length hash) ->
  0 <= curve_type_from_nid H (nid privkey) ->
  malloc E t (2 * (CPRBXSIZE H + PARMBSIZE)) = true ->
  exists w xcrb len t' c pb kbl kp1 kp2,
    make_ecdsa_sign_request H E privkey X_ Y_ hash hash_length t
    = (Some (w, xcrb, len), t')
    /\ map snd w = [ItCPRBX c; ItEcdsaPart1 pb; ItKeyblockLength kbl;
                    ItPrivateKeyToken kp1; ItPublicKeyToken kp2]
    /\ request_consistent H (w, xcrb, len)
    /\ sg_vud1_len pb = 2 + Z.of_nat (length (sg_vud1 pb))
    /\ sg_vud_len pb = 2 + sg_vud1_len pb
    /\ keyblock_len kbl = 2 + key_len kp1
    /\ token_lengths_consistent H kp1 kp2.
Proof.
  intros (Hkbl & Hnk & Hptk & Hc & Hpb & Hh & Hps & Had & Hpt)
         (Hblk & Hp1 & Hp2 & Hkp & Hkt & Hnt)
         Hp HD Hd Hx Hy Hhl Hhb Hct Hm.
  unfold make_ecdsa_sign_request, alloc_cbrbmem, make_cprbx,
    get_default_domain, make_ecdsa_sign_parmblock, make_keyblock_length,
    make_ecdsa_private_key_token, key_token_items, finalize_xcrb.
  destruct (Z.ltb_spec (curve_type_from_nid H (nid privkey)) 0) as [?|_];
    [lia|].
  rewrite Hm, HD. cbn [negb deref fst snd].
  set (P := privlen_from_nid H (nid privkey)) in *.
  do 9 eexists. split; [reflexivity|].
  unfold request_consistent, token_lengths_consistent, wire_bytes.
  wire_fields.
  rewrite !length_app, !Nat2Z.inj_add.
  rewrite !length_firstn_exact by lia.
  rewrite Hkbl, Hptk.
  drop_u32.
  split; [reflexivity|].
  repeat split; wire_fields;
    rewrite ?length_app, ?Nat2Z.inj_add, ?length_firstn_exact by lia;
    try reflexivity; try lia.
  do 2 eexists. split; [reflexivity|]. wire_fields.
  rewrite ?length_app, ?Nat2Z.inj_add, ?length_firstn_exact by lia.
  rewrite ?Hkbl, ?Hptk.
  repeat split; try reflexivity; try lia.
Qed.

Lemma ecdsa_sign_request_lengths_witness :
  exists w xcrb len t' c pb kbl kp1 kp2,
    make_ecdsa_sign_request sample_header (quiet_environ blank_reply)
      sample_p256_key (repeat 2 32) (repeat 3 32) (repeat 0xAB 20) 20 []
    = (Some (w, xcrb, len), t')
    /\ map snd w = [ItCPRBX c; ItEcdsaPart1 pb; ItKeyblockLength kbl;
                    ItPrivateKeyToken kp1; ItPublicKeyToken kp2]
    /\ request_consistent sample_header (w, xcrb, len)
    /\ sg_vud1_len pb = 2 + Z.of_nat (length (sg_vud1 pb))
    /\ sg_vud_len pb = 2 + sg_vud1_len pb
    /\ keyblock_len kbl = 2 + key_len kp1
    /\ token_lengths_consistent sample_header kp1 kp2.
Proof.
  apply (ecdsa_sign_request_lengths sample_header
           (quiet_environ blank_reply) sample_p256_key (repeat 2 32)
           (repeat 3 32) (repeat 0xAB 20) 20 [] (repeat 1 32)
           sample_packed sample_packed_ecdsa);
    try reflexivity;
    vm_compute; first [ split; [discriminate | reflexivity] | discriminate ].
Defined.

(** X10. The length fields of the ECDSA verification request.
    [make_ecdsa_verify_request] lays out a [CPRBX], the parameter block
    with the hash, the second parameter block with the signature (twice
    the private-key length), the key block length and a public key block,
    one behind the other. The lengths of the [xcrb] and of the [CPRBX] are
    those of what was written, and every length field of the parameter
    blocks, of the key block and of the token inside it is the size of
    what it announces. *)
Theorem ecdsa_verify_request_lengths (H : header) (E : environ)
    (pubkey_ : ICA_EC_KEY) (hash signature : list Z) (hash_length : Z)
    (t : trace) (x y : list Z) :
  packed_layout H -> packed_layout_ecdsa H ->
  0 <= privlen_from_nid H (nid pubkey_) < 2 ^ 16 ->
  X pubkey_ = Some x -> Y pubkey_ = Some y ->
  privlen_from_nid H (nid pubkey_) <= Z.of_nat (length x) ->
  privlen_from_nid H (nid pubkey_) <= Z.of_nat (length y) ->
  2 * privlen_from_nid H (nid pubkey_) <= Z.of_nat (length signature) ->
  0 <= hash_length < 2 ^ 16 -> hash_length <= Z.of_nat (length hash) ->
  0 <= curve_type_from_nid H (nid pubkey_) ->
  malloc E t (2 * (CPRBXSIZE H + PARMBSIZE)) = true ->
  exists w xcrb len t' c pb1 pb2 kbl kb,
    make_ecdsa_verify_request H E pubkey_ hash hash_length signature t
    = (Some (w, xcrb, len), t')
    /\ map snd w = [ItCPRBX c; ItEcdsaPart1 pb1; ItEcdsaPart2 pb2;
                    ItKeyblockLength kbl; ItPublicKeyBlock kb]
    /\ request_consistent H (w, xcrb, len)
    /\ sg_vud1_len pb1 = 2 + Z.of_nat (length (sg_vud1 pb1))
    /\ sv_vud2_len pb2 = 2 + Z.of_nat (length (sv_vud2_data pb2))
    /\ sg_vud_len pb1 = 2 + sg_vud1_len pb1 + sv_vud2_len pb2
    /\ Z.of_nat (length (sv_vud2_data pb2))
       = 2 * privlen_from_nid H (nid pubkey_)
    /\ keyblock_len kbl = 2 + kb_key_len kb
    /\ kb_key_len kb = item_size H (ItPublicKeyBlock kb)
    /\ tkn_length (kb_tknhdr kb) = kb_key_len kb - 2 - 2
    /\ pb_section_len (kb_pubsec kb)
       = sizeof_ECC_PUBLIC_KEY_TOKEN H + Z.of_nat (length (kb_pubkey kb))
    /\ pub_q_bytelen (kb_pubsec kb) = Z.of_nat (length (kb_pubkey kb)) + 1.
Proof.
  intros (Hkbl & Hnk & Hptk & Hc & Hpb & Hh & Hps & Had & Hpt)
         (Hblk & Hp1 & Hp2 & Hkp & Hkt & Hnt)
         Hp HX HY Hx Hy Hs Hhl Hhb Hct Hm.
  unfold make_ecdsa_verify_request, alloc_cbrbmem, make_cprbx,
    get_default_domain, make_ecdsa_verify_parmblock, make_keyblock_length,
    make_ecdsa_public_key_token, finalize_xcrb.
  destruct (Z.ltb_spec (curve_type_from_nid H (nid pubkey_)) 0) as [?|_];
    [lia|].
  rewrite Hm, HX, HY. cbn [negb deref fst snd].
  set (P := privlen_from_nid H (nid pubkey_)) in *.
  assert (HP : u32 P = P) by (apply u32_small; lia).
  rewrite !HP.
  assert (HP2 : u32 (2 * P) = 2 * P) by (apply u32_small; lia).
  rewrite !HP2.
  do 9 eexists. split; [reflexivity|].
  unfold request_consistent, wire_bytes.
  wire_fields.
  rewrite !length_app, !Nat2Z.inj_add.
  rewrite !length_firstn_exact by lia.
  rewrite Hkbl, Hblk.
  drop_u32.
  split; [reflexivity|].
  repeat split; wire_fields;
    rewrite ?length_app, ?Nat2Z.inj_add, ?length_firstn_exact by lia;
    try reflexivity; try lia.
  do 2 eexists. split; [reflexivity|]. wire_fields.
  rewrite ?length_app, ?Nat2Z.inj_add, ?length_firstn_exact by lia.
  rewrite ?Hkbl, ?Hblk.
  repeat split; try reflexivity; try lia.
Qed.

Lemma ecdsa_verify_request_lengths_witness :
  exists w xcrb len t' c pb1 pb2 kbl kb,
    make_ecdsa_verify_request sample_header (quiet_environ blank_reply)
      sample_p256_key (repeat 0xAB 20) 20 (repeat 6 64) []
    = (Some (w, xcrb, len), t')
    /\ map snd w = [ItCPRBX c; ItEcdsaPart1 pb1; ItEcdsaPart2 pb2;
                    ItKeyblockLength kbl; ItPublicKeyBlock kb]
    /\ request_consistent sample_header (w, xcrb, len)
    /\ sg_vud1_len pb1 = 2 + Z.of_nat (length (sg_vud1 pb1))
    /\ sv_vud2_len pb2 = 2 + Z.of_nat (length (sv_vud2_data pb2))
    /\ sg_vud_len pb1 = 2 + sg_vud1_len pb1 + sv_vud2_len pb2
    /\ Z.of_nat (length (sv_vud2_data pb2))
       = 2 * privlen_from_nid sample_header (nid sample_p256_key)
    /\ keyblock_len kbl = 2 + kb_key_len kb
    /\ kb_key_len kb = item_size sample_header (ItPublicKeyBlock kb)
    /\ tkn_length (kb_tknhdr kb) = kb_key_len kb - 2 - 2
    /\ pb_section_len (kb_pubsec kb)
       = sizeof_ECC_PUBLIC_KEY_TOKEN sample_header
         + Z.of_nat (length (kb_pubkey kb))
    /\ pub_q_bytelen (kb_pubsec kb) = Z.of_nat (length (kb_pubkey kb)) + 1.
Proof.
  apply (ecdsa_verify_request_lengths sample_header
           (quiet_environ blank_reply) sample_p256_key (repeat 0xAB 20)
           (repeat 6 64) 20 [] (repeat 2 32) (repeat 3 32)
           sample_packed sample_packed_ecdsa);
    try reflexivity;
    vm_compute; first [ split; [discriminate | reflexivity] | discriminate ].
Defined.

(** X11. The length fields of the key generation request.
    [make_eckeygen_request] lays out a [CPRBX], the parameter block, the
    key block length, a skeleton key token and a null token, one behind
    the other. The lengths of the [xcrb] and of the [CPRBX] are those of
    what was written; the key block length covers itself and both tokens;
    the skeleton token announces no key material. *)
Theorem eckeygen_request_lengths (H : header) (E : environ)
    (key : ICA_EC_KEY) (t : trace) :
  packed_layout H -> packed_layout_ecdsa H ->
  0 <= curve_type_from_nid H (nid key) ->
  malloc E t (2 * (CPRBXSIZE H + PARMBSIZE)) = true ->
  exists w xcrb len t' c pb kbl k nt,
    make_eckeygen_request H E key t = (Some (w, xcrb, len), t')
    /\ map snd w = [ItCPRBX c; ItEckeygenParmblock pb; ItKeyblockLength kbl;
                    ItEckeygenKeyToken k; ItNullToken nt]
    /\ request_consistent H (w, xcrb, len)
    /\ keyblock_len kbl = 2 + kg_key_len k + sizeof_ECC_NULL_TOKEN H
    /\ kg_key_len k = sizeof_ECKEYGEN_KEY_TOKEN H
    /\ tkn_length (kg_tknhdr k) = kg_key_len k - 2 - 2
    /\ formatted_data_len (kg_privsec k) = 0
    /\ pub_q_bytelen (kg_pubsec k) = 0.
Proof.
  intros (Hkbl & Hnk & Hptk & Hc & Hpb & Hh & Hps & Had & Hpt)
         (Hblk & Hp1 & Hp2 & Hkp & Hkt & Hnt) Hct Hm.
  unfold make_eckeygen_request, alloc_cbrbmem, make_cprbx,
    get_default_domain, make_eckeygen_parmblock, make_keyblock_length,
    make_eckeygen_private_key_token, make_ecc_null_token, finalize_xcrb.
  destruct (Z.ltb_spec (curve_type_from_nid H (nid key)) 0) as [?|_];
    [lia|].
  rewrite Hm. cbn [negb fst snd].
  do 9 eexists. split; [reflexivity|].
  unfold request_consistent, wire_bytes.
  wire_fields.
  rewrite Hkbl.
  drop_u32.
  split; [reflexivity|].
  repeat split; wire_fields; try reflexivity; try lia.
  do 2 eexists. split; [reflexivity|]. wire_fields.
  rewrite ?Hkbl.
  repeat split; try reflexivity; try lia.
Qed.

Lemma eckeygen_request_lengths_witness :
  exists w xcrb len t' c pb kbl k nt,
    make_eckeygen_request sample_header (quiet_environ blank_reply)
                          sample_p256_key []
    = (Some (w, xcrb, len), t')
    /\ map snd w = [ItCPRBX c; ItEckeygenParmblock pb;
                    ItKeyblockLength kbl; ItEckeygenKeyToken k;
                    ItNullToken nt]
    /\ request_consistent sample_header (w, xcrb, len)
    /\ keyblock_len kbl
       = 2 + kg_key_len k + sizeof_ECC_NULL_TOKEN sample_header
    /\ kg_key_len k = sizeof_ECKEYGEN_KEY_TOKEN sample_header
    /\ tkn_length (kg_tknhdr k) = kg_key_len k - 2 - 2
    /\ formatted_data_len (kg_privsec k) = 0
    /\ pub_q_bytelen (kg_pubsec k) = 0.
Proof.
  apply (eckeygen_request_lengths sample_header (quiet_environ blank_reply)
           sample_p256_key [] sample_packed sample_packed_ecdsa);
    try reflexivity; vm_compute; discriminate.
Defined.

(** X12. The length fields of the ECDH request. [make_ecdh_request] lays
    its structures out one behind the other from the start of the
    allocation; the request length of the [xcrb] is the bytes they take
    up, the [CPRBX] in front announces the bytes behind it as its
    parameter block, and the reply is expected in the second half of the
    allocation. *)
Theorem ecdh_request_lengths (H : header) (E : environ)
    (privkey_A pubkey_B : ICA_EC_KEY) (t : trace) (d x y : list Z) :
  packed_layout H ->
  0 <= privlen_from_nid H (nid privkey_A) < 2 ^ 16 ->
  D privkey_A = Some d -> X pubkey_B = Some x -> Y pubkey_B = Some y ->
  privlen_from_nid H (nid privkey_A) <= Z.of_nat (length d) ->
  privlen_from_nid H (nid privkey_A) <= Z.of_nat (length x) ->
  privlen_from_nid H (nid privkey_A) <= Z.of_nat (length y) ->
  0 <= curve_type_from_nid H (nid privkey_A) ->
  malloc E t (2 * (CPRBXSIZE H + PARMBSIZE)) = true ->
  exists w xcrb len t',
    make_ecdh_request H E privkey_A pubkey_B t = (Some (w, xcrb, len), t')
    /\ request_consistent H (w, xcrb, len).
Proof.
  intros (Hkbl & Hnk & Hptk & Hc & Hpb & Hh & Hps & Had & Hpt)
         Hp HD HX HY Hd Hx Hy Hct Hm.
  unfold make_ecdh_request, alloc_cbrbmem, make_cprbx, get_default_domain,
    make_ecdh_parmblock, make_keyblock_length, make_nullkey,
    make_ecdh_key_token, key_token_items, finalize_xcrb.
  destruct (Z.ltb_spec (curve_type_from_nid H (nid privkey_A)) 0) as [?|_];
    [lia|].
  rewrite Hm, HD, HX, HY. cbn [negb deref fst snd].
  set (P := privlen_from_nid H (nid privkey_A)) in *.
  assert (HP : u32 P = P) by (apply u32_small; lia).
  rewrite !HP.
  do 4 eexists. split; [reflexivity|].
  unfold request_consistent, wire_bytes.
  wire_fields.
  rewrite !length_app, !Nat2Z.inj_add.
  rewrite !length_firstn_exact by lia.
  rewrite Hkbl, Hnk, Hptk.
  drop_u32.
  repeat split; wire_fields;
    rewrite ?length_app, ?Nat2Z.inj_add, ?length_firstn_exact by lia;
    try reflexivity; try lia.
  do 2 eexists. split; [reflexivity|]. wire_fields.
  rewrite ?length_app, ?Nat2Z.inj_add, ?length_firstn_exact by lia.
  rewrite ?Hkbl, ?Hnk, ?Hptk.
  repeat split; try reflexivity; try lia.
Qed.

Lemma ecdh_request_lengths_witness :
  exists w xcrb len t',
    make_ecdh_request sample_header (quiet_environ blank_reply)
                      sample_private_key sample_peer_key []
    = (Some (w, xcrb, len), t')
    /\ request_consistent sample_header (w, xcrb, len).
Proof.
  apply (ecdh_request_lengths sample_header (quiet_environ blank_reply)
           sample_private_key sample_peer_key [] (repeat 1 32)
           (repeat 4 32) (repeat 5 32) sample_packed);
    try reflexivity;
    vm_compute; first [ split; [discriminate | reflexivity] | discriminate ].
Defined.

(** ** The public key of a private key, [provide_pubkey] *)

Lemma point_muls_app (l m : trace) :
  point_muls (l ++ m) = (point_muls l + point_muls m)%nat.
Proof. unfold point_muls. rewrite filter_app, length_app. reflexivity. Qed.

(** X13. The contract of [provide_pubkey]. When it returns, it returns 0
    or [EFAULT], on [EFAULT] the two output buffers are as they were,
    and at most one point multiplication was requested. A negative key
    length is refused before any call is made. A key that carries both
    coordinates has them copied without a single call. For a key that
    lacks a coordinate the function does not test three allocations:
    when [EC_KEY_new_by_curve_name] or [EC_POINT_new] fails, or when
    [BN_new] fails and the coordinates are fetched, the [NULL] is passed
    on and the call faults instead of returning; when the three
    allocations succeed, it returns. *)
Theorem provide_pubkey_contract :
  forall (H : header) (E : environ) (key : ICA_EC_KEY) (X0 Y0 : list Z)
         (t : trace),
    let privlen := privlen_from_nid H (nid key) in
    let d := be_value (firstn (Z.to_nat privlen) (deref (D key))) in
    let r := provide_pubkey H E key X0 Y0 t in
    let new_key := call_EC_KEY_new_by_curve_name (nid key) in
    let t1 := t ++ [EvOpenSSL call_BN_bin2bn] in
    let t2 := t1 ++ [EvOpenSSL new_key] in
    let t3 := t2 ++ [EvOpenSSL call_EC_POINT_new] in
    let t4 := t3 ++ [EvEC_POINT_mul (nid key) d] in
    (forall rc X1 Y1 t',
        r = Some (rc, X1, Y1, t') ->
        (rc = 0 \/ rc = EFAULT)
        /\ (rc = EFAULT -> X1 = X0 /\ Y1 = Y0)
        /\ (point_muls (since t t') <= 1)%nat)
    /\ (privlen < 0 -> r = Some (EFAULT, X0, Y0, t))
    /\ (forall kx ky,
          0 <= privlen -> X key = Some kx -> Y key = Some ky ->
          r = Some (0, memcpy X0 0 kx (Z.to_nat privlen),
                    memcpy Y0 0 ky (Z.to_nat privlen), t))
    /\ (0 <= privlen -> X key = None \/ Y key = None ->
        openssl_ok E t call_BN_bin2bn = true ->
        (openssl_ok E t1 new_key = false -> r = None)
        /\ (openssl_ok E t1 new_key = true ->
            openssl_ok E t2 call_EC_POINT_new = false -> r = None)
        /\ (forall pt xy,
              openssl_ok E t1 new_key = true ->
              openssl_ok E t2 call_EC_POINT_new = true ->
              EC_POINT_mul E t3 (nid key) d = Some pt ->
              openssl_ok E t4 call_BN_new = false
              \/ openssl_ok E (t4 ++ [EvOpenSSL call_BN_new]) call_BN_new
                 = false ->
              EC_POINT_get_affine_coordinates_GFp E
                (t4 ++ [EvOpenSSL call_BN_new; EvOpenSSL call_BN_new])
                (nid key) pt = Some xy ->
              r = None))
    /\ ((forall th, openssl_ok E th new_key = true) ->
        (forall th, openssl_ok E th call_EC_POINT_new = true) ->
        (forall th, openssl_ok E th call_BN_new = true) ->
        exists res, r = Some res).
Proof.
  intros H E key X0 Y0 t privlen d r new_key t1 t2 t3 t4.
  split; [|split; [|split; [|split]]].
  - intros rc X1 Y1 t'. subst r.
    unfold provide_pubkey, BN_bin2bn, openssl. fold privlen.
    cbv beta iota zeta.
    repeat match goal with
           | |- context [if ?b then _ else _] => destruct b
           | |- context [match ?c with Some _ => _ | None => _ end] =>
               destruct c as [?|]
           | |- context [let (_, _) := ?p in _] => destruct p
           end;
      intros Hr; try discriminate Hr; injection Hr as <- <- <- <-;
      rewrite <- ?app_assoc;
      first [ rewrite since_app | rewrite since_refl ];
      (split; [first [left; reflexivity | right; reflexivity] |]);
      (split; [first [discriminate | intros _; split; reflexivity] |]);
      first [ apply Nat.le_0_l | apply Nat.leb_le; reflexivity ].
  - intros Hneg. subst r. unfold provide_pubkey. fold privlen.
    destruct (Z.ltb_spec privlen 0); [reflexivity | lia].
  - intros kx ky Hpos HX HY. subst r. unfold provide_pubkey. fold privlen.
    destruct (Z.ltb_spec privlen 0); [lia|]. rewrite HX, HY. reflexivity.
  - intros Hpos Habs Hbn. subst r t4 t3 t2 t1 new_key.
    unfold provide_pubkey, BN_bin2bn, openssl. fold privlen.
    destruct (Z.ltb_spec privlen 0); [lia|].
    destruct (X key) as [kx|], (Y key) as [ky|];
      try (destruct Habs; discriminate);
      cbv beta iota zeta; rewrite Hbn; cbv beta iota zeta; fold d;
      (split;
       [ intros Hk; rewrite Hk; reflexivity
       | split;
         [ intros Hk Hp; rewrite Hk; cbn [negb]; rewrite Hp; reflexivity
         | intros pt xy Hk Hp Hmul Hb Haff;
           rewrite Hk; cbn [negb]; rewrite Hp; cbn [negb];
           rewrite Hmul; rewrite <- ?app_assoc in *; cbn [app] in *;
           rewrite Haff; destruct xy as [bn_x bn_y];
           destruct Hb as [Hb|Hb]; rewrite Hb; cbn [negb orb];
           rewrite ?orb_true_r; reflexivity ] ]).
  - intros Hk Hp Hb. subst r.
    apply provide_pubkey_returns; assumption.
Qed.

(** ** Histories of the remaining entry points *)

Lemma core_app (s s' : lib_trace) : core (s ++ s') = core s ++ core s'.
Proof. unfold core. apply flat_map_app. Qed.

Lemma core_Core (l : trace) : core (map Core l) = l.
Proof.
  induction l as [|e l IH]; [reflexivity|].
  cbn [map]. change (core (Core e :: map Core l)) with (e :: core (map Core l)).
  rewrite IH. reflexivity.
Qed.

(** A function that appends [l] to its history, run inside [s]. *)
Lemma lift_app {A : Type} (f : trace -> A * trace) (s : lib_trace) (a : A)
    (l : trace) :
  f (core s) = (a, core s ++ l) -> lift f s = (a, s ++ map Core l).
Proof.
  intros Hf. unfold lift. rewrite Hf, since_app. reflexivity.
Qed.

Lemma lift_openssl (E : environ) (c : openssl_call) (s : lib_trace) :
  lift (openssl E c) s
  = (openssl_ok E (core s) c, s ++ [Core (EvOpenSSL c)]).
Proof. apply (lift_app _ s _ [EvOpenSSL c]). reflexivity. Qed.

Lemma lift_BN_bin2bn (E : environ) (bytes : list Z) (len : Z)
    (s : lib_trace) :
  lift (BN_bin2bn E bytes len) s
  = ((if openssl_ok E (core s) call_BN_bin2bn
      then Some (be_value (firstn (Z.to_nat len) bytes)) else None),
     s ++ [Core (EvOpenSSL call_BN_bin2bn)]).
Proof. apply (lift_app _ s _ [EvOpenSSL call_BN_bin2bn]). reflexivity. Qed.

Lemma lift_scalar_mulx_cpacf_ladder (H : header) (E : environ)
    (s : lib_trace) (pub priv u : list Z) (curve : Z) (f : pcc_function)
    (block : list Z) (width len : nat) :
  scalar_mulx_cpacf H E (Some pub) priv u curve (core s)
  = ladder_result H E (core s) f block width len ->
  lift (scalar_mulx_cpacf H E (Some pub) priv u curve) s
  = (fst (ladder_result H E (core s) f block width len),
     s ++ [Core (EvPcc (s390_pcc_functions H f) block)]).
Proof.
  intros Hl.
  apply (lift_app _ s _ [EvPcc (s390_pcc_functions H f) block]).
  rewrite Hl. reflexivity.
Qed.

(** X14. [x25519_derive_pub] and [x448_derive_pub] are the ladder on the
    base point. Each makes one invocation of the ladder instruction on the
    private key and the base point [u = 9], respectively [u = 5], writes
    the byte-reversed result field to [pub], and returns 0 at condition
    code 0 and [EIO] otherwise. The key generation counter is incremented
    in both cases. *)
Theorem montgomery_derive_pub :
  forall (H : header) (E : environ) (s : lib_trace)
         (pub25 priv25 pub448 priv448 : list Z),
    privlen_from_nid H NID_X25519 = 32 ->
    privlen_from_nid H NID_X448 = 56 ->
    length priv25 = 32%nat -> length pub25 = 32%nat ->
    length priv448 = 56%nat -> length pub448 = 56%nat ->
    in_place (s390_pcc E) ->
    let fc25 := s390_pcc_functions H SCALAR_MULTIPLY_X25519 in
    let block25 := x25519_block priv25 x25519_base_u in
    let r25 := s390_pcc E (core s) fc25 block25 in
    let fc448 := s390_pcc_functions H SCALAR_MULTIPLY_X448 in
    let block448 := x448_block priv448 x448_base_u in
    let r448 := s390_pcc E (core s) fc448 block448 in
    x25519_derive_pub H E pub25 priv25 s
    = ((if fst r25 =? 0 then 0 else EIO),
       rev (load (snd r25) 0 32),
       s ++ [Core (EvPcc fc25 block25);
             EvStats_increment ICA_STATS_X25519_KEYGEN])
    /\ x448_derive_pub H E pub448 priv448 s
       = ((if fst r448 =? 0 then 0 else EIO),
          rev (load (snd r448) 8 56),
          s ++ [Core (EvPcc fc448 block448);
                EvStats_increment ICA_STATS_X448_KEYGEN]).
Proof.
  intros H E s pub25 priv25 pub448 priv448 Hp25 Hp448 Hs25 Hb25 Hs448 Hb448
         Hin fc25 block25 r25 fc448 block448 r448.
  split.
  - unfold x25519_derive_pub.
    rewrite (lift_scalar_mulx_cpacf_ladder H E s pub25 priv25 x25519_base_u
               NID_X25519 SCALAR_MULTIPLY_X25519 block25 32 32)
      by (apply scalar_mulx_cpacf_x25519; auto).
    unfold ladder_result. cbn [fst snd]. fold fc25 r25.
    rewrite <- app_assoc. reflexivity.
  - unfold x448_derive_pub.
    rewrite (lift_scalar_mulx_cpacf_ladder H E s pub448 priv448 x448_base_u
               NID_X448 SCALAR_MULTIPLY_X448 block448 64 56)
      by (apply scalar_mulx_cpacf_x448; auto).
    unfold ladder_result. cbn [fst snd]. fold fc448 r448.
    rewrite <- app_assoc. reflexivity.
Qed.

Lemma montgomery_derive_pub_witness :
  let E := with_condition_code 3 (quiet_environ blank_reply) in
  let block25 := x25519_block (repeat 255 32) x25519_base_u in
  let block448 := x448_block (repeat 255 56) x448_base_u in
  x25519_derive_pub sample_header E (zeros 32) (repeat 255 32) []
  = (EIO, rev (load block25 0 32),
     [Core (EvPcc 80 block25); EvStats_increment ICA_STATS_X25519_KEYGEN])
  /\ x448_derive_pub sample_header E (zeros 56) (repeat 255 56) []
     = (EIO, rev (load block448 8 56),
        [Core (EvPcc 81 block448);
         EvStats_increment ICA_STATS_X448_KEYGEN]).
Proof.
  intros E block25 block448.
  apply (montgomery_derive_pub sample_header E []
           (zeros 32) (repeat 255 32) (zeros 56) (repeat 255 56));
    try reflexivity.
  intros t fc param. reflexivity.
Defined.

(** ** The public key of Ed25519 *)

Lemma memcpy_firstn_src (dst src : list Z) (off n : nat) :
  memcpy dst off (firstn n src) n = memcpy dst off src n.
Proof. unfold memcpy. rewrite firstn_firstn, Nat.min_id. reflexivity. Qed.

(** [scalar_mul_cpacf] reads no more of its scalar than the byte length
    of the curve. *)
Lemma scalar_mul_cpacf_scalar_prefix (H : header) (E : environ)
    (res_x res_y : option (list Z)) (scalar x y : list Z) (curve_nid : Z)
    (t : trace) (size : nat) (f : pcc_function) :
  pcc_layout curve_nid = Some (size, f) ->
  (privlen_size H curve_nid <= size)%nat ->
  scalar_mul_cpacf H E res_x res_y scalar x y curve_nid t
  = scalar_mul_cpacf H E res_x res_y
      (firstn (privlen_size H curve_nid) scalar) x y curve_nid t.
Proof.
  intros Hl Hlen.
  destruct (scalar_mul_cpacf_case H E res_x res_y scalar x y curve_nid t
              size f Hl) as [-> _].
  destruct (scalar_mul_cpacf_case H E res_x res_y
              (firstn (privlen_size H curve_nid) scalar) x y curve_nid t
              size f Hl) as [-> _].
  unfold scalar_mul_case.
  replace (size - (size - privlen_size H curve_nid))%nat
    with (privlen_size H curve_nid) by lia.
  rewrite memcpy_firstn_src. reflexivity.
Qed.

Lemma length_update_byte (buf : list Z) (i : nat) (f : Z -> Z) :
  (i < length buf)%nat -> length (update_byte buf i f) = length buf.
Proof.
  intros Hi. unfold update_byte. apply length_memcpy; simpl; lia.
Qed.

Lemma ed25519_scalar_be (digest : list Z) :
  length digest = 64%nat ->
  firstn 32
    (s390_flip_endian_32
       (update_byte
          (update_byte
             (update_byte digest 0 (fun b => Z.land b (-8) mod 256))
             31 (fun b => Z.land b 0x3f))
          31 (fun b => Z.lor b 0x40)) 0)
  = rev (mapi ed25519_scalar_byte (firstn 32 digest)).
Proof.
  intros Hd.
  do 65 (destruct digest as [|? digest]; try discriminate Hd).
  reflexivity.
Qed.

Lemma ed25519_encode (x y : list Z) :
  length x = 32%nat -> length y = 32%nat ->
  s390_flip_endian_32
    (update_byte (s390_flip_endian_32 y 0) 31
       (fun b =>
          Z.lor b
            (Z.shiftl (Z.land (nth 0 (s390_flip_endian_32 x 0) 0) 0x01) 7)))
    0
  = encode_point x y.
Proof.
  intros Hx Hy.
  do 33 (destruct x as [|? x]; try discriminate Hx).
  do 33 (destruct y as [|? y]; try discriminate Hy).
  reflexivity.
Qed.

Lemma length_scalar_mul_block (size : nat) (scalar x y : list Z) :
  (5 * size <= PARAM_BYTES)%nat ->
  (length scalar <= size)%nat -> (length x <= size)%nat ->
  (length y <= size)%nat ->
  length (scalar_mul_block size scalar x y) = PARAM_BYTES.
Proof.
  intros Hs Hsc Hx Hy. unfold scalar_mul_block.
  rewrite !length_app, !length_right_aligned, !length_zeros by assumption.
  lia.
Qed.

(** X15. [ed25519_derive_pub]. The scalar is the first 32 bytes of the
    SHA-512 digest of the private key, pruned (lowest three bits cleared,
    top bit cleared, second highest bit set) and turned big-endian; the
    instruction multiplies the base point by it once. At condition code 0
    the result is [y] with the lowest bit of [x] in the top bit of its
    first byte, and the key generation is counted. Otherwise the function
    returns [EIO], counts nothing, and [pub] has been overwritten with the
    second result field of the answer. *)
Theorem ed25519_derive_pub_encodes_point :
  forall (H : header) (E : environ) (L : library) (s : lib_trace)
         (res_x0 pub priv digest : list Z),
    privlen_from_nid H NID_ED25519 = 32 ->
    length res_x0 = 32%nat -> length pub = 32%nat ->
    s390_sha512 L s (firstn 32 priv) = (0, digest) ->
    length digest = 64%nat ->
    in_place (s390_pcc E) ->
    let s1 := s ++ [EvSha512 (firstn 32 priv)] in
    let scalar := rev (mapi ed25519_scalar_byte (firstn 32 digest)) in
    let fc := s390_pcc_functions H SCALAR_MULTIPLY_ED25519 in
    let block :=
      scalar_mul_block 32 scalar ed25519_base_x ed25519_base_y in
    let r := s390_pcc E (core s1) fc block in
    let x := load (snd r) 0 32 in
    let y := load (snd r) 32 32 in
    ed25519_derive_pub H E L res_x0 pub priv s
    = if fst r =? 0
      then (0, encode_point x y,
            s1 ++ [Core (EvPcc fc block);
                   EvStats_increment ICA_STATS_ED25519_KEYGEN])
      else (EIO, y, s1 ++ [Core (EvPcc fc block)]).
Proof.
  intros H E L s res_x0 pub priv digest Hp Hr0 Hpub Hsha Hd Hin
         s1 scalar fc block r x y.
  unfold ed25519_derive_pub. rewrite Hsha. cbn [negb Z.eqb].
  fold s1.
  assert (Hlen : privlen_size H NID_ED25519 = 32%nat).
  { unfold privlen_size. rewrite Hp. reflexivity. }
  set (buf := s390_flip_endian_32 _ 0).
  assert (Hbuf : firstn 32 buf = scalar).
  { unfold buf, scalar. apply ed25519_scalar_be. exact Hd. }
  assert (Hls : length scalar = 32%nat).
  { unfold scalar, mapi.
    rewrite length_rev, length_map, length_combine, length_seq,
      length_firstn.
    lia. }
  assert (Hrun :
    scalar_mul_cpacf H E (Some res_x0) (Some pub) buf ed25519_base_x
                     ed25519_base_y NID_ED25519 (core s1)
    = ((if fst r =? 0 then 0 else EIO), Some x, Some y,
       OPENSSL_cleanse (snd r) 0 PARAM_BYTES,
       core s1 ++ [EvPcc fc block])).
  { rewrite (scalar_mul_cpacf_scalar_prefix H E _ _ buf _ _ NID_ED25519
               (core s1) 32 SCALAR_MULTIPLY_ED25519 eq_refl)
      by (rewrite Hlen; lia).
    rewrite Hlen, Hbuf.
    rewrite (scalar_mul_cpacf_supported H E (core s1) NID_ED25519 32
               SCALAR_MULTIPLY_ED25519 (Some res_x0) (Some pub) scalar
               ed25519_base_x ed25519_base_y eq_refl)
      by (rewrite ?Hlen; auto).
    rewrite Hlen. fold fc block r. cbn [option_map].
    assert (Lo : length (snd r) = PARAM_BYTES).
    { unfold r. rewrite Hin. apply length_scalar_mul_block;
        rewrite ?Hls; simpl; unfold PARAM_BYTES; lia. }
    rewrite !memcpy_whole
      by (assumption || (apply length_load; rewrite Lo;
                         unfold PARAM_BYTES; lia)).
    reflexivity. }
  rewrite (lift_app _ s1 _ [EvPcc fc block] Hrun).
  assert (Lo : length (snd r) = PARAM_BYTES).
  { unfold r. rewrite Hin. apply length_scalar_mul_block;
      rewrite ?Hls; simpl; unfold PARAM_BYTES; lia. }
  destruct (fst r =? 0); cbn [negb Z.eqb map].
  - rewrite ed25519_encode
      by (apply length_load; rewrite Lo; unfold PARAM_BYTES; lia).
    rewrite <- app_assoc. reflexivity.
  - reflexivity.
Qed.

Lemma ed25519_derive_pub_encodes_point_witness :
  let E := quiet_environ blank_reply in
  let scalar :=
    rev (mapi ed25519_scalar_byte (firstn 32 (repeat 0xFF 64))) in
  let block := scalar_mul_block 32 scalar ed25519_base_x ed25519_base_y in
  ed25519_derive_pub sample_header E quiet_library (repeat 4 32) (zeros 32)
                     (repeat 1 32) []
  = (0, encode_point (load block 0 32) (load block 32 32),
     [EvSha512 (repeat 1 32); Core (EvPcc 72 block);
      EvStats_increment ICA_STATS_ED25519_KEYGEN]).
Proof.
  intros E scalar block.
  apply (ed25519_derive_pub_encodes_point sample_header E quiet_library []
           (repeat 4 32) (zeros 32) (repeat 1 32) (repeat 0xFF 64));
    try reflexivity.
  intros t fc param. reflexivity.
Defined.

(** ** The public key of Ed448 *)

Lemma ed448_scalar_be (digest : list Z) :
  length digest = 114%nat ->
  firstn 57
    (skipn (64 - 57)
       (s390_flip_endian_64
          (update_byte
             (update_byte
                (update_byte (memcpy digest 57 (zeros 57) 57) 0
                   (fun b => Z.land b (-4) mod 256))
                55 (fun b => Z.lor b 0x80))
             56 (fun _ => 0)) 0))
  = rev (mapi ed448_scalar_byte (firstn 57 digest)).
Proof.
  intros Hd.
  do 115 (destruct digest as [|? digest]; try discriminate Hd).
  reflexivity.
Qed.

Lemma ed448_encode (x y : list Z) :
  length x = 57%nat -> length y = 57%nat ->
  skipn (64 - 57)
    (s390_flip_endian_64
       (update_byte
          (s390_flip_endian_64 (firstn (64 - 57) (zeros 64) ++ y) 0) 56
          (fun b =>
             Z.lor b
               (Z.shiftl
                  (Z.land
                     (nth 0
                        (s390_flip_endian_64
                           (firstn (64 - 57) (zeros 64) ++ x) 0) 0)
                     0x01) 7)))
       0)
  = encode_point x y.
Proof.
  intros Hx Hy.
  do 58 (destruct x as [|? x]; try discriminate Hx).
  do 58 (destruct y as [|? y]; try discriminate Hy).
  reflexivity.
Qed.

Lemma length_encode_point (x y : list Z) :
  (0 < length y)%nat -> length (encode_point x y) = length y.
Proof. intros Hy. unfold encode_point. apply length_update_byte. exact Hy. Qed.

(** X16. [ed448_derive_pub]. The scalar is the first 57 bytes of the
    114-byte SHAKE-256 digest of the private key, pruned (lowest two bits
    cleared, top bit of byte 55 set, byte 56 cleared) and turned
    big-endian; the instruction multiplies the base point by it once. At
    condition code 0 the result is the 57-byte [y] with the lowest bit of
    [x] in the top bit of its first byte, and the key generation is
    counted. Otherwise the function returns [EIO], counts nothing and
    leaves [pub] as it was. *)
Theorem ed448_derive_pub_encodes_point :
  forall (H : header) (E : environ) (L : library) (s : lib_trace)
         (pub priv digest : list Z),
    privlen_from_nid H NID_ED448 = 57 ->
    length pub = 57%nat ->
    s390_shake_256 L s (firstn 57 priv) 114 = (0, digest) ->
    length digest = 114%nat ->
    in_place (s390_pcc E) ->
    let s1 := s ++ [EvShake256 (firstn 57 priv) 114] in
    let scalar := rev (mapi ed448_scalar_byte (firstn 57 digest)) in
    let fc := s390_pcc_functions H SCALAR_MULTIPLY_ED448 in
    let block := scalar_mul_block 64 scalar ed448_base_x ed448_base_y in
    let r := s390_pcc E (core s1) fc block in
    let x := load (snd r) 7 57 in
    let y := load (snd r) (64 + 7) 57 in
    ed448_derive_pub H E L pub priv s
    = if fst r =? 0
      then (0, encode_point x y,
            s1 ++ [Core (EvPcc fc block);
                   EvStats_increment ICA_STATS_ED448_KEYGEN])
      else (EIO, pub, s1 ++ [Core (EvPcc fc block)]).
Proof.
  intros H E L s pub priv digest Hp Hpub Hsha Hd Hin
         s1 scalar fc block r x y.
  unfold ed448_derive_pub. rewrite Hsha. cbn [negb Z.eqb].
  fold s1.
  assert (Hlen : privlen_size H NID_ED448 = 57%nat).
  { unfold privlen_size. rewrite Hp. reflexivity. }
  set (buf := s390_flip_endian_64 _ 0).
  assert (Hbuf : firstn 57 (skipn (64 - 57) buf) = scalar).
  { unfold buf, scalar. apply ed448_scalar_be. exact Hd. }
  assert (Hls : length scalar = 57%nat).
  { unfold scalar, mapi.
    rewrite length_rev, length_map, length_combine, length_seq,
      length_firstn.
    lia. }
  assert (Lo : length (snd r) = PARAM_BYTES).
  { unfold r. rewrite Hin. apply length_scalar_mul_block;
      rewrite ?Hls; simpl; unfold PARAM_BYTES; lia. }
  assert (Hrun :
    scalar_mul_cpacf H E (Some (skipn (64 - 57) (zeros 64)))
                     (Some (skipn (64 - 57) (zeros 64)))
                     (skipn (64 - 57) buf) ed448_base_x
                     ed448_base_y NID_ED448 (core s1)
    = ((if fst r =? 0 then 0 else EIO), Some x, Some y,
       OPENSSL_cleanse (snd r) 0 PARAM_BYTES,
       core s1 ++ [EvPcc fc block])).
  { rewrite (scalar_mul_cpacf_scalar_prefix H E _ _ (skipn (64 - 57) buf)
               _ _ NID_ED448 (core s1) 64 SCALAR_MULTIPLY_ED448 eq_refl)
      by (rewrite Hlen; lia).
    rewrite Hlen, Hbuf.
    rewrite (scalar_mul_cpacf_supported H E (core s1) NID_ED448 64
               SCALAR_MULTIPLY_ED448 _ _ scalar
               ed448_base_x ed448_base_y eq_refl)
      by (rewrite ?Hlen; auto; lia).
    rewrite Hlen. fold fc block r. cbn [option_map].
    rewrite !memcpy_whole
      by (reflexivity || (apply length_load; rewrite Lo;
                          unfold PARAM_BYTES; lia)).
    reflexivity. }
  rewrite (lift_app _ s1 _ [EvPcc fc block] Hrun).
  destruct (fst r =? 0); cbn [negb Z.eqb map].
  - rewrite ed448_encode
      by (apply length_load; rewrite Lo; unfold PARAM_BYTES; lia).
    rewrite memcpy_whole.
    + rewrite <- app_assoc. reflexivity.
    + exact Hpub.
    + assert (Ly : length y = 57%nat)
        by (unfold y; apply length_load; rewrite Lo; unfold PARAM_BYTES; lia).
      fold x y. rewrite length_encode_point; lia.
  - reflexivity.
Qed.

Lemma ed448_derive_pub_encodes_point_witness :
  let E := quiet_environ blank_reply in
  let scalar :=
    rev (mapi ed448_scalar_byte (firstn 57 (repeat 0xFF 114))) in
  let block := scalar_mul_block 64 scalar ed448_base_x ed448_base_y in
  ed448_derive_pub sample_header E quiet_library (zeros 57) (repeat 1 57) []
  = (0, encode_point (load block 7 57) (load block 71 57),
     [EvShake256 (repeat 1 57) 114; Core (EvPcc 73 block);
      EvStats_increment ICA_STATS_ED448_KEYGEN]).
Proof.
  intros E scalar block.
  apply (ed448_derive_pub_encodes_point sample_header E quiet_library []
           (zeros 57) (repeat 1 57) (repeat 0xFF 114));
    try reflexivity.
  intros t fc param. reflexivity.
Defined.

(** X17. Failures of [ed25519_derive_pub] and [ed448_derive_pub]. When the
    hash function fails, its code is returned as it is, [pub] is untouched
    and no instruction is invoked. [ed448_derive_pub] leaves [pub]
    untouched whenever it returns a non-zero code. *)
Theorem edwards_derive_pub_failure :
  forall (H : header) (E : environ) (L : library) (s : lib_trace)
         (res_x0 pub priv : list Z),
    (fst (s390_sha512 L s (firstn 32 priv)) <> 0 ->
     ed25519_derive_pub H E L res_x0 pub priv s
     = (fst (s390_sha512 L s (firstn 32 priv)), pub,
        s ++ [EvSha512 (firstn 32 priv)]))
    /\ (fst (s390_shake_256 L s (firstn 57 priv) 114) <> 0 ->
        ed448_derive_pub H E L pub priv s
        = (fst (s390_shake_256 L s (firstn 57 priv) 114), pub,
           s ++ [EvShake256 (firstn 57 priv) 114]))
    /\ (fst (fst (ed448_derive_pub H E L pub priv s)) <> 0 ->
        snd (fst (ed448_derive_pub H E L pub priv s)) = pub).
Proof.
  intros H E L s res_x0 pub priv. split; [|split]; intros Hrc.
  - unfold ed25519_derive_pub.
    destruct (s390_sha512 L s (firstn 32 priv)) as [rc buf].
    cbn [fst] in *. destruct (Z.eqb_spec rc 0); [contradiction|].
    reflexivity.
  - unfold ed448_derive_pub.
    destruct (s390_shake_256 L s (firstn 57 priv) 114) as [rc buf].
    cbn [fst] in *. destruct (Z.eqb_spec rc 0); [contradiction|].
    reflexivity.
  - revert Hrc. unfold ed448_derive_pub.
    destruct (s390_shake_256 L s (firstn 57 priv) 114) as [rc buf].
    destruct (rc =? 0); cbn [negb]; [|reflexivity].
    match goal with
    | |- context [lift ?f ?s0] =>
        destruct (lift f s0) as [[[[rc' rx] ry] blk] s']
    end.
    destruct (rc' =? 0); cbn [negb fst snd]; [|reflexivity].
    intros Hrc. contradiction Hrc. reflexivity.
Qed.

(** ** Statistics counters *)

Lemma lib_since_app (s l : lib_trace) : lib_since s (s ++ l) = l.
Proof.
  unfold lib_since. rewrite skipn_app, Nat.sub_diag, skipn_O.
  rewrite skipn_all2 by lia. reflexivity.
Qed.

Lemma stats_increments_app (c : stats_counter) (l m : lib_trace) :
  stats_increments c (l ++ m)
  = (stats_increments c l + stats_increments c m)%nat.
Proof.
  unfold stats_increments. rewrite filter_app, length_app. reflexivity.
Qed.

Lemma stats_increments_Core (c : stats_counter) (l : trace) :
  stats_increments c (map Core l) = 0%nat.
Proof.
  induction l as [|e l IH]; [reflexivity|]. exact IH.
Qed.

Lemma lift_extension {A : Type} (f : trace -> A * trace) (s : lib_trace)
    (l : trace) :
  snd (f (core s)) = core s ++ l ->
  lift f s = (fst (f (core s)), s ++ map Core l).
Proof.
  intros Hf. apply lift_app. rewrite <- Hf. apply surjective_pairing.
Qed.

Lemma scalar_mulx_cpacf_extends (H : header) (E : environ)
    (res_u : option (list Z)) (scalar u : list Z) (curve_nid : Z)
    (t : trace) :
  exists l, snd (scalar_mulx_cpacf H E res_u scalar u curve_nid t) = t ++ l.
Proof.
  unfold scalar_mulx_cpacf.
  repeat match goal with
         | |- context [if ?b then _ else _] => destruct b
         | |- context [s390_pcc E ?a ?b ?c] => destruct (s390_pcc E a b c)
         end; cbn [snd];
    first [ eexists; reflexivity | exists []; symmetry; apply app_nil_r ].
Qed.

(** X18. What the key generation counters count. [x25519_derive_pub] and
    [x448_derive_pub] increment their counter exactly once in every call,
    failed or not; [ed25519_derive_pub] and [ed448_derive_pub] increment
    theirs exactly once when they return 0 and not at all otherwise. *)
Theorem derive_pub_counts_keygen :
  forall (H : header) (E : environ) (L : library) (s : lib_trace)
         (res_x0 pub priv : list Z),
    let count c (r : Z * list Z * lib_trace) :=
      stats_increments c (lib_since s (snd r)) in
    let once_if_zero (r : Z * list Z * lib_trace) :=
      if fst (fst r) =? 0 then 1%nat else 0%nat in
    count ICA_STATS_X25519_KEYGEN (x25519_derive_pub H E pub priv s) = 1%nat
    /\ count ICA_STATS_X448_KEYGEN (x448_derive_pub H E pub priv s) = 1%nat
    /\ count ICA_STATS_ED25519_KEYGEN
             (ed25519_derive_pub H E L res_x0 pub priv s)
       = once_if_zero (ed25519_derive_pub H E L res_x0 pub priv s)
    /\ count ICA_STATS_ED448_KEYGEN (ed448_derive_pub H E L pub priv s)
       = once_if_zero (ed448_derive_pub H E L pub priv s).
Proof.
  intros H E L s res_x0 pub priv count once_if_zero.
  subst count once_if_zero. cbv beta.
  split; [|split; [|split]].
  - unfold x25519_derive_pub.
    destruct (scalar_mulx_cpacf_extends H E (Some pub) priv x25519_base_u
                NID_X25519 (core s)) as [l Hl].
    rewrite (lift_extension _ s l Hl).
    destruct (scalar_mulx_cpacf H E (Some pub) priv x25519_base_u
                NID_X25519 (core s)) as [[[rc ru] blk] t1].
    cbn [fst snd]. rewrite <- app_assoc, lib_since_app.
    rewrite stats_increments_app, stats_increments_Core. reflexivity.
  - unfold x448_derive_pub.
    destruct (scalar_mulx_cpacf_extends H E (Some pub) priv x448_base_u
                NID_X448 (core s)) as [l Hl].
    rewrite (lift_extension _ s l Hl).
    destruct (scalar_mulx_cpacf H E (Some pub) priv x448_base_u
                NID_X448 (core s)) as [[[rc ru] blk] t1].
    cbn [fst snd]. rewrite <- app_assoc, lib_since_app.
    rewrite stats_increments_app, stats_increments_Core. reflexivity.
  - unfold ed25519_derive_pub.
    destruct (s390_sha512 L s (firstn 32 priv)) as [rc buf].
    destruct (Z.eqb_spec rc 0) as [-> | Hrc]; cbn [negb].
    2:{ cbn [fst snd]. rewrite lib_since_app.
        destruct (Z.eqb_spec rc 0); [contradiction | reflexivity]. }
    match goal with
    | |- context [lift ?f ?s1] =>
        match f with
        | scalar_mul_cpacf H E ?a ?b ?c ?d ?e ?n =>
            destruct (scalar_mul_cpacf_silent H E a b c d e n (core s1))
              as (l & Hl & _);
            rewrite (lift_extension f s1 l Hl);
            destruct (scalar_mul_cpacf H E a b c d e n (core s1))
              as [[[[rc1 rx] ry] blk] t1]
        end
    end.
    cbn [fst snd].
    destruct (Z.eqb_spec rc1 0) as [-> | Hrc1]; cbn [negb fst snd].
    + rewrite <- !app_assoc, lib_since_app.
      rewrite !stats_increments_app, stats_increments_Core. reflexivity.
    + rewrite <- !app_assoc, lib_since_app.
      rewrite !stats_increments_app, stats_increments_Core.
      destruct (Z.eqb_spec rc1 0); [contradiction | reflexivity].
  - unfold ed448_derive_pub.
    destruct (s390_shake_256 L s (firstn 57 priv) 114) as [rc buf].
    destruct (Z.eqb_spec rc 0) as [-> | Hrc]; cbn [negb].
    2:{ cbn [fst snd]. rewrite lib_since_app.
        destruct (Z.eqb_spec rc 0); [contradiction | reflexivity]. }
    match goal with
    | |- context [lift ?f ?s1] =>
        match f with
        | scalar_mul_cpacf H E ?a ?b ?c ?d ?e ?n =>
            destruct (scalar_mul_cpacf_silent H E a b c d e n (core s1))
              as (l & Hl & _);
            rewrite (lift_extension f s1 l Hl);
            destruct (scalar_mul_cpacf H E a b c d e n (core s1))
              as [[[[rc1 rx] ry] blk] t1]
        end
    end.
    cbn [fst snd].
    destruct (Z.eqb_spec rc1 0) as [-> | Hrc1]; cbn [negb fst snd].
    + rewrite <- !app_assoc, lib_since_app.
      rewrite !stats_increments_app, stats_increments_Core. reflexivity.
    + rewrite <- !app_assoc, lib_since_app.
      rewrite !stats_increments_app, stats_increments_Core.
      destruct (Z.eqb_spec rc1 0); [contradiction | reflexivity].
Qed.

(** ** Refusals and outputs of the software entry points *)

Lemma core_snoc_Core (s : lib_trace) (e : event) :
  core (s ++ [Core e]) = core s ++ [e].
Proof. rewrite core_app. reflexivity. Qed.

(** X19. How the software entry points refuse. When the library runs in
    FIPS mode and OpenSSL does not, [ecdh_sw], [ecdsa_sign_sw],
    [eckeygen_sw] and [ecdsa_verify_sw] return [EACCES] after the one call
    of [FIPS_mode]; when OpenSSL does not know the curve, they return
    [EINVAL] after the one attempt to create its group. In both cases the
    output buffer, respectively the key, is as it was. *)
Theorem software_entry_points_refuse :
  forall (H : header) (E : environ) (L : library) (C : config)
         (key peer : ICA_EC_KEY) (hash : list Z) (hash_length : Z)
         (out : list Z) (s : lib_trace),
    (fips_test E C s = None ->
     let s' := s ++ [Core (EvOpenSSL call_FIPS_mode)] in
     ecdh_sw H E L C key peer out s = (EACCES, out, s')
     /\ ecdsa_sign_sw H E L C key hash hash_length out s = (EACCES, out, s')
     /\ eckeygen_sw H E L C key s = (EACCES, key, s')
     /\ ecdsa_verify_sw H E C key hash hash_length out (core s)
        = (EACCES, core s'))
    /\ (forall s1,
          fips_test E C s = Some s1 ->
          openssl_ok E (core s1) (call_EC_GROUP_new_by_curve_name (nid key))
          = false ->
          let s' :=
            s1 ++ [Core (EvOpenSSL
                           (call_EC_GROUP_new_by_curve_name (nid key)))] in
          ecdh_sw H E L C key peer out s = (EINVAL, out, s')
          /\ ecdsa_sign_sw H E L C key hash hash_length out s
             = (EINVAL, out, s')
          /\ eckeygen_sw H E L C key s = (EINVAL, key, s')
          /\ ecdsa_verify_sw H E C key hash hash_length out (core s)
             = (EINVAL, core s')).
Proof.
  intros H E L C key peer hash hash_length out s.
  unfold fips_test, ecdh_sw, ecdsa_sign_sw, eckeygen_sw, ecdsa_verify_sw,
    is_supported_openssl_curve.
  split.
  - destruct (ICA_FIPS C && fips_ICA_FIPS_MODE C); [|discriminate].
    rewrite ?lift_openssl. unfold openssl.
    destruct (openssl_ok E (core s) call_FIPS_mode); [discriminate|].
    intros _. cbv zeta. cbn [negb]. rewrite core_snoc_Core.
    repeat split; reflexivity.
  - intros s1.
    destruct (ICA_FIPS C && fips_ICA_FIPS_MODE C).
    + rewrite ?lift_openssl. unfold openssl.
      destruct (openssl_ok E (core s) call_FIPS_mode); [|discriminate].
      intros [= <-] Hc. cbv zeta. cbn [negb].
      rewrite ?lift_openssl. rewrite core_snoc_Core in Hc.
      rewrite !core_snoc_Core.
      rewrite !Hc. cbn [negb].
      repeat split; reflexivity.
    + intros [= <-] Hc. cbv zeta.
      rewrite ?lift_openssl. unfold openssl. rewrite !Hc. cbn [negb].
      rewrite core_snoc_Core.
      repeat split; reflexivity.
Qed.



(** ** The software entry points when OpenSSL succeeds *)

Lemma make_eckey_reliable (E : environ) (L : library) (nid_ : Z)
    (p : list Z) (plen : Z) (s : lib_trace) (pt : Z * Z) :
  openssl_reliable E L ->
  let d := be_value (firstn (Z.to_nat plen) p) in
  (forall th, EC_POINT_mul E th nid_ d = Some pt) ->
  make_eckey E L nid_ p plen s
  = (Some {| ekp_nid := nid_; ekp_priv := d; ekp_pub := pt |},
     s ++ make_eckey_calls nid_ d).
Proof.
  intros [Hok Hlib] d Hmul. unfold make_eckey.
  rewrite !lift_openssl, !Hok. cbn [negb].
  rewrite lift_BN_bin2bn, Hok. fold d.
  rewrite Hlib. cbn [negb].
  rewrite lift_openssl, Hok. cbn [negb].
  match goal with
  | |- context [lift ?f ?s0] =>
      rewrite (lift_app f s0 (Some pt) [EvEC_POINT_mul nid_ d])
        by (cbv beta; rewrite Hmul; reflexivity)
  end.
  rewrite lift_openssl, Hok. cbn [negb map].
  unfold make_eckey_calls. rewrite <- !app_assoc. reflexivity.
Qed.

Lemma fips_test_reliable (E : environ) (C : config) (s s1 : lib_trace) :
  (forall th c, openssl_ok E th c = true) ->
  fips_test E C s = Some s1 ->
  (if ICA_FIPS C && fips_ICA_FIPS_MODE C
   then let '(m, s0) := lift (openssl E call_FIPS_mode) s in (negb m, s0)
   else (false, s))
  = (false, s1).
Proof.
  intros Hok. unfold fips_test.
  destruct (ICA_FIPS C && fips_ICA_FIPS_MODE C).
  - rewrite lift_openssl, Hok. intros [= <-]. reflexivity.
  - intros [= <-]. reflexivity.
Qed.

Lemma memcpy_behind (A B src : list Z) (o m : nat) :
  memcpy (A ++ B) (length A + o) src m = A ++ memcpy B o src m.
Proof.
  unfold memcpy.
  rewrite firstn_app, firstn_all2 by lia.
  replace (length A + o - length A)%nat with o by lia.
  rewrite skipn_app, skipn_all2 by lia.
  replace (length A + o + m - length A)%nat with (o + m)%nat by lia.
  rewrite <- !app_assoc. reflexivity.
Qed.

(** [bn_to_fixed] on a buffer that has room for [privlen] bytes. *)
Lemma bn_to_fixed_left_padded (buf : list Z) (privlen v : Z) :
  0 <= privlen < 2 ^ 32 -> BN_num_bytes v <= privlen ->
  (Z.to_nat privlen <= length buf)%nat ->
  bn_to_fixed buf privlen v
  = left_padded (Z.to_nat privlen) v ++ skipn (Z.to_nat privlen) buf.
Proof.
  intros Hp Hv Hb. pose proof (BN_num_bytes_nonneg v) as Hn.
  unfold bn_to_fixed, left_padded.
  rewrite u32_small by lia.
  replace (Z.to_nat (privlen - BN_num_bytes v))
    with (Z.to_nat privlen - Z.to_nat (BN_num_bytes v))%nat by lia.
  set (nb := Z.to_nat (BN_num_bytes v)).
  set (k := (Z.to_nat privlen - nb)%nat).
  assert (Hk : Z.to_nat privlen = (k + nb)%nat) by (unfold k, nb; lia).
  assert (H1 : memcpy buf 0 (zeros k) k = zeros k ++ skipn k buf).
  { unfold memcpy. cbn [firstn app Nat.add].
    rewrite firstn_all2 by (rewrite length_zeros; lia). reflexivity. }
  rewrite H1.
  pose proof (memcpy_behind (zeros k) (skipn k buf) (BN_bn2bin v) 0 nb) as M.
  rewrite length_zeros, Nat.add_0_r in M. rewrite M.
  unfold memcpy. cbn [firstn app Nat.add].
  rewrite firstn_all2 by (rewrite length_BN_bn2bin; fold nb; lia).
  rewrite skipn_skipn, <- app_assoc.
  replace (nb + k)%nat with (Z.to_nat privlen) by lia. reflexivity.
Qed.

(** The signature [ecdsa_sign_sw] writes for [(r, s)]. *)
Lemma ecdsa_sign_sw_format (sig : list Z) (privlen r s_ : Z) :
  0 <= privlen < 2 ^ 32 ->
  BN_num_bytes r <= privlen -> BN_num_bytes s_ <= privlen ->
  let n := Z.to_nat privlen in
  (2 * n <= length sig)%nat ->
  let k := Z.to_nat (u32 (privlen - BN_num_bytes s_)) in
  memcpy (memcpy (bn_to_fixed sig privlen r) n (zeros k) k)
         (n + k) (BN_bn2bin s_) (Z.to_nat (BN_num_bytes s_))
  = left_padded n r ++ left_padded n s_ ++ skipn (2 * n) sig.
Proof.
  intros Hp Hr Hs n Hl k.
  rewrite bn_to_fixed_left_padded by (assumption || (fold n; lia)).
  fold n.
  assert (Ln : length (left_padded n r) = n).
  { apply length_left_padded. unfold n. lia. }
  pose proof (memcpy_behind (left_padded n r) (skipn n sig) (zeros k) 0 k)
    as M1.
  rewrite Ln, Nat.add_0_r in M1. rewrite M1.
  pose proof (memcpy_behind (left_padded n r)
                (memcpy (skipn n sig) 0 (zeros k) k) (BN_bn2bin s_) k
                (Z.to_nat (BN_num_bytes s_))) as M2.
  rewrite Ln in M2. rewrite M2.
  f_equal.
  change (memcpy (memcpy (skipn n sig) 0 (zeros k) k) k (BN_bn2bin s_)
                 (Z.to_nat (BN_num_bytes s_)))
    with (bn_to_fixed (skipn n sig) privlen s_).
  rewrite bn_to_fixed_left_padded
    by (assumption || (fold n; rewrite length_skipn; lia)).
  fold n. rewrite skipn_skipn.
  replace (n + n)%nat with (2 * n)%nat by lia. reflexivity.
Qed.

Lemma firstn_app_exact (l m : list Z) (n : nat) :
  length l = n -> firstn n (l ++ m) = l.
Proof.
  intros Hl. rewrite firstn_app, Hl, Nat.sub_diag, firstn_O, app_nil_r.
  apply firstn_all2. lia.
Qed.

Lemma skipn_app_exact (l m : list Z) (n : nat) :
  length l = n -> skipn n (l ++ m) = m.
Proof.
  intros Hl. rewrite skipn_app, Hl, Nat.sub_diag, skipn_O.
  rewrite skipn_all2 by lia. reflexivity.
Qed.

(** X21. The signature of [ecdsa_sign_sw]. When OpenSSL's allocations and
    setters succeed and [ECDSA_do_sign] answers [(r, s)], both
    non-negative and no longer than the private key, the function returns
    0 and the signature buffer starts with [r] and [s] in big-endian
    digits, each left-padded with zeros to the private-key length; what
    the buffer holds behind them is kept. The key handed to OpenSSL has
    the private scalar read from [D] and the public point OpenSSL computed
    from it. *)
Theorem ecdsa_sign_sw_signature :
  forall (H : header) (E : environ) (L : library) (C : config)
         (key : ICA_EC_KEY) (hash : list Z) (hash_length : Z)
         (sig : list Z) (s s1 : lib_trace) (d0 : list Z) (pt : Z * Z)
         (r s_ : Z),
    let privlen := privlen_from_nid H (nid key) in
    let n := Z.to_nat privlen in
    let d := be_value (firstn n d0) in
    let a := {| ekp_nid := nid key; ekp_priv := d; ekp_pub := pt |} in
    0 <= privlen < 2 ^ 32 ->
    D key = Some d0 ->
    openssl_reliable E L ->
    fips_test E C s = Some s1 ->
    (forall th, EC_POINT_mul E th (nid key) d = Some pt) ->
    (forall sh, ECDSA_do_sign L sh hash hash_length a = Some (r, s_)) ->
    0 <= r -> 0 <= s_ ->
    BN_num_bytes r <= privlen -> BN_num_bytes s_ <= privlen ->
    (2 * n <= length sig)%nat ->
    let sig' := left_padded n r ++ left_padded n s_ ++ skipn (2 * n) sig in
    ecdsa_sign_sw H E L C key hash hash_length sig s
    = (0, sig',
       s1 ++ [Core (EvOpenSSL (call_EC_GROUP_new_by_curve_name (nid key)))]
          ++ make_eckey_calls (nid key) d
          ++ [EvLibcrypto call_EC_KEY_check_key;
              EvECDSA_do_sign (nid key)])
    /\ be_value (firstn n sig') = r
    /\ be_value (firstn n (skipn n sig')) = s_.
Proof.
  intros H E L C key hash hash_length sig s s1 d0 pt r s_ privlen n d a
         Hp HD Hrel Hf Hmul Hsign Hr Hs Hbr Hbs Hl sig'.
  assert (Lr : length (left_padded n r) = n)
    by (apply length_left_padded; unfold n; lia).
  assert (Ls : length (left_padded n s_) = n)
    by (apply length_left_padded; unfold n; lia).
  split; [|split].
  - unfold ecdsa_sign_sw. fold privlen.
    rewrite (u32_small privlen) by lia.
    destruct Hrel as [Hok Hlib].
    rewrite (fips_test_reliable E C s s1 Hok Hf).
    unfold is_supported_openssl_curve.
    rewrite lift_openssl, Hok. cbn [negb].
    rewrite HD. cbn [deref].
    rewrite (make_eckey_reliable E L (nid key) d0 privlen _ pt
               (conj Hok Hlib) Hmul).
    fold n d a. rewrite Hlib, Hsign. cbn [negb].
    fold n.
    rewrite ecdsa_sign_sw_format by (assumption || (fold n; lia)).
    fold n sig'. rewrite <- !app_assoc. reflexivity.
  - unfold sig'. rewrite firstn_app_exact by exact Lr.
    apply be_value_left_padded. exact Hr.
  - unfold sig'. rewrite skipn_app_exact by exact Lr.
    rewrite firstn_app_exact by exact Ls.
    apply be_value_left_padded. exact Hs.
Qed.

Lemma ecdsa_sign_sw_signature_witness :
  let E := quiet_environ blank_reply in
  let d := be_value (repeat 1 32) in
  let sig' := left_padded 32 5 ++ left_padded 32 258 ++ [] in
  ecdsa_sign_sw sample_header E quiet_library card_only sample_private_key
                (repeat 0xAB 20) 20 (zeros 64) []
  = (0, sig',
     [] ++ [Core (EvOpenSSL
                    (call_EC_GROUP_new_by_curve_name NID_X9_62_prime256v1))]
        ++ make_eckey_calls NID_X9_62_prime256v1 d
        ++ [EvLibcrypto call_EC_KEY_check_key;
            EvECDSA_do_sign NID_X9_62_prime256v1])
  /\ be_value (firstn 32 sig') = 5
  /\ be_value (firstn 32 (skipn 32 sig')) = 258.
Proof.
  intros E d sig'.
  apply (ecdsa_sign_sw_signature sample_header E quiet_library card_only
           sample_private_key (repeat 0xAB 20) 20 (zeros 64) [] []
           (repeat 1 32) (d, d) 5 258);
    try reflexivity;
    try (apply quiet_reliable);
    try (intros; reflexivity);
    try (apply Nat.leb_le; reflexivity);
    vm_compute; first [ split; [discriminate | reflexivity] | discriminate ].
Defined.

(** X22. [ecdsa_verify_sw] reads back what [ecdsa_sign_sw] writes. Given a
    signature buffer that holds [r] and [s] left-padded to the private-key
    length, and OpenSSL allocations that succeed, the function hands
    exactly [(r, s)], the hash and the public key read from [X] and [Y] to
    [ECDSA_do_verify], and its return code is the verdict of that call. *)
Theorem ecdsa_verify_sw_reads_signature :
  forall (H : header) (E : environ) (C : config) (pub : ICA_EC_KEY)
         (hash : list Z) (hash_length : Z) (rest : list Z) (t : trace)
         (x0 y0 : list Z) (r s_ : Z),
    let privlen := privlen_from_nid H (nid pub) in
    let n := Z.to_nat privlen in
    0 <= privlen < 2 ^ 32 ->
    X pub = Some x0 -> Y pub = Some y0 ->
    (forall th c, openssl_ok E th c = true) ->
    0 <= r -> 0 <= s_ ->
    BN_num_bytes r <= privlen -> BN_num_bytes s_ <= privlen ->
    let sig := left_padded n r ++ left_padded n s_ ++ rest in
    let a := {| ek_nid := nid pub;
                ek_pub := Some (be_value (firstn n x0),
                                be_value (firstn n y0)) |} in
    let t1 :=
      if ICA_FIPS C && fips_ICA_FIPS_MODE C
      then t ++ [EvOpenSSL call_FIPS_mode] else t in
    let th :=
      t1 ++ [EvOpenSSL (call_EC_GROUP_new_by_curve_name (nid pub));
             EvOpenSSL call_BN_bin2bn; EvOpenSSL call_BN_bin2bn]
         ++ make_public_eckey_calls (nid pub)
         ++ [EvOpenSSL call_ECDSA_SIG_new;
             EvOpenSSL call_BN_bin2bn; EvOpenSSL call_BN_bin2bn] in
    ecdsa_verify_sw H E C pub hash hash_length sig t
    = (library_verdict
         (ECDSA_do_verify E th hash hash_length (Some r, Some s_) a),
       th ++ [EvECDSA_do_verify (nid pub)]).
Proof.
  intros H E C pub hash hash_length rest t x0 y0 r s_ privlen n
         Hp HX HY Hok Hr Hs Hbr Hbs sig a t1 th.
  assert (Lr : length (left_padded n r) = n)
    by (apply length_left_padded; unfold n; lia).
  assert (Ls : length (left_padded n s_) = n)
    by (apply length_left_padded; unfold n; lia).
  assert (Vr : be_value (firstn n sig) = r).
  { unfold sig. rewrite firstn_app_exact by exact Lr.
    apply be_value_left_padded. exact Hr. }
  assert (Vs : be_value (firstn n (skipn n sig)) = s_).
  { unfold sig. rewrite skipn_app_exact by exact Lr.
    rewrite firstn_app_exact by exact Ls.
    apply be_value_left_padded. exact Hs. }
  unfold ecdsa_verify_sw, is_supported_openssl_curve, BN_bin2bn, openssl.
  fold privlen. rewrite (u32_small privlen) by lia. fold n.
  rewrite HX, HY. cbn [deref].
  subst th t1.
  destruct (ICA_FIPS C && fips_ICA_FIPS_MODE C);
    rewrite !Hok; cbn [negb];
    rewrite make_public_eckey_reliable by exact Hok; fold a;
    rewrite !Hok, Vr, Vs;
    unfold library_verdict, make_public_eckey_calls;
    rewrite <- !app_assoc; cbn [app];
    match goal with
    | |- context [ECDSA_do_verify E ?th hash hash_length ?rs a] =>
        destruct (ECDSA_do_verify E th hash hash_length rs a =? 0);
        [reflexivity|];
        destruct (ECDSA_do_verify E th hash hash_length rs a =? 1);
        reflexivity
    end.
Qed.

Lemma ecdsa_verify_sw_reads_signature_witness :
  let E := quiet_environ blank_reply in
  let sig := left_padded 32 5 ++ left_padded 32 258 ++ [] in
  let a := {| ek_nid := NID_X9_62_prime256v1;
              ek_pub := Some (be_value (repeat 2 32),
                              be_value (repeat 3 32)) |} in
  let th :=
    [] ++ [EvOpenSSL (call_EC_GROUP_new_by_curve_name NID_X9_62_prime256v1);
           EvOpenSSL call_BN_bin2bn; EvOpenSSL call_BN_bin2bn]
       ++ make_public_eckey_calls NID_X9_62_prime256v1
       ++ [EvOpenSSL call_ECDSA_SIG_new;
           EvOpenSSL call_BN_bin2bn; EvOpenSSL call_BN_bin2bn] in
  ecdsa_verify_sw sample_header E card_only sample_p256_key
                  (repeat 0xAB 20) 20 sig []
  = (library_verdict
       (ECDSA_do_verify E th (repeat 0xAB 20) 20 (Some 5, Some 258) a),
     th ++ [EvECDSA_do_verify NID_X9_62_prime256v1]).
Proof.
  intros E sig a th.
  apply (ecdsa_verify_sw_reads_signature sample_header E card_only
           sample_p256_key (repeat 0xAB 20) 20 [] [] (repeat 2 32)
           (repeat 3 32) 5 258);
    try reflexivity;
    try (intros; reflexivity);
    vm_compute; first [ split; [discriminate | reflexivity] | discriminate ].
Defined.

(** X23. [eckeygen_sw] writes the private key before the step that can
    still fail. When OpenSSL generates the key [(d, q)], [D] is
    overwritten with [d], left-padded to the private-key length, and only
    then are the affine coordinates of [q] asked for. If that fails the
    function returns [EIO] with the new [D] beside the old [X] and [Y]; if
    it succeeds it returns 0 with all three written. *)
Theorem eckeygen_sw_writes_private_key_first :
  forall (H : header) (E : environ) (L : library) (C : config)
         (key : ICA_EC_KEY) (s s1 : lib_trace) (d : Z) (q : Z * Z)
         (d0 : list Z),
    let privlen := privlen_from_nid H (nid key) in
    let n := Z.to_nat privlen in
    0 <= privlen < 2 ^ 32 ->
    D key = Some d0 -> length d0 = n ->
    openssl_reliable E L ->
    fips_test E C s = Some s1 ->
    (forall sh, EC_KEY_generate_key L sh (nid key) = Some (d, q)) ->
    0 <= d -> BN_num_bytes d <= privlen ->
    let s3 :=
      s1 ++ [Core (EvOpenSSL (call_EC_GROUP_new_by_curve_name (nid key)));
             Core (EvOpenSSL (call_EC_KEY_new_by_curve_name (nid key)));
             EvLibcrypto call_EC_KEY_get0_group;
             EvEC_KEY_generate_key (nid key);
             Core (EvOpenSSL call_BN_new); Core (EvOpenSSL call_BN_new)] in
    let s4 := s3 ++ [Core (EvEC_POINT_get_affine (nid key))] in
    eckeygen_sw H E L C key s
    = match EC_POINT_get_affine_coordinates_GFp E (core s3) (nid key) q with
      | None =>
          (EIO,
           {| nid := nid key; X := X key; Y := Y key;
              D := Some (left_padded n d) |}, s4)
      | Some (x, y) =>
          (0,
           {| nid := nid key;
              X := option_map (fun b => bn_to_fixed b privlen x) (X key);
              Y := option_map (fun b => bn_to_fixed b privlen y) (Y key);
              D := Some (left_padded n d) |}, s4)
      end
    /\ be_value (left_padded n d) = d.
Proof.
  intros H E L C key s s1 d q d0 privlen n Hp HD Hd [Hok Hlib] Hf Hgen
         H0 Hb s3 s4.
  split; [|apply be_value_left_padded; exact H0].
  unfold eckeygen_sw. fold privlen.
  rewrite (u32_small privlen) by lia.
  rewrite (fips_test_reliable E C s s1 Hok Hf).
  unfold is_supported_openssl_curve.
  rewrite !lift_openssl, !Hok. cbn [negb].
  rewrite Hlib, Hgen. cbn [negb].
  rewrite ?lift_openssl.
  rewrite HD. cbn [option_map nid X Y D].
  rewrite bn_to_fixed_left_padded by (assumption || (fold n; lia)).
  fold n. rewrite skipn_all2, app_nil_r by lia.
  match goal with
  | |- context [lift ?f ?s0] =>
      assert (Hs0 : s0 = s3)
        by (unfold s3; rewrite <- !app_assoc; reflexivity);
      rewrite Hs0;
      rewrite (lift_app f s3
                 (EC_POINT_get_affine_coordinates_GFp E (core s3)
                    (nid key) q)
                 [EvEC_POINT_get_affine (nid key)]) by reflexivity
  end.
  cbn [map]. fold s4.
  destruct (EC_POINT_get_affine_coordinates_GFp E (core s3) (nid key) q)
    as [[x y]|]; reflexivity.
Qed.

Lemma eckeygen_sw_writes_private_key_first_witness :
  let E := {| s390_pcc := fun _ _ param => (0, param);
              s390_kdsa := fun _ _ param => (0, param);
              malloc := fun _ _ => true;
              ioctl := fun _ _ _ _ _ => (0, blank_reply);
              sys_bus_ap_domain := fun _ => 0;
              openssl_ok := fun _ _ => true;
              BN_rand_range := fun _ _ => Some 1;
              EC_POINT_mul := fun _ _ d => Some (d, d);
              EC_POINT_get_affine_coordinates_GFp := fun _ _ _ => None;
              ECDSA_do_verify := fun _ _ _ _ _ => 1 |} in
  let s4 :=
    [Core (EvOpenSSL (call_EC_GROUP_new_by_curve_name NID_X9_62_prime256v1));
     Core (EvOpenSSL (call_EC_KEY_new_by_curve_name NID_X9_62_prime256v1));
     EvLibcrypto call_EC_KEY_get0_group;
     EvEC_KEY_generate_key NID_X9_62_prime256v1;
     Core (EvOpenSSL call_BN_new); Core (EvOpenSSL call_BN_new);
     Core (EvEC_POINT_get_affine NID_X9_62_prime256v1)] in
  eckeygen_sw sample_header E quiet_library card_only sample_p256_key []
  = (EIO,
     {| nid := NID_X9_62_prime256v1;
        X := Some (repeat 2 32); Y := Some (repeat 3 32);
        D := Some (left_padded 32 7) |}, s4)
  /\ be_value (left_padded 32 7) = 7.
Proof.
  intros E s4.
  apply (eckeygen_sw_writes_private_key_first sample_header E quiet_library
           card_only sample_p256_key [] [] 7 (8, 9) (repeat 1 32));
    try reflexivity;
    try (split; intros; reflexivity);
    vm_compute; first [ split; [discriminate | reflexivity] | discriminate ].
Defined.

(** X24. [ecdh_sw]. When OpenSSL's allocations and setters succeed, the
    function compares the byte length of the curve's degree with the
    private-key length and returns [EIO] without computing anything if
    they differ. Otherwise [ECDH_compute_key] is called once, with the
    caller's buffer [z], the private-key length, the peer's point read
    from [X] and [Y] and the private key read from [D]; the function
    returns [EIO] if that call answers 0 and 0 for every other answer,
    negative ones included. *)
Theorem ecdh_sw_shared_secret :
  forall (H : header) (E : environ) (L : library) (C : config)
         (key peer : ICA_EC_KEY) (z : list Z) (s s1 : lib_trace)
         (d0 x0 y0 : list Z) (pt : Z * Z) (deg : Z),
    let privlen := privlen_from_nid H (nid key) in
    let n := Z.to_nat privlen in
    let d := be_value (firstn n d0) in
    let a := {| ekp_nid := nid key; ekp_priv := d; ekp_pub := pt |} in
    let b := Some (be_value (firstn n x0), be_value (firstn n y0)) in
    0 <= privlen < 2 ^ 32 ->
    D key = Some d0 -> X peer = Some x0 -> Y peer = Some y0 ->
    openssl_reliable E L ->
    fips_test E C s = Some s1 ->
    (forall th, EC_POINT_mul E th (nid key) d = Some pt) ->
    (forall sh, EC_GROUP_get_degree L sh (nid key) = deg) ->
    let s2 :=
      s1 ++ [Core (EvOpenSSL (call_EC_GROUP_new_by_curve_name (nid key)))]
         ++ make_eckey_calls (nid key) d
         ++ [Core (EvOpenSSL call_BN_bin2bn);
             Core (EvOpenSSL call_BN_bin2bn)]
         ++ map Core (make_public_eckey_calls (nid key))
         ++ [EvEC_GROUP_get_degree (nid key)] in
    let r := ECDH_compute_key L s2 z privlen b a in
    ecdh_sw H E L C key peer z s
    = if u32 (Z.quot (deg + 7) 8) =? privlen
      then ((if fst r =? 0 then EIO else 0), snd r,
            s2 ++ [EvECDH_compute_key (nid key) privlen])
      else (EIO, z, s2).
Proof.
  intros H E L C key peer z s s1 d0 x0 y0 pt deg privlen n d a b
         Hp HD HX HY [Hok Hlib] Hf Hmul Hdeg s2 r.
  unfold ecdh_sw. fold privlen.
  rewrite (u32_small privlen) by lia.
  rewrite (fips_test_reliable E C s s1 Hok Hf).
  unfold is_supported_openssl_curve.
  rewrite lift_openssl, Hok. cbn [negb].
  rewrite HD, HX, HY. cbn [deref].
  rewrite (make_eckey_reliable E L (nid key) d0 privlen _ pt
             (conj Hok Hlib) Hmul).
  fold n d a.
  rewrite !lift_BN_bin2bn, !Hok. fold n.
  match goal with
  | |- context [lift ?f ?s0] =>
      rewrite (lift_app f s0
                 (Some {| ek_nid := nid key;
                          ek_pub := Some (be_value (firstn n x0),
                                          be_value (firstn n y0)) |})
                 (make_public_eckey_calls (nid key)))
        by (apply make_public_eckey_reliable; exact Hok)
  end.
  rewrite Hdeg. cbn [ek_pub]. fold b.
  match goal with
  | |- context [ECDH_compute_key L ?s0 z privlen b a] =>
      assert (Hs0 : s0 = s2)
        by (unfold s2; rewrite <- !app_assoc; reflexivity);
      rewrite !Hs0
  end.
  fold r.
  destruct (u32 (Z.quot (deg + 7) 8) =? privlen); cbn [negb];
    [|reflexivity].
  destruct r as [rc z']. cbn [fst snd].
  destruct (rc =? 0); reflexivity.
Qed.

Lemma ecdh_sw_shared_secret_witness :
  let E := quiet_environ blank_reply in
  let L := {| libcrypto_ok := fun _ _ => true;
              EC_GROUP_get_degree := fun _ _ => 256;
              ECDH_compute_key := fun _ z _ _ _ => (-1, z);
              ECDSA_do_sign := fun _ _ _ _ => Some (5, 258);
              EC_KEY_generate_key := fun _ _ => Some (7, (8, 9));
              s390_sha512 := fun _ _ => (0, repeat 0xFF 64);
              s390_shake_256 := fun _ _ n => (0, repeat 0xFF n) |} in
  let d := be_value (repeat 1 32) in
  let s2 :=
    [] ++ [Core (EvOpenSSL
                   (call_EC_GROUP_new_by_curve_name NID_X9_62_prime256v1))]
       ++ make_eckey_calls NID_X9_62_prime256v1 d
       ++ [Core (EvOpenSSL call_BN_bin2bn); Core (EvOpenSSL call_BN_bin2bn)]
       ++ map Core (make_public_eckey_calls NID_X9_62_prime256v1)
       ++ [EvEC_GROUP_get_degree NID_X9_62_prime256v1] in
  ecdh_sw sample_header E L card_only sample_private_key sample_peer_key
          (zeros 32) []
  = (0, zeros 32, s2 ++ [EvECDH_compute_key NID_X9_62_prime256v1 32]).
Proof.
  intros E L d s2.
  apply (ecdh_sw_shared_secret sample_header E L card_only
           sample_private_key sample_peer_key (zeros 32) [] []
           (repeat 1 32) (repeat 4 32) (repeat 5 32) (d, d) 256);
    try reflexivity;
    try (split; intros; reflexivity);
    try (intros; reflexivity);
    vm_compute; first [ split; [discriminate | reflexivity] | discriminate ].
Defined.
